(** * Noven Pro warehouse backend: deliveries and delivery items

    A shallow embedding of [src/main.py] and [src/schemas.py]: the request
    handlers of the delivery / delivery-item API, over an explicit model of
    the MongoDB collections they read and write.  Handlers are programs of
    a state-and-exception monad: the state is the database together with
    the clock and the identifier source, and an exception leaves the writes
    made before it in place, as in the Python code, which has no rollback.
    Identifiers are the bytes [bson.ObjectId] holds, and the driver's
    limit of 8 bytes per integer is part of every update. *)

From stdpp Require Import gmap strings list fin_maps sorting.
From Stdlib Require Import ZArith NArith Ascii String Lia.

Local Open Scope string_scope.
Local Open Scope Z_scope.

(** ** BSON object identifiers *)

(** [bson.ObjectId]: the bytes [__id] of the identifier, each an 8-bit
    character.  The driver's generator makes 12 of them; [ObjectId(s)]
    takes what [bytes.fromhex] makes of the 24 characters of [s]. *)
Definition ObjectId : Type := list ascii.

Global Instance ObjectId_eq_dec : EqDecision ObjectId := list_eq_dec.
Global Instance ObjectId_countable : Countable ObjectId := list_countable.
Global Typeclasses Opaque ObjectId.

Module Oid.

(** Value of one hexadecimal character; both cases are accepted. *)
Definition hex_val (a : ascii) : option N :=
  let n := N_of_ascii a in
  if ((48 <=? n) && (n <=? 57))%N then Some (n - 48)%N
  else if ((97 <=? n) && (n <=? 102))%N then Some (n - 87)%N
  else if ((65 <=? n) && (n <=? 70))%N then Some (n - 55)%N
  else None.

(** Lower-case hexadecimal character of a value below 16. *)
Definition hex_chr (m : N) : ascii :=
  ascii_of_N (if (m <? 10)%N then 48 + m else 87 + m)%N.

(** The ASCII whitespace [bytes.fromhex] skips: tab, line feed, vertical
    tab, form feed, carriage return and space. *)
Definition is_space (a : ascii) : bool :=
  let n := N_of_ascii a in
  (((9 <=? n) && (n <=? 13)) || (n =? 32))%N.

(** [bytes.fromhex(s)]: pairs of hexadecimal digits, with whitespace
    allowed before, between and after the pairs but not inside one;
    [None] for the [ValueError]. *)
Fixpoint fromhex (s : string) : option (list ascii) :=
  match s with
  | EmptyString => Some []
  | String a s' =>
      if is_space a then fromhex s'
      else
        match hex_val a, s' with
        | Some hi, String b s'' =>
            match hex_val b with
            | Some lo => cons (ascii_of_N (hi * 16 + lo)) <$> fromhex s''
            | None => None
            end
        | _, _ => None
        end
  end.

(** [binascii.hexlify(bs)]: two lower-case digits per byte. *)
Fixpoint hexlify (bs : list ascii) : string :=
  match bs with
  | [] => EmptyString
  | b :: bs' =>
      let n := N_of_ascii b in
      String (hex_chr (n / 16)) (String (hex_chr (n mod 16)) (hexlify bs'))
  end.

(** [ObjectId(id_str)] for a [str] argument: the string must have 24
    characters and [bytes.fromhex] must accept it; anything else raises
    [InvalidId] ([None] here).  A string with whitespace among its 24
    characters gives an identifier of fewer than 12 bytes. *)
Definition parse (s : string) : option ObjectId :=
  if Nat.eqb (String.length s) 24 then fromhex s else None.

(** [str(oid)]: the bytes in lower-case hexadecimal. *)
Definition str (o : ObjectId) : string := hexlify o.

(** The [k] low bytes of a number, most significant first. *)
Fixpoint be_bytes (k : nat) (n : N) : list ascii :=
  match k with
  | O => []
  | S k' => ascii_of_N ((n / 256 ^ N.of_nat k') mod 256) :: be_bytes k' n
  end.

(** A freshly generated identifier: the 12 bytes of the generator's
    output. *)
Definition generate (seed : N) : ObjectId := be_bytes 12 seed.

(** The order of identifiers: their bytes, compared from the first. *)
Fixpoint leb (a b : ObjectId) : bool :=
  match a, b with
  | [], _ => true
  | _ :: _, [] => false
  | x :: a', y :: b' =>
      if (N_of_ascii x <? N_of_ascii y)%N then true
      else if (N_of_ascii y <? N_of_ascii x)%N then false
      else leb a' b'
  end.

End Oid.

(** ** Documents *)

(** Field values.  [Iso t] stands for the [str] that [t.isoformat()]
    returns for the datetime [t]; timestamps are opaque integers. *)
Inductive Scalar :=
| Null
| Int (z : Z)
| Str (s : string)
| Datetime (t : Z)
| Iso (t : Z)
| Oid (o : ObjectId).

Inductive Value :=
| Sc (x : Scalar)
| Sub (d : gmap string Scalar).

Coercion Sc : Scalar >-> Value.

Global Instance Scalar_eq_dec : EqDecision Scalar.
Proof. solve_decision. Defined.

Global Instance Value_eq_dec : EqDecision Value.
Proof. solve_decision. Defined.

(** A Python [dict] with [str] keys: request bodies, [$set] arguments,
    the fields of a stored document other than [_id], response bodies. *)
Abbreviation Dict := (gmap string Value).

(** A document as a collection holds it and as [find_one] returns it. *)
Record Document := mkDocument { _id : ObjectId; fields : Dict }.

(** [doc.get(k)] / [doc[k]] on a document read from a collection. *)
Definition doc_get (d : Document) (k : string) : option Value :=
  if String.eqb k "_id" then Some (Sc (Oid (_id d))) else fields d !! k.

(** [doc.get(k, dflt)]. *)
Definition doc_get_default (d : Document) (k : string) (dflt : Value) : Value :=
  default dflt (doc_get d k).

(** A collection, keyed by [_id] (MongoDB's unique primary index). *)
Abbreviation Collection := (gmap ObjectId Dict).

Definition documents (c : Collection) : list Document :=
  (λ kv, mkDocument kv.1 kv.2) <$> map_to_list c.

(** ** Exceptions and the handler monad *)

Inductive Exception :=
| HTTPException (status_code : Z) (detail : string)
| TypeError
| ValueError
| ValidationError
| InvalidId
| DuplicateKeyError
| OverflowError.

Inductive Result (A : Type) :=
| Ok (a : A)
| Raise (e : Exception).
Arguments Ok {A} a.
Arguments Raise {A} e.

(** The world a handler runs in: the database [db] (collection name to
    collection; a name never written to is the empty collection), the
    successive readings of [datetime.now(timezone.utc)], and the
    successive outputs of the driver's ObjectId generator.  Two library
    behaviours that the sources do not contain are taken from the world
    as well: [int_str s] is what Python's [int(s)] makes of the str [s]
    ([None] for its [ValueError]), and [wide_sum s] is what [int()]
    makes of the floating-point number the server answers when a [$sum]
    of integers, [s] taken exactly, does not fit in 64 bits. *)
Record World := mkWorld {
  db : gmap string Collection;
  utc : nat → Z;
  ticks : nat;
  oid_source : nat → N;
  oids_drawn : nat;
  int_str : string → option Z;
  wide_sum : Z → Z
}.

Definition M (A : Type) : Type := World → Result A * World.

Definition ret {A} (a : A) : M A := λ w, (Ok a, w).
Definition raise {A} (e : Exception) : M A := λ w, (Raise e, w).
Definition bind {A B} (m : M A) (f : A → M B) : M B :=
  λ w, match m w with
       | (Ok a, w') => f a w'
       | (Raise e, w') => (Raise e, w')
       end.

Global Instance M_ret : MRet M := @ret.
Global Instance M_bind : MBind M := λ A B f m, bind m f.

(** [for x in l: acc = body acc x], from the initial [acc]. *)
Fixpoint for_each {A S} (l : list A) (acc : S) (body : S → A → M S) : M S :=
  match l with
  | [] => ret acc
  | x :: l' => acc' ← body acc x; for_each l' acc' body
  end.

(** [datetime.now(timezone.utc)]: the next reading of the clock. *)
Definition tick (w : World) : World :=
  mkWorld (db w) (utc w) (S (ticks w)) (oid_source w) (oids_drawn w)
          (int_str w) (wide_sum w).

Definition datetime_now : M Z := λ w, (Ok (utc w (ticks w)), tick w).

(** [ObjectId()]: the next identifier of the driver's generator. *)
Definition ObjectId_new : M ObjectId :=
  λ w, (Ok (Oid.generate (oid_source w (oids_drawn w))),
        mkWorld (db w) (utc w) (ticks w) (oid_source w) (S (oids_drawn w))
                (int_str w) (wide_sum w)).

(** [int(v)]: the identity on an int; a str is read as the interpreter
    reads it; [None], datetimes, identifiers and sub-documents raise
    [TypeError].  The str of a datetime is no number. *)
Definition int_of (w : World) (v : Value) : Result Z :=
  match v with
  | Sc (Int z) => Ok z
  | Sc (Str s) => from_option Ok (Raise ValueError) (int_str w s)
  | Sc (Iso _) => Raise ValueError
  | _ => Raise TypeError
  end.

Definition py_int (v : Value) : M Z := λ w, (int_of w v, w).

(** ** The MongoDB operations the handlers use *)

(** [db[name]]. *)
Definition collection (name : string) (w : World) : Collection :=
  default ∅ (db w !! name).

Definition set_collection (name : string) (c : Collection) (w : World) : World :=
  mkWorld (<[name := c]> (db w)) (utc w) (ticks w) (oid_source w) (oids_drawn w)
          (int_str w) (wide_sum w).

(** What the driver can encode: BSON integers have at most 8 bytes, so
    an int outside [-2^63, 2^63) makes the encoder raise [OverflowError].
    Every document a collection holds was encoded, hence is a
    [bson_document]. *)
Definition int64 (z : Z) : Prop := - 2 ^ 63 ≤ z < 2 ^ 63.

Global Instance int64_dec z : Decision (int64 z).
Proof. unfold int64. apply _. Defined.

Definition bson_scalar (x : Scalar) : Prop :=
  match x with
  | Int z => int64 z
  | _ => True
  end.

Global Instance bson_scalar_dec x : Decision (bson_scalar x).
Proof. destruct x; simpl; apply _. Defined.

Definition bson_value (v : Value) : Prop :=
  match v with
  | Sc x => bson_scalar x
  | Sub d => map_Forall (λ _, bson_scalar) d
  end.

Global Instance bson_value_dec v : Decision (bson_value v).
Proof. destruct v; simpl; apply _. Defined.

Definition bson_document (d : Dict) : Prop := map_Forall (λ _, bson_value) d.

Global Instance bson_document_dec d : Decision (bson_document d).
Proof. unfold bson_document. apply _. Defined.

(** Query filters: a field is compared with a value, or constrained by a
    dict of operators ([$in], [$nin], [$exists]). *)
Inductive OpArg :=
| Values (vs : list Value)
| Flag (b : bool).

Inductive Cond :=
| Equals (v : Value)
| Operators (ops : gmap string OpArg).

Abbreviation Filter := (gmap string Cond).

(** A missing field matches like an explicit null. *)
Definition value_in (fv : option Value) (vs : list Value) : bool :=
  bool_decide (default (Sc Null) fv ∈ vs).

Definition op_holds (fv : option Value) (op : string) (arg : OpArg) : bool :=
  match arg with
  | Values vs =>
      if String.eqb op "$in" then value_in fv vs
      else if String.eqb op "$nin" then negb (value_in fv vs)
      else false
  | Flag b =>
      if String.eqb op "$exists" then Bool.eqb (bool_decide (is_Some fv)) b
      else false
  end.

Definition cond_holds (fv : option Value) (c : Cond) : bool :=
  match c with
  | Equals v => value_in fv [v]
  | Operators ops => bool_decide (map_Forall (λ op arg, op_holds fv op arg = true) ops)
  end.

Definition matches (filt : Filter) (d : Document) : bool :=
  bool_decide (map_Forall (λ k c, cond_holds (doc_get d k) c = true) filt).

(** [coll.find(filt)], in the collection's own order. *)
Definition find (filt : Filter) (c : Collection) : list Document :=
  documents (filter (λ kv, matches filt (mkDocument kv.1 kv.2) = true) c).

(** [list(db[name].find(filt))]. *)
Definition find_all (name : string) (filt : Filter) : M (list Document) :=
  λ w, (Ok (find filt (collection name w)), w).

(** [db[name].find_one(filt)]. *)
Definition find_one (name : string) (filt : Filter) : M (option Document) :=
  λ w, (Ok (head (find filt (collection name w))), w).

(** [db[name].update_one(filt, {"$set": upd})]; returns [matched_count].
    The command is encoded before it is sent: an [upd] the driver cannot
    encode raises [OverflowError] and nothing is written.  (The filters
    of [main.py] hold identifiers and strings only.) *)
Definition update_one (name : string) (filt : Filter) (upd : Dict) : M nat :=
  λ w, if decide (bson_document upd) then
         match head (find filt (collection name w)) with
         | Some d =>
             (Ok 1%nat,
              set_collection name (<[_id d := upd ∪ fields d]> (collection name w)) w)
         | None => (Ok 0%nat, w)
         end
       else (Raise OverflowError, w).

(** [$sum] adds the numeric values of a field; documents where the field
    is missing or not a number contribute nothing. *)
Definition numeric (fv : option Value) : Z :=
  match fv with
  | Some (Sc (Int z)) => z
  | _ => 0
  end.

Definition sum_field (field : string) (ds : list Document) : Z :=
  foldr (λ d acc, numeric (doc_get d field) + acc) 0 ds.

(** The number [int()] makes of a [$sum]: the sum itself while it fits
    in 64 bits, else what the world gives for the server's
    floating-point answer. *)
Definition sum_result (w : World) (s : Z) : Z :=
  if decide (int64 s) then s else wide_sum w s.

(** [db[name].aggregate([{"$match": filt}, {"$group": {"_id": None,
    out: {"$sum": "$" + field}}}])]: one row when some document matches,
    none otherwise.  The row holds the sum as [int()] will read it. *)
Definition aggregate_sum (name : string) (filt : Filter) (out field : string)
  : M (list Dict) :=
  λ w, let ds := find filt (collection name w) in
       (Ok (match ds with
            | [] => []
            | _ => [ {[ "_id" := Sc Null;
                        out := Sc (Int (sum_result w (sum_field field ds))) ]} ]
            end), w).

(** BSON's order on the values a sort key takes here: a missing field
    sorts as null, null before numbers, numbers before strings, strings
    before sub-documents, those before identifiers, identifiers before
    dates. *)
Definition bson_rank (fv : option Value) : Z :=
  match fv with
  | None | Some (Sc Null) => 0
  | Some (Sc (Int _)) => 1
  | Some (Sc (Str _)) | Some (Sc (Iso _)) => 2
  | Some (Sub _) => 3
  | Some (Sc (Oid _)) => 4
  | Some (Sc (Datetime _)) => 5
  end.

Definition bson_leb (a b : option Value) : bool :=
  match a, b with
  | Some (Sc (Int x)), Some (Sc (Int y)) => x <=? y
  | Some (Sc (Datetime x)), Some (Sc (Datetime y)) => x <=? y
  | Some (Sc (Iso x)), Some (Sc (Iso y)) => x <=? y
  | Some (Sc (Oid x)), Some (Sc (Oid y)) => Oid.leb x y
  | Some (Sc (Str x)), Some (Sc (Str y)) => String.leb x y
  | _, _ => bson_rank a <=? bson_rank b
  end.

(** [coll.find(filt).limit(limit).sort(key, -1)]: the driver sends one
    query, which sorts (descending) before it limits; limit 0 is no limit. *)
Definition key_ge (key : string) (a b : Document) : Prop :=
  bson_leb (doc_get b key) (doc_get a key) = true.

Global Instance key_ge_dec key : RelDecision (key_ge key).
Proof. intros a b. unfold key_ge. apply _. Defined.

Definition sort_desc (key : string) (ds : list Document) : list Document :=
  merge_sort (key_ge key) ds.

Definition apply_limit {A} (limit : nat) (l : list A) : list A :=
  match limit with
  | O => l
  | _ => take limit l
  end.

Definition find_sorted (name : string) (filt : Filter) (limit : nat) (key : string)
  : M (list Document) :=
  λ w, (Ok (apply_limit limit (sort_desc key (find filt (collection name w)))), w).

(** ** [schemas.py] *)

Definition DeliveryStatus : list string :=
  ["DRAFT"; "PENDING"; "IN_QUALITY_CHECK"; "COMPLETED"].

Definition DeliveryItemStatus : list string :=
  ["PENDING"; "RECEIVED"; "QUALITY_CHECK"; "APPROVED"; "STORED"].

(** pydantic's [BaseModel]: what the store layer needs of a model is its
    dump to a dict. *)
Class BaseModel (A : Type) := model_dump : A → Dict.

(** [Optional[str]] as a field value. *)
Definition opt_str (o : option string) : Value :=
  match o with
  | Some s => Sc (Str s)
  | None => Sc Null
  end.

Definition opt_datetime (o : option Z) : Value :=
  match o with
  | Some t => Sc (Datetime t)
  | None => Sc Null
  end.

Module Location.
Record t := mk {
  rack : string;
  slot : string;
  zone : option string;
  level : option string
}.

Definition dump (l : t) : gmap string Scalar :=
  {[ "rack" := Str (rack l); "slot" := Str (slot l);
     "zone" := from_option Str Null (zone l);
     "level" := from_option Str Null (level l) ]}.
End Location.

Module DeliveryItem.
Record t := mk {
  delivery_id : string;
  product_id : option string;
  variant_id : option string;
  expectedQty : Z;
  receivedQty : Z;
  status : string;
  notes : option string;
  location : option Location.t
}.

(** The field constraints: [expectedQty] and [receivedQty] are
    [ge=0], [status] is one of the literals. *)
Definition valid (x : t) : bool :=
  (0 <=? expectedQty x) && (0 <=? receivedQty x)
  && bool_decide (status x ∈ DeliveryItemStatus).

(** [DeliveryItem(...)]: validation runs in the constructor. *)
Definition new (x : t) : M t :=
  if valid x then ret x else raise ValidationError.

Global Instance dump : BaseModel t := λ x,
  {[ "delivery_id" := Sc (Str (delivery_id x));
     "product_id" := opt_str (product_id x);
     "variant_id" := opt_str (variant_id x);
     "expectedQty" := Sc (Int (expectedQty x));
     "receivedQty" := Sc (Int (receivedQty x));
     "status" := Sc (Str (status x));
     "notes" := opt_str (notes x);
     "location" := from_option (λ l, Sub (Location.dump l)) (Sc Null) (location x) ]}.
End DeliveryItem.

Module Delivery.
Record t := mk {
  supplier : option string;
  reference : option string;
  status : string;
  expectedDate : option Z;
  receivedQty : Z;
  meta : gmap string Scalar
}.

Definition valid (x : t) : bool :=
  (0 <=? receivedQty x) && bool_decide (status x ∈ DeliveryStatus).

Definition new (x : t) : M t :=
  if valid x then ret x else raise ValidationError.

Global Instance dump : BaseModel t := λ x,
  {[ "supplier" := opt_str (supplier x);
     "reference" := opt_str (reference x);
     "status" := Sc (Str (status x));
     "expectedDate" := opt_datetime (expectedDate x);
     "receivedQty" := Sc (Int (receivedQty x));
     "meta" := Sub (meta x) ]}.
End Delivery.

Module DeliveryCreateRequest.
Record t := mk {
  supplier : option string;
  reference : option string;
  expectedDate : option Z;
  meta : gmap string Scalar
}.
End DeliveryCreateRequest.

Module DeliveryItemCreateRequest.
Record t := mk {
  product_id : option string;
  variant_id : option string;
  expectedQty : Z;
  notes : option string
}.
End DeliveryItemCreateRequest.

Module Product.
Record t := mk {
  sku : string;
  name : string;
  description : option string
}.

Global Instance dump : BaseModel t := λ x,
  {[ "sku" := Sc (Str (sku x));
     "name" := Sc (Str (name x));
     "description" := opt_str (description x) ]}.
End Product.

Module Variant.
Record t := mk {
  product_id : string;
  attributes : gmap string Scalar;
  sku : option string
}.

Global Instance dump : BaseModel t := λ x,
  {[ "product_id" := Sc (Str (product_id x));
     "attributes" := Sub (attributes x);
     "sku" := opt_str (sku x) ]}.
End Variant.

(** ** The store layer *)

(** Modelled from the spec: the insertion behind [database.create_document],
    whose module is not among the sources.  The spec has each persisted
    entity carry "an opaque unique identifier": the document goes in
    under a fresh identifier of the driver's generator, and the store
    refuses an identifier it already holds. *)
Definition insert_with_id (name : string) (o : ObjectId) (data : Dict) : M ObjectId :=
  λ w, match collection name w !! o with
       | Some _ => (Raise DuplicateKeyError, w)
       | None => (Ok o, set_collection name (<[o := data]> (collection name w)) w)
       end.

(** Modelled from the spec: see [insert_with_id]; the identifier is the
    generator's next one. *)
Definition insert_one (name : string) (data : Dict) : M ObjectId :=
  o ← ObjectId_new; insert_with_id name o data.

(** Modelled from the spec: [database.create_document] is imported by
    [main.py] but its module is not among the sources.  The spec has each
    persisted entity carry "an opaque unique identifier" and
    "created_at/updated_at timestamps auto-populated by the store layer";
    [main.py] uses the returned value as the [str] of the new [_id]. *)
Definition create_document {A} `{BaseModel A} (collection_name : string) (data : A)
  : M string :=
  created ← datetime_now;
  updated ← datetime_now;
  o ← insert_one collection_name
        (<["updated_at" := Sc (Datetime updated)]>
           (<["created_at" := Sc (Datetime created)]> (model_dump data)));
  ret (Oid.str o).

(** ** [main.py] *)

(** [oid(id_str)]. *)
Definition oid (id_str : string) : M ObjectId :=
  match Oid.parse id_str with
  | Some o => ret o
  | None => raise (HTTPException 400 "Invalid ID")
  end.

(** [ObjectId(id_str)] outside [oid]: the library's exception escapes. *)
Definition ObjectId_of_str (id_str : string) : M ObjectId :=
  from_option ret (raise InvalidId) (Oid.parse id_str).

Definition isoformat_value (v : Value) : Value :=
  match v with
  | Sc (Datetime t) => Sc (Iso t)
  | _ => v
  end.

(** [serialize(doc)]: [None] stays [None]; otherwise [_id] is replaced by
    [id], its [str], and top-level datetimes by their ISO strings. *)
Definition serialize (doc : option Document) : option Dict :=
  match doc with
  | None => None
  | Some d =>
      Some (isoformat_value <$> <["id" := Sc (Str (Oid.str (_id d)))]> (fields d))
  end.

Definition by_id (o : ObjectId) : Filter := {[ "_id" := Equals (Sc (Oid o)) ]}.

(** [POST /deliveries]. *)
Definition create_delivery (payload : DeliveryCreateRequest.t) : M (option Dict) :=
  delivery ← Delivery.new
    (Delivery.mk (DeliveryCreateRequest.supplier payload)
                 (DeliveryCreateRequest.reference payload)
                 "PENDING"
                 (DeliveryCreateRequest.expectedDate payload)
                 0
                 (if decide (DeliveryCreateRequest.meta payload = ∅) then ∅
                  else DeliveryCreateRequest.meta payload));
  new_id ← create_document "delivery" delivery;
  o ← ObjectId_of_str new_id;
  doc ← find_one "delivery" (by_id o);
  ret (serialize doc).

(** [GET /deliveries]. *)
Definition list_deliveries (status_in : option (list string)) (limit : nat)
  : M (list (option Dict)) :=
  let filt : Filter := ∅ in
  let filt : Filter :=
    match status_in with
    | Some ((_ :: _) as l) =>
        <["status" := Operators {[ "$in" := Values ((λ s, Sc (Str s)) <$> l) ]}]> filt
    | _ => filt
    end in
  let filt : Filter :=
    <["status" := default (Operators {[ "$exists" := Flag true ]}) (filt !! "status")]> filt in
  let filt : Filter :=
    match filt !! "status" with
    | Some (Operators ops) =>
        let nin := match ops !! "$nin" with
                   | Some (Values vs) => vs
                   | _ => []
                   end in
        <["status" := Operators
            (<["$nin" := Values (remove_dups (nin ++ [Sc (Str "RECEIVED")]))]> ops)]> filt
    | _ => filt
    end in
  docs ← find_sorted "delivery" filt limit "created_at";
  ret ((λ d, serialize (Some d)) <$> docs).

(** [POST /deliveries/{delivery_id}/items]. *)
Definition add_delivery_item (delivery_id : string)
    (payload : DeliveryItemCreateRequest.t) : M (option Dict) :=
  o ← oid delivery_id;
  found ← find_one "delivery" (by_id o);
  match found with
  | None => raise (HTTPException 404 "Delivery not found")
  | Some _ =>
      item ← DeliveryItem.new
        (DeliveryItem.mk delivery_id
                         (DeliveryItemCreateRequest.product_id payload)
                         (DeliveryItemCreateRequest.variant_id payload)
                         (DeliveryItemCreateRequest.expectedQty payload)
                         0
                         "PENDING"
                         (DeliveryItemCreateRequest.notes payload)
                         None);
      new_id ← create_document "deliveryitem" item;
      o' ← ObjectId_of_str new_id;
      created ← find_one "deliveryitem" (by_id o');
      ret (serialize created)
  end.

Module ReceiveItemInput.
Record t := mk { itemId : string; qty : Z }.
End ReceiveItemInput.

Module ReceivePayload.
Record t := mk { items : list ReceiveItemInput.t }.
End ReceivePayload.

(** The items of a delivery, as every query of [main.py] selects them:
    by the [delivery_id] string they were created under. *)
Definition of_delivery (delivery_id : string) : Filter :=
  {[ "delivery_id" := Equals (Sc (Str delivery_id)) ]}.

(** One turn of the loop of [receive_items]. *)
Definition receive_entry (delivery_id : string) (total_added : Z)
    (it : ReceiveItemInput.t) : M Z :=
  o ← oid (ReceiveItemInput.itemId it);
  found ← find_one "deliveryitem"
            (<["_id" := Equals (Sc (Oid o))]> (of_delivery delivery_id));
  match found with
  | None =>
      raise (HTTPException 400
               ("Item " +:+ ReceiveItemInput.itemId it +:+ " not found for this delivery"))
  | Some item =>
      if ReceiveItemInput.qty it <? 0
      then raise (HTTPException 400 "qty must be >= 0")
      else
        received ← py_int (doc_get_default item "receivedQty" (Sc (Int 0)));
        let new_received := received + ReceiveItemInput.qty it in
        let status := doc_get_default item "status" (Sc (Str "PENDING")) in
        let status := if 0 <? ReceiveItemInput.qty it then Sc (Str "RECEIVED") else status in
        now ← datetime_now;
        update_one "deliveryitem" (by_id (_id item))
          {[ "receivedQty" := Sc (Int new_received);
             "status" := status;
             "updated_at" := Sc (Datetime now) ]};;
        ret (total_added + ReceiveItemInput.qty it)
  end.

(** [POST /deliveries/{delivery_id}/receive]. *)
Definition receive_items (delivery_id : string) (payload : ReceivePayload.t)
  : M (option Dict) :=
  o ← oid delivery_id;
  found ← find_one "delivery" (by_id o);
  match found with
  | None => raise (HTTPException 404 "Delivery not found")
  | Some _ =>
      for_each (ReceivePayload.items payload) 0 (receive_entry delivery_id);;
      agg ← aggregate_sum "deliveryitem" (of_delivery delivery_id) "sum" "receivedQty";
      let new_total :=
        foldl (λ _ (r : Dict), default (Sc (Int 0)) (r !! "sum")) (Sc (Int 0)) agg in
      o ← oid delivery_id;
      total ← py_int new_total;
      now ← datetime_now;
      update_one "delivery" (by_id o)
        {[ "receivedQty" := Sc (Int total); "updated_at" := Sc (Datetime now) ]};;
      o ← oid delivery_id;
      delivery ← find_one "delivery" (by_id o);
      ret (serialize delivery)
  end.

(** [POST /deliveries/{delivery_id}/send-to-quality] and [.../complete]:
    the two handlers differ in the status they write. *)
Definition set_delivery_status (status delivery_id : string) : M (option Dict) :=
  o ← oid delivery_id;
  now ← datetime_now;
  matched_count ← update_one "delivery" (by_id o)
    {[ "status" := Sc (Str status); "updated_at" := Sc (Datetime now) ]};
  if Nat.eqb matched_count 0 then raise (HTTPException 404 "Delivery not found")
  else
    o ← oid delivery_id;
    doc ← find_one "delivery" (by_id o);
    ret (serialize doc).

Definition send_to_quality : string → M (option Dict) :=
  set_delivery_status "IN_QUALITY_CHECK".

Definition complete_delivery : string → M (option Dict) :=
  set_delivery_status "COMPLETED".

Module ApprovePayload.
Record t := mk { notes : option string }.
End ApprovePayload.

(** [POST /delivery-items/{item_id}/approve]. *)
Definition approve_item (item_id : string) (payload : ApprovePayload.t)
  : M (option Dict) :=
  o ← oid item_id;
  now ← datetime_now;
  matched_count ← update_one "deliveryitem" (by_id o)
    {[ "status" := Sc (Str "APPROVED");
       "notes" := opt_str (ApprovePayload.notes payload);
       "updated_at" := Sc (Datetime now) ]};
  if Nat.eqb matched_count 0 then raise (HTTPException 404 "Item not found")
  else
    o ← oid item_id;
    doc ← find_one "deliveryitem" (by_id o);
    ret (serialize doc).

Module StorePayload.
Record t := mk {
  rack : string;
  slot : string;
  zone : option string;
  level : option string
}.
End StorePayload.

(** [POST /delivery-items/{item_id}/store]. *)
Definition store_item (item_id : string) (payload : StorePayload.t)
  : M (option Dict) :=
  let location : gmap string Scalar :=
    {[ "rack" := Str (StorePayload.rack payload);
       "slot" := Str (StorePayload.slot payload);
       "zone" := from_option Str Null (StorePayload.zone payload);
       "level" := from_option Str Null (StorePayload.level payload) ]} in
  o ← oid item_id;
  now ← datetime_now;
  matched_count ← update_one "deliveryitem" (by_id o)
    {[ "status" := Sc (Str "STORED");
       "location" := Sub location;
       "updated_at" := Sc (Datetime now) ]};
  if Nat.eqb matched_count 0 then raise (HTTPException 404 "Item not found")
  else
    o ← oid item_id;
    doc ← find_one "deliveryitem" (by_id o);
    ret (serialize doc).

(** The body [get_delivery] answers with: [{"delivery": ..., "items": [...]}]. *)
Module DeliveryWithItems.
Record t := mk {
  delivery : option Dict;
  items : list (option Dict)
}.
End DeliveryWithItems.

(** [GET /deliveries/{delivery_id}]. *)
Definition get_delivery (delivery_id : string) : M DeliveryWithItems.t :=
  o ← oid delivery_id;
  doc ← find_one "delivery" (by_id o);
  match doc with
  | None => raise (HTTPException 404 "Delivery not found")
  | Some _ =>
      items ← find_all "deliveryitem" (of_delivery delivery_id);
      mret (DeliveryWithItems.mk (serialize doc) ((λ i, serialize (Some i)) <$> items))
  end.

(** [GET /delivery-items]; an absent or empty [delivery_id] does not
    filter, nor does an absent or empty [status.in]. *)
Definition list_delivery_items (delivery_id : option string)
    (status_in : option (list string)) (limit : nat) : M (list (option Dict)) :=
  let filt : Filter := ∅ in
  let filt : Filter :=
    match delivery_id with
    | Some (String _ _ as d) => <["delivery_id" := Equals (Sc (Str d))]> filt
    | _ => filt
    end in
  let filt : Filter :=
    match status_in with
    | Some ((_ :: _) as l) =>
        <["status" := Operators {[ "$in" := Values ((λ s, Sc (Str s)) <$> l) ]}]> filt
    | _ => filt
    end in
  docs ← find_sorted "deliveryitem" filt limit "created_at";
  mret ((λ d, serialize (Some d)) <$> docs).

(** [POST /products]. *)
Definition create_product (product : Product.t) : M (option Dict) :=
  new_id ← create_document "product" product;
  o ← ObjectId_of_str new_id;
  doc ← find_one "product" (by_id o);
  mret (serialize doc).

(** [POST /variants]. *)
Definition create_variant (variant : Variant.t) : M (option Dict) :=
  o ← oid (Variant.product_id variant);
  found ← find_one "product" (by_id o);
  match found with
  | None => raise (HTTPException 400 "Referenced product does not exist")
  | Some _ =>
      new_id ← create_document "variant" variant;
      o' ← ObjectId_of_str new_id;
      doc ← find_one "variant" (by_id o');
      mret (serialize doc)
  end.

(** ** Vocabulary of the statements *)

(** The item an entry of a receive batch names: it must exist and carry
    the [delivery_id] the call was made with. *)
Definition lookup_item (delivery_id : string) (o : ObjectId) (c : Collection)
  : option Document :=
  match c !! o with
  | Some f =>
      if decide (f !! "delivery_id" = Some (Sc (Str delivery_id)))
      then Some (mkDocument o f) else None
  | None => None
  end.

(** What an item contributes to the received quantity of the delivery
    addressed as [delivery_id]: its [receivedQty] when its [delivery_id]
    field references that delivery, nothing otherwise. *)
Definition references (delivery_id : string) (item : Dict) : Prop :=
  item !! "delivery_id" = Some (Sc (Str delivery_id)).

Global Instance references_dec delivery_id item : Decision (references delivery_id item).
Proof. unfold references. apply _. Defined.

Definition item_received (delivery_id : string) (item : Dict) : Z :=
  if decide (references delivery_id item) then numeric (item !! "receivedQty") else 0.

(** The sum of [receivedQty] over all items that reference a delivery. *)
Definition received_total (delivery_id : string) (items : Collection) : Z :=
  map_fold (λ _ item acc, item_received delivery_id item + acc) 0 items.

(** The status an item counts as having: the stored one, [PENDING] when
    the document has none ([item.get("status", "PENDING")], the default
    of the schema). *)
Definition item_status (item : Dict) : Value :=
  default (Sc (Str "PENDING")) (item !! "status").

(** The quantity an item counts as having received so far:
    [int(item.get("receivedQty", 0))]. *)
Definition item_receivedQty (w : World) (item : Dict) : Result Z :=
  int_of w (default (Sc (Int 0)) (item !! "receivedQty")).

(** Reading the outcome of a run. *)
Definition succeeded {A} (r : Result A) : bool :=
  match r with
  | Ok _ => true
  | Raise _ => false
  end.

Definition value_of {A} (dflt : A) (r : Result A) : A :=
  match r with
  | Ok a => a
  | Raise _ => dflt
  end.

(** Whether a collection holds a document under an identifier. *)
Definition has (name : string) (o : ObjectId) (w : World) : bool :=
  match collection name w !! o with
  | Some _ => true
  | None => false
  end.

(** ** A worked scenario

    An empty database, a clock that counts, and a generator that counts
    up from [650000000000000000000000]; then one delivery ("Acme") and
    one item of it expecting 10 units, created through the handlers.
    The scenario stores no quantity as a str and no sum in it leaves 64
    bits: its [int_str] reads plain decimal literals and its [wide_sum]
    hands the sum back. *)
Fixpoint parse_digits (s : string) (acc : Z) : option Z :=
  match s with
  | EmptyString => Some acc
  | String a s' =>
      let n := Z.of_N (N_of_ascii a) in
      if (48 <=? n) && (n <=? 57) then parse_digits s' (acc * 10 + (n - 48))
      else None
  end.

(** A reader of plain decimal literals (optional sign, ASCII digits). *)
Definition parse_int (s : string) : option Z :=
  match s with
  | EmptyString => None
  | String "-" (String _ _ as s') => Z.opp <$> parse_digits s' 0
  | String "+" (String _ _ as s') => parse_digits s' 0
  | _ => parse_digits s 0
  end.

Definition world0 : World :=
  mkWorld ∅ (λ n, Z.of_nat n) 0
          (λ n, (N.of_nat n + 0x650000000000000000000000)%N) 0
          parse_int (λ s, s).

Definition acme : string := "650000000000000000000000".
Definition crate : string := "650000000000000000000001".
Definition nowhere : string := "65000000000000000000beef".

Definition world1 : World :=
  (create_delivery (DeliveryCreateRequest.mk (Some "Acme") None None ∅) world0).2.

Definition world2 : World :=
  (add_delivery_item acme (DeliveryItemCreateRequest.mk None None 10 None) world1).2.

Definition receive (item_id : string) (qty : Z) : ReceiveItemInput.t :=
  ReceiveItemInput.mk item_id qty.

(** The item a batch entry resolves to in a world, if any: its id must
    parse, the item must exist, and it must belong to the delivery. *)
Definition entry_item (delivery_id : string) (it : ReceiveItemInput.t) (w : World)
  : option Document :=
  match Oid.parse (ReceiveItemInput.itemId it) with
  | Some o => lookup_item delivery_id o (collection "deliveryitem" w)
  | None => None
  end.

(** The scenario continued: 4 units received, then the item stored. *)
Definition world3 : World :=
  (receive_items acme (ReceivePayload.mk [receive crate 4]) world2).2.


Definition acme_oid : ObjectId := Oid.generate 0x650000000000000000000000.
Definition crate_oid : ObjectId := Oid.generate 0x650000000000000000000001.

(** The stored fields of a document of the scenario. *)
Definition stored (name : string) (o : ObjectId) (w : World) : Dict :=
  default ∅ (collection name w !! o).

(** A second item of the scenario's delivery, created with a note. *)
Definition world5 : World :=
  (add_delivery_item acme
     (DeliveryItemCreateRequest.mk None None 3 (Some "fragile")) world2).2.

Definition parcel : string := "650000000000000000000002".
Definition parcel_oid : ObjectId := Oid.generate 0x650000000000000000000002.

(** The location sub-document [store_item] writes. *)
Definition location_of (payload : StorePayload.t) : gmap string Scalar :=
  {[ "rack" := Str (StorePayload.rack payload);
     "slot" := Str (StorePayload.slot payload);
     "zone" := from_option Str Null (StorePayload.zone payload);
     "level" := from_option Str Null (StorePayload.level payload) ]}.

(** The scenario's database with a delivery left over from before the
    status model changed: its stored status is the legacy "RECEIVED". *)
Definition legacy_oid : ObjectId := Oid.generate 0x64ffffffffffffffffffffff.

Definition world_legacy : World :=
  set_collection "delivery"
    (<[legacy_oid := {[ "supplier" := Sc (Str "Old & Sons");
                         "status" := Sc (Str "RECEIVED");
                         "receivedQty" := Sc (Int 7);
                         "created_at" := Sc (Datetime (-1)) ]}]>
       (collection "delivery" world2))
    world2.

(** The identifier the next insert will be given, and the world once
    [create_document] has read the clock twice and drawn that identifier. *)
Definition next_oid (w : World) : ObjectId :=
  Oid.generate (oid_source w (oids_drawn w)).

Definition stamped (w : World) : World :=
  mkWorld (db w) (utc w) (S (S (ticks w))) (oid_source w) (S (oids_drawn w))
          (int_str w) (wide_sum w).

(** A model's dump with the timestamps the store layer adds. *)
Definition with_timestamps (w : World) (data : Dict) : Dict :=
  <["updated_at" := Sc (Datetime (utc w (S (ticks w))))]>
    (<["created_at" := Sc (Datetime (utc w (ticks w)))]> data).

(** The items of a collection hold their [receivedQty] as an int, or not
    at all: what every item written by [add_delivery_item] and
    [receive_items] satisfies. *)
Definition int_quantities (items : Collection) : Prop :=
  ∀ o item, items !! o = Some item →
    item !! "receivedQty" = None
    ∨ ∃ z, item !! "receivedQty" = Some (Sc (Int z)).

(** The fields a receive entry may write on its item. *)
Definition receive_written : list string := ["receivedQty"; "status"; "updated_at"].

(** The quantities of a batch, added up. *)
Definition batch_qty (entries : list ReceiveItemInput.t) : Z :=
  foldr (λ it acc, ReceiveItemInput.qty it + acc) 0 entries.

(** A check of [int_quantities] that runs. *)
Definition int_quantity (item : Dict) : bool :=
  match item !! "receivedQty" with
  | None | Some (Sc (Int _)) => true
  | _ => false
  end.

Definition int_quantities_check (items : Collection) : bool :=
  forallb (λ kv, int_quantity kv.2) (map_to_list items).

(** What [list_deliveries] selects: a delivery that has a status, other
    than "RECEIVED", and one of the requested ones when any are. *)
Definition listed_delivery (status_in : option (list string)) (f : Dict) : Prop :=
  ∃ v, f !! "status" = Some v
       ∧ v ≠ Sc (Str "RECEIVED")
       ∧ match status_in with
         | Some (s :: l) => ∃ s', s' ∈ s :: l ∧ v = Sc (Str s')
         | _ => True
         end.

(** What [list_delivery_items] selects: an absent or empty
    [delivery_id] selects all deliveries, an absent or empty [status.in]
    all statuses. *)
Definition listed_item (delivery_id : option string) (status_in : option (list string))
    (f : Dict) : Prop :=
  match delivery_id with
  | Some (String _ _ as d) => references d f
  | _ => True
  end
  ∧ match status_in with
    | Some (s :: l) => ∃ s', s' ∈ s :: l ∧ f !! "status" = Some (Sc (Str s'))
    | _ => True
    end.

(** A listing [docs] of the collection [name] of [w]: stored documents,
    each once, at most [limit] of them, all the selected ones when the
    collection is no larger than [limit]. *)
Definition lists (name : string) (selected : Dict → Prop) (limit : nat) (w : World)
    (docs : list Document) : Prop :=
  NoDup docs
  ∧ (limit ≠ 0%nat → (List.length docs ≤ limit)%nat)
  ∧ (∀ d, d ∈ docs →
       collection name w !! _id d = Some (fields d) ∧ selected (fields d))
  ∧ ((size (collection name w) ≤ limit)%nat →
     ∀ o f, collection name w !! o = Some f → selected f → mkDocument o f ∈ docs).

(** Newest first: whatever comes before a document that carries a
    creation time carries one too, and not an earlier one; documents
    without a creation time come last. *)
Definition newest_first_order (docs : list Document) : Prop :=
  ∀ i j d1 d2 t2, (i < j)%nat →
    docs !! i = Some d1 → docs !! j = Some d2 →
    fields d2 !! "created_at" = Some (Sc (Datetime t2)) →
    ∃ t1, fields d1 !! "created_at" = Some (Sc (Datetime t1)) ∧ t2 ≤ t1.

(** A run from [w] to [w'] wrote at most the fields [written] of the
    document [target] of the collection [name]: every other collection
    is as it was, no document of [name] appeared or disappeared, every
    other document of [name] is as it was, and so is every other field
    of the target. *)
Definition only_writes (name : string) (target : option ObjectId)
    (written : list string) (w w' : World) : Prop :=
  (∀ other, other ≠ name → collection other w' = collection other w)
  ∧ dom (collection name w') = dom (collection name w)
  ∧ ∀ o f, collection name w !! o = Some f →
      ∃ f', collection name w' !! o = Some f'
        ∧ (∀ k, k ∉ written → f' !! k = f !! k)
        ∧ (target ≠ Some o → f' = f).

(** ** Batches *)

(** The batch names the item [o]: some entry's [itemId] resolves to it. *)
Definition named (o : ObjectId) (entries : list ReceiveItemInput.t) : Prop :=
  Exists (λ it, Oid.parse (ReceiveItemInput.itemId it) = Some o) entries.

Global Instance named_dec o entries : Decision (named o entries).
Proof. unfold named. apply _. Defined.

(** What a batch adds to the item [o]: the quantities of the entries
    that name it. *)
Fixpoint batch_adds (o : ObjectId) (entries : list ReceiveItemInput.t) : Z :=
  match entries with
  | [] => 0
  | it :: rest =>
      (if decide (Oid.parse (ReceiveItemInput.itemId it) = Some o)
       then ReceiveItemInput.qty it else 0)
      + batch_adds o rest
  end.

(** A batch the loop of [receive_items] can apply in [w], for the call's
    [delivery_id]: no entry has a negative qty, every entry names an item
    that exists and is filed under [delivery_id]; each item named is a
    document as the store holds them, [int()] reads its [receivedQty],
    and that quantity, from where it stands to where the batch takes it,
    stays within 64 bits. *)
Definition receivable (delivery_id : string) (entries : list ReceiveItemInput.t)
    (w : World) : Prop :=
  Forall (λ it, 0 ≤ ReceiveItemInput.qty it
                ∧ is_Some (entry_item delivery_id it w)) entries
  ∧ ∀ o item, collection "deliveryitem" w !! o = Some item → named o entries →
      bson_document item
      ∧ ∃ received, item_receivedQty w item = Ok received
          ∧ - 2 ^ 63 ≤ received
          ∧ received + batch_adds o entries < 2 ^ 63.

(** The item [item'] is [item] after [adds] was received on it: the
    quantity [int()] read has grown by [adds], the status is RECEIVED if
    anything was added and what it counted as before if not, and no field
    but [receivedQty], [status] and [updated_at] differs. *)
Definition received_as (w : World) (adds : Z) (item item' : Dict) : Prop :=
  (∀ k, k ∉ receive_written → item' !! k = item !! k)
  ∧ ∀ received, item_receivedQty w item = Ok received →
      item' !! "receivedQty" = Some (Sc (Int (received + adds)))
      ∧ item_status item' = (if 0 <? adds then Sc (Str "RECEIVED") else item_status item).

(** ** Identifiers under another spelling *)

(** The item is filed under a [delivery_id] string that [ObjectId] reads
    as [o], in whatever spelling. *)
Definition refers_to (o : ObjectId) (item : Dict) : bool :=
  match item !! "delivery_id" with
  | Some (Sc (Str s)) => bool_decide (Oid.parse s = Some o)
  | _ => false
  end.


(** A second scenario, with a letter in its identifiers: the delivery
    [65000000000000000000000a] and one item of it, created and received
    (4 units) under that string.  [DOCK] is the same identifier as the
    client may also spell it, in upper case. *)
Definition world_a : World :=
  mkWorld ∅ (λ n, Z.of_nat n) 0
          (λ n, (N.of_nat n + 0x65000000000000000000000a)%N) 0
          parse_int (λ s, s).

Definition dock : string := "65000000000000000000000a".
Definition DOCK : string := "65000000000000000000000A".
Definition box : string := "65000000000000000000000b".
Definition dock_oid : ObjectId := Oid.generate 0x65000000000000000000000a.
Definition box_oid : ObjectId := Oid.generate 0x65000000000000000000000b.

Definition world_dock : World :=
  let w1 := (create_delivery (DeliveryCreateRequest.mk (Some "Dock") None None ∅)
               world_a).2 in
  let w2 := (add_delivery_item dock (DeliveryItemCreateRequest.mk None None 10 None)
               w1).2 in
  (receive_items dock (ReceivePayload.mk [receive box 4]) w2).2.


Definition world_dock_one : World :=
  (receive_items DOCK (ReceivePayload.mk [receive box 1]) world_dock).2.


Definition world_brim : World :=
  (receive_items acme (ReceivePayload.mk [receive crate (2 ^ 63 - 4)]) world3).2.

(** The first scenario after a batch that failed midway: 4 units were
    received on the item, then an unknown item stopped the call. *)
Definition world_failed : World :=
  (receive_items acme (ReceivePayload.mk [receive crate 4; receive nowhere 1]) world2).2.
(** * Properties *)

(** ** Identifiers: printing then parsing *)

Module OidFacts.
Import Oid.

Lemma hex_chr_digit (m : N) :
  (m < 16)%N → hex_val (hex_chr m) = Some m ∧ is_space (hex_chr m) = false.
Proof.
  intros Hm. rewrite <- (N2Nat.id m).
  assert (Hk : (N.to_nat m < 16)%nat) by lia.
  generalize dependent (N.to_nat m). intros k Hk.
  do 16 (destruct k as [|k]; [split; reflexivity|]). lia.
Qed.

Lemma byte_of_digits (b : ascii) :
  ascii_of_N (N_of_ascii b / 16 * 16 + N_of_ascii b mod 16) = b.
Proof.
  rewrite N.mul_comm, <- N.div_mod by lia. apply ascii_N_embedding.
Qed.

(** Printing bytes and reading them back gives the bytes. *)
Lemma fromhex_hexlify (bs : list ascii) : fromhex (hexlify bs) = Some bs.
Proof.
  induction bs as [|b bs IH]; [done|].
  cbn [hexlify]. cbv zeta.
  pose proof (N_ascii_bounded b) as Hb.
  assert (Hhi : (N_of_ascii b / 16 < 16)%N)
    by (apply N.Div0.div_lt_upper_bound; lia).
  assert (Hlo : (N_of_ascii b mod 16 < 16)%N) by (apply N.mod_lt; lia).
  destruct (hex_chr_digit _ Hhi) as [Hv1 Hs1].
  destruct (hex_chr_digit _ Hlo) as [Hv2 _].
  cbn [fromhex]. rewrite Hs1, Hv1, Hv2, IH. simpl.
  by rewrite byte_of_digits.
Qed.

Lemma length_hexlify (bs : list ascii) :
  String.length (hexlify bs) = (2 * List.length bs)%nat.
Proof. induction bs as [|b bs IH]; simpl; [done|]. rewrite IH. lia. Qed.

Lemma length_be_bytes k n : List.length (be_bytes k n) = k.
Proof. induction k as [|k IH]; simpl; [done|]. by rewrite IH. Qed.

(** An identifier of 12 bytes survives [str] then [ObjectId(...)]. *)
Lemma parse_str (o : ObjectId) : List.length o = 12%nat → parse (str o) = Some o.
Proof.
  intros Hlen. unfold parse, str. rewrite length_hexlify, Hlen.
  simpl Nat.eqb. cbv iota. apply fromhex_hexlify.
Qed.

Lemma parse_str_generate (seed : N) :
  parse (str (generate seed)) = Some (generate seed).
Proof. apply parse_str. unfold generate. apply length_be_bytes. Qed.
(** The order of identifiers is total. *)
Lemma leb_total (a b : ObjectId) : leb a b = true ∨ leb b a = true.
Proof.
  revert b. induction a as [|x a IH]; intros [|y b]; simpl; auto.
  destruct (N.ltb_spec (N_of_ascii x) (N_of_ascii y)) as [Hxy|Hxy]; [by left|].
  destruct (N.ltb_spec (N_of_ascii y) (N_of_ascii x)) as [Hyx|Hyx]; [by right|].
  apply IH.
Qed.
End OidFacts.

(** ** Queries *)

Lemma cond_holds_Equals fv v :
  cond_holds fv (Equals v) = true ↔ default (Sc Null) fv = v.
Proof.
  unfold cond_holds, value_in.
  rewrite bool_decide_eq_true. apply list_elem_of_singleton.
Qed.

Lemma matches_lookup (filt : Filter) d k c :
  matches filt d = true → filt !! k = Some c → cond_holds (doc_get d k) c = true.
Proof.
  unfold matches. rewrite bool_decide_eq_true. intros HF Hk.
  exact (proj1 (map_Forall_lookup _ _) HF k c Hk).
Qed.

Lemma matches_by_id o d : matches (by_id o) d = true ↔ _id d = o.
Proof.
  unfold matches, by_id. rewrite bool_decide_eq_true, map_Forall_singleton.
  rewrite cond_holds_Equals. simpl. split; [congruence | by intros ->].
Qed.

Lemma matches_of_delivery delivery_id d :
  matches (of_delivery delivery_id) d = true
  ↔ fields d !! "delivery_id" = Some (Sc (Str delivery_id)).
Proof.
  unfold matches, of_delivery. rewrite bool_decide_eq_true, map_Forall_singleton.
  rewrite cond_holds_Equals.
  change (doc_get d "delivery_id") with (fields d !! "delivery_id").
  destruct (fields d !! "delivery_id") as [v|]; simpl; [|done].
  split; congruence.
Qed.

Lemma matches_item_of_delivery o delivery_id d :
  matches (<["_id" := Equals (Sc (Oid o))]> (of_delivery delivery_id)) d = true
  ↔ _id d = o ∧ fields d !! "delivery_id" = Some (Sc (Str delivery_id)).
Proof.
  rewrite <- matches_of_delivery, <- matches_by_id.
  unfold matches. rewrite !bool_decide_eq_true.
  rewrite map_Forall_insert by done.
  unfold by_id. rewrite map_Forall_singleton. done.
Qed.

Lemma documents_empty : documents ∅ = [].
Proof. unfold documents. by rewrite map_to_list_empty. Qed.

Lemma documents_singleton o f : documents {[ o := f ]} = [mkDocument o f].
Proof. unfold documents. by rewrite map_to_list_singleton. Qed.

Lemma elem_of_documents (c : Collection) d :
  d ∈ documents c ↔ c !! _id d = Some (fields d).
Proof.
  unfold documents. rewrite list_elem_of_fmap. split.
  - intros [[o f] [-> Hin]]. simpl. by apply elem_of_map_to_list in Hin.
  - intros Hd. exists (_id d, fields d). split; [by destruct d|].
    by apply elem_of_map_to_list.
Qed.

Lemma elem_of_find (filt : Filter) (c : Collection) d :
  d ∈ find filt c ↔ c !! _id d = Some (fields d) ∧ matches filt d = true.
Proof.
  unfold find. rewrite elem_of_documents, map_lookup_filter_Some. simpl.
  by destruct d.
Qed.

(** A filter that fixes [_id] selects through the primary key. *)
Lemma find_keyed (filt : Filter) o (c : Collection) :
  filt !! "_id" = Some (Equals (Sc (Oid o))) →
  find filt c =
    match c !! o with
    | Some f => if matches filt (mkDocument o f) then [mkDocument o f] else []
    | None => []
    end.
Proof.
  intros Hid. unfold find.
  assert (Hkey : ∀ i x, matches filt (mkDocument i x) = true → i = o).
  { intros i x Hm. pose proof (matches_lookup _ _ _ _ Hm Hid) as Hc.
    apply cond_holds_Equals in Hc. simpl in Hc. congruence. }
  match goal with |- documents ?m = _ => set (fm := m) end.
  assert (Hfm : fm =
    match c !! o with
    | Some f => if matches filt (mkDocument o f) then {[ o := f ]} else ∅
    | None => ∅
    end).
  { apply map_eq. intros i. apply option_eq. intros x. subst fm.
    rewrite map_lookup_filter_Some. simpl. split.
    - intros [Hi Hm]. pose proof (Hkey _ _ Hm) as ->.
      rewrite Hi, Hm. by rewrite lookup_singleton_eq.
    - destruct (c !! o) as [f|] eqn:Ho; [|by rewrite lookup_empty].
      destruct (matches filt (mkDocument o f)) eqn:Hm; [|by rewrite lookup_empty].
      intros [-> ->]%lookup_singleton_Some. done. }
  rewrite Hfm. destruct (c !! o) as [f|]; [|apply documents_empty].
  destruct (matches _ _); [apply documents_singleton | apply documents_empty].
Qed.

Lemma find_by_id o (c : Collection) :
  head (find (by_id o) c) = mkDocument o <$> c !! o.
Proof.
  rewrite (find_keyed _ o) by done.
  destruct (c !! o) as [f|]; [|done].
  by rewrite (proj2 (matches_by_id o (mkDocument o f)) eq_refl).
Qed.

Lemma find_item o delivery_id (c : Collection) :
  head (find (<["_id" := Equals (Sc (Oid o))]> (of_delivery delivery_id)) c)
  = lookup_item delivery_id o c.
Proof.
  rewrite (find_keyed _ o) by done. unfold lookup_item.
  destruct (c !! o) as [f|]; [|done].
  destruct (decide _) as [Hd|Hd].
  - by rewrite (proj2 (matches_item_of_delivery o delivery_id (mkDocument o f))).
  - destruct (matches _ _) eqn:Hm; [|done].
    apply matches_item_of_delivery in Hm as [_ Hm]. done.
Qed.

(** ** Worlds *)

Lemma collection_set_eq name c w : collection name (set_collection name c w) = c.
Proof. unfold collection, set_collection. simpl. by rewrite lookup_insert_eq. Qed.

Lemma collection_set_ne name name' c w :
  name ≠ name' → collection name' (set_collection name c w) = collection name' w.
Proof. intros. unfold collection, set_collection. simpl. by rewrite lookup_insert_ne. Qed.

Lemma find_one_by_id name o w :
  find_one name (by_id o) w = (Ok (mkDocument o <$> collection name w !! o), w).
Proof. unfold find_one. by rewrite find_by_id. Qed.

Lemma update_one_by_id name o upd w :
  bson_document upd →
  update_one name (by_id o) upd w =
    match collection name w !! o with
    | Some f => (Ok 1%nat, set_collection name (<[o := upd ∪ f]> (collection name w)) w)
    | None => (Ok 0%nat, w)
    end.
Proof.
  intros Hupd. unfold update_one. rewrite decide_True by done.
  rewrite find_by_id. by destruct (collection name w !! o).
Qed.

Lemma update_one_overflow name filt upd w :
  ¬ bson_document upd → update_one name filt upd w = (Raise OverflowError, w).
Proof. intros Hupd. unfold update_one. by rewrite decide_False. Qed.

(** What the handlers write besides quantities can always be encoded. *)
Lemma bson_opt_str (x : option string) : bson_value (opt_str x).
Proof. by destruct x. Qed.

Lemma bson_location (payload : StorePayload.t) :
  bson_value (Sub (location_of payload)).
Proof.
  unfold location_of. simpl.
  rewrite !map_Forall_insert by done. rewrite map_Forall_singleton.
  split_and!; try done.
  - by destruct (StorePayload.zone payload).
  - by destruct (StorePayload.level payload).
Qed.

Ltac bson_ok :=
  unfold bson_document;
  repeat first
    [ apply map_Forall_empty
    | apply map_Forall_insert_2;
      [first [ done | apply bson_opt_str | apply bson_location ]|] ].

(** The [$set] of a receive entry can be encoded when the new quantity
    fits in 64 bits and the status written is one that was stored. *)
Lemma bson_receive_update (q : Z) (st up : Value) :
  bson_document {[ "receivedQty" := Sc (Int q); "status" := st; "updated_at" := up ]}
  ↔ int64 q ∧ bson_value st ∧ bson_value up.
Proof.
  unfold bson_document.
  rewrite !map_Forall_insert by done. rewrite map_Forall_singleton. done.
Qed.

Lemma bson_total_update (q : Z) (t : Z) :
  bson_document {[ "receivedQty" := Sc (Int q); "updated_at" := Sc (Datetime t) ]}
  ↔ int64 q.
Proof.
  unfold bson_document.
  rewrite map_Forall_insert by done. rewrite map_Forall_singleton. simpl. tauto.
Qed.

Lemma collection_tick name w : collection name (tick w) = collection name w.
Proof. done. Qed.

Lemma lookup_item_Some delivery_id o (c : Collection) item :
  lookup_item delivery_id o c = Some item ↔
  ∃ f, item = mkDocument o f ∧ c !! o = Some f
       ∧ f !! "delivery_id" = Some (Sc (Str delivery_id)).
Proof.
  unfold lookup_item. split.
  - destruct (c !! o) as [f|]; [|done]. destruct (decide _); [|done].
    intros [= <-]. eauto.
  - intros (f & -> & -> & Hd). by rewrite decide_True.
Qed.

Lemma run_ok {A} (dflt : A) (m : M A) w :
  succeeded (m w).1 = true → m w = (Ok (value_of dflt (m w).1), (m w).2).
Proof. by destruct (m w) as [[a|e] w']. Qed.

Lemma run_raise {A} (m : M A) w e :
  (m w).1 = Raise e → m w = (Raise e, (m w).2).
Proof. destruct (m w) as [r w']. simpl. by intros ->. Qed.

Lemma value_of_ok {A} (dflt : A) (r : Result A) a :
  succeeded r = true → value_of dflt r = a → r = Ok a.
Proof. destruct r; [|done]. simpl. by intros _ ->. Qed.

Lemma is_Some_true {A} (x : option A) :
  match x with Some _ => true | None => false end = true → is_Some x.
Proof. destruct x; [eauto | done]. Qed.

Lemma has_stored name o w :
  has name o w = true → collection name w !! o = Some (stored name o w).
Proof. unfold has, stored. by destruct (collection name w !! o). Qed.

(** ** The receive loop *)

Lemma for_each_app {A S} (l1 l2 : list A) (acc : S) body w :
  for_each (l1 ++ l2) acc body w =
    match for_each l1 acc body w with
    | (Ok acc', w') => for_each l2 acc' body w'
    | (Raise e, w') => (Raise e, w')
    end.
Proof.
  revert acc w. induction l1 as [|x l1 IH]; intros acc w; [done|].
  simpl. unfold mbind, M_bind, bind.
  destruct (body acc x w) as [[acc'|e] w']; [apply IH | done].
Qed.

(** What one turn of the loop does, case by case. *)
Lemma receive_entry_run delivery_id total_added it w :
  receive_entry delivery_id total_added it w =
    match Oid.parse (ReceiveItemInput.itemId it) with
    | None => (Raise (HTTPException 400 "Invalid ID"), w)
    | Some o =>
        match lookup_item delivery_id o (collection "deliveryitem" w) with
        | None =>
            (Raise (HTTPException 400
                      ("Item " +:+ ReceiveItemInput.itemId it
                       +:+ " not found for this delivery")), w)
        | Some item =>
            let qty := ReceiveItemInput.qty it in
            if qty <? 0 then (Raise (HTTPException 400 "qty must be >= 0"), w)
            else
              match item_receivedQty w (fields item) with
              | Raise e => (Raise e, w)
              | Ok received =>
                  let status := if 0 <? qty then Sc (Str "RECEIVED")
                                else item_status (fields item) in
                  if decide (int64 (received + qty) ∧ bson_value status) then
                    (Ok (total_added + qty),
                     set_collection "deliveryitem"
                       (<[o :=
                            {[ "receivedQty" := Sc (Int (received + qty));
                               "status" := status;
                               "updated_at" := Sc (Datetime (utc w (ticks w))) ]}
                            ∪ fields item]>
                          (collection "deliveryitem" w))
                       (tick w))
                  else (Raise OverflowError, tick w)
              end
        end
    end.
Proof.
  unfold receive_entry, oid.
  destruct (Oid.parse _) as [o|]; [|done].
  unfold mbind, M_bind, bind, mret, M_ret, ret. unfold find_one at 1.
  rewrite find_item.
  destruct (lookup_item _ _ _) as [item|] eqn:Hitem; [|done].
  apply lookup_item_Some in Hitem as (f & -> & Hf & Hd).
  cbn zeta. destruct (ReceiveItemInput.qty it <? 0); [done|].
  unfold py_int, doc_get_default, item_receivedQty, item_status.
  change (doc_get (mkDocument o f) "receivedQty") with (f !! "receivedQty").
  change (doc_get (mkDocument o f) "status") with (f !! "status").
  simpl fields. simpl _id.
  destruct (int_of _ _) as [received|e]; [|done].
  unfold datetime_now. cbv beta iota.
  destruct (decide (int64 _ ∧ _)) as [[Hq Hst]|Hno].
  - rewrite update_one_by_id by (by apply bson_receive_update).
    rewrite collection_tick, Hf. done.
  - rewrite update_one_overflow; [done|].
    rewrite bson_receive_update. tauto.
Qed.

(** The loop touches the [deliveryitem] collection only. *)
Lemma receive_entry_frame delivery_id total_added it w r w' name :
  receive_entry delivery_id total_added it w = (r, w') →
  name ≠ "deliveryitem" →
  collection name w' = collection name w.
Proof.
  rewrite receive_entry_run. cbv zeta. intros Hrun Hname.
  repeat case_match; simplify_eq; try done.
  all: rewrite collection_set_ne by done; apply collection_tick.
Qed.

Lemma receive_loop_frame delivery_id entries total_added w r w' name :
  for_each entries total_added (receive_entry delivery_id) w = (r, w') →
  name ≠ "deliveryitem" →
  collection name w' = collection name w.
Proof.
  revert total_added w. induction entries as [|it entries IH]; intros acc w Hrun Hname.
  - by injection Hrun as _ <-.
  - simpl in Hrun. unfold mbind, M_bind, bind in Hrun.
    destruct (receive_entry delivery_id acc it w) as [[acc'|e] w1] eqn:Hit.
    + rewrite (IH _ _ Hrun Hname). eapply receive_entry_frame; eauto.
    + injection Hrun as _ <-. eapply receive_entry_frame; eauto.
Qed.

(** The re-aggregation: whatever the rows of the pipeline, the handler
    ends with the sum over the matched items in [new_total]. *)
Lemma aggregate_new_total name (filt : Filter) field w :
  ∃ rows, aggregate_sum name filt "sum" field w = (Ok rows, w)
          ∧ int_of w (foldl (λ _ (r : Dict), default (Sc (Int 0)) (r !! "sum"))
                        (Sc (Int 0)) rows)
            = Ok (sum_result w (sum_field field (find filt (collection name w)))).
Proof.
  unfold aggregate_sum. eexists. split; [reflexivity|].
  destruct (find filt (collection name w)) as [|d ds].
  - simpl. unfold sum_result. by rewrite decide_True by (unfold int64; lia).
  - simpl foldl. by rewrite lookup_insert_ne, lookup_singleton_eq.
Qed.

Lemma sum_result_fits w s : int64 s → sum_result w s = s.
Proof. intros Hs. unfold sum_result. by rewrite decide_True. Qed.

(** The whole handler, case by case. *)
Lemma receive_items_run delivery_id payload w :
  receive_items delivery_id payload w =
    match Oid.parse delivery_id with
    | None => (Raise (HTTPException 400 "Invalid ID"), w)
    | Some o =>
        match collection "delivery" w !! o with
        | None => (Raise (HTTPException 404 "Delivery not found"), w)
        | Some f =>
            match for_each (ReceivePayload.items payload) 0
                    (receive_entry delivery_id) w with
            | (Raise e, w1) => (Raise e, w1)
            | (Ok _, w1) =>
                let total :=
                  sum_result w1
                    (sum_field "receivedQty"
                       (find (of_delivery delivery_id) (collection "deliveryitem" w1))) in
                let f' := {[ "receivedQty" := Sc (Int total);
                             "updated_at" := Sc (Datetime (utc w1 (ticks w1))) ]} ∪ f in
                if decide (int64 total) then
                  (Ok (serialize (Some (mkDocument o f'))),
                   set_collection "delivery" (<[o := f']> (collection "delivery" w))
                     (tick w1))
                else (Raise OverflowError, tick w1)
            end
        end
    end.
Proof.
  unfold receive_items, oid.
  destruct (Oid.parse delivery_id) as [o|]; [|done].
  unfold mbind, M_bind, bind, mret, M_ret, ret.
  rewrite find_one_by_id.
  destruct (collection "delivery" w !! o) as [f|] eqn:Hf; [|done].
  cbv beta iota. unfold fmap, option_fmap, option_map. cbv beta iota.
  destruct (for_each _ _ _ _) as [[acc|e] w1] eqn:Hloop; [|done].
  pose proof (receive_loop_frame _ _ _ _ _ _ "delivery" Hloop) as Hframe.
  destruct (aggregate_new_total "deliveryitem" (of_delivery delivery_id)
              "receivedQty" w1) as (rows & -> & Htotal).
  unfold py_int. rewrite Htotal. unfold datetime_now. cbv beta iota zeta.
  destruct (decide (int64 _)) as [Hfit|Hno].
  - rewrite update_one_by_id by (by apply bson_total_update).
    rewrite collection_tick, Hframe, Hf by done.
    rewrite find_one_by_id, collection_set_eq, lookup_insert_eq. done.
  - rewrite update_one_overflow; [done|]. by rewrite bson_total_update.
Qed.

(** ** The aggregate, against the item set *)

Lemma sum_field_Permutation field ds ds' :
  ds ≡ₚ ds' → sum_field field ds = sum_field field ds'.
Proof.
  unfold sum_field. induction 1; simpl; lia.
Qed.

Lemma received_total_empty delivery_id : received_total delivery_id ∅ = 0.
Proof. unfold received_total. by rewrite map_fold_empty. Qed.

Lemma received_total_insert delivery_id o f (c : Collection) :
  c !! o = None →
  received_total delivery_id (<[o := f]> c)
  = item_received delivery_id f + received_total delivery_id c.
Proof.
  intros Ho. unfold received_total.
  rewrite map_fold_insert_L; [done| |done]. intros. lia.
Qed.

(** The pipeline's [$match] then [$sum] computes the sum over the items
    that reference the delivery. *)
Lemma sum_field_find_total delivery_id (c : Collection) :
  sum_field "receivedQty" (find (of_delivery delivery_id) c)
  = received_total delivery_id c.
Proof.
  induction c as [|o f c Ho IH] using map_ind.
  - unfold find. by rewrite map_filter_empty, documents_empty, received_total_empty.
  - rewrite received_total_insert by done. rewrite <- IH.
    unfold find, item_received. rewrite map_filter_insert. simpl.
    rewrite delete_id by done.
    pose proof (matches_of_delivery delivery_id (mkDocument o f)) as Hm.
    simpl in Hm. destruct (decide (matches _ _ = true)) as [Ht|Hf].
    + rewrite decide_True by (by apply Hm).
      unfold documents at 1.
      rewrite (sum_field_Permutation _ _
                 (mkDocument o f :: documents
                    (filter (λ kv, matches (of_delivery delivery_id)
                                     (mkDocument kv.1 kv.2) = true) c))).
      * done.
      * unfold documents. rewrite map_to_list_insert; [done|].
        by rewrite map_lookup_filter_None_2; [|left].
    + rewrite decide_False by (by rewrite <- Hm). lia.
Qed.

Lemma lookup_serialized o (f : Dict) k :
  k ≠ "id" →
  (isoformat_value <$> <["id" := Sc (Str (Oid.str o))]> f) !! k
  = isoformat_value <$> f !! k.
Proof. intros. by rewrite lookup_fmap, lookup_insert_ne. Qed.

Lemma lookup_serialized_value o (f : Dict) k v :
  k ≠ "id" → f !! k = Some v →
  (isoformat_value <$> <["id" := Sc (Str (Oid.str o))]> f) !! k
  = Some (isoformat_value v).
Proof. intros Hk Hv. rewrite lookup_serialized by done. by rewrite Hv. Qed.

(** ** The receive loop, one step at a time *)

(** A turn of the loop either leaves every collection alone (and
    raises), or rewrites one item of the delivery with its quantity
    increased by a non-negative qty. *)
Lemma receive_entry_step delivery_id total_added it w r w' :
  receive_entry delivery_id total_added it w = (r, w') →
  ((∀ name, collection name w' = collection name w) ∧ ∃ e, r = Raise e)
  ∨ ∃ o item received item',
      collection "deliveryitem" w !! o = Some item
      ∧ references delivery_id item
      ∧ item_receivedQty w item = Ok received
      ∧ 0 ≤ ReceiveItemInput.qty it
      ∧ r = Ok (total_added + ReceiveItemInput.qty it)
      ∧ item' !! "receivedQty" = Some (Sc (Int (received + ReceiveItemInput.qty it)))
      ∧ (∀ k, k ∉ receive_written → item' !! k = item !! k)
      ∧ collection "deliveryitem" w' = <[o := item']> (collection "deliveryitem" w).
Proof.
  rewrite receive_entry_run. cbv zeta.
  destruct (Oid.parse _) as [o|]; [|intros [= <- <-]; left; eauto].
  destruct (lookup_item _ _ _) as [item|] eqn:Hitem; [|intros [= <- <-]; left; eauto].
  apply lookup_item_Some in Hitem as (f & -> & Hf & Href). simpl fields.
  destruct (ReceiveItemInput.qty it <? 0) eqn:Hq; [intros [= <- <-]; left; eauto|].
  apply Z.ltb_ge in Hq.
  destruct (item_receivedQty w f) as [received|e] eqn:Hint;
    [|intros [= <- <-]; left; eauto].
  destruct (decide _) as [_|_]; [|intros [= <- <-]; left; eauto].
  intros [= <- <-]. right. eexists o, f, received, _.
  split_and!; [done|done|done|done|done| | |].
  3:{ by rewrite collection_set_eq. }
  - by rewrite (lookup_union_Some_l _ _ _ _ (lookup_insert_eq _ _ _)).
  - intros k Hk. apply lookup_union_r.
    unfold receive_written in Hk.
    rewrite !lookup_insert_ne, lookup_singleton_ne; [done|..];
      intros <-; apply Hk; set_solver.
Qed.

(** A relation between item collections that holds across no change and
    across every single step holds across the whole loop. *)
Lemma receive_loop_ind (R : Collection → Collection → Prop) delivery_id :
  (∀ c, R c c) →
  (∀ c1 c2 c3, R c1 c2 → R c2 c3 → R c1 c3) →
  (∀ total_added it w r w',
     receive_entry delivery_id total_added it w = (r, w') →
     R (collection "deliveryitem" w) (collection "deliveryitem" w')) →
  ∀ entries total_added w r w',
    for_each entries total_added (receive_entry delivery_id) w = (r, w') →
    R (collection "deliveryitem" w) (collection "deliveryitem" w').
Proof.
  intros Hrefl Htrans Hstep entries.
  induction entries as [|it entries IH]; intros acc w r w' Hrun.
  - injection Hrun as _ <-. apply Hrefl.
  - simpl in Hrun. unfold mbind, M_bind, bind in Hrun.
    destruct (receive_entry delivery_id acc it w) as [[acc'|e] w1] eqn:Hit.
    + eapply Htrans; [by eapply Hstep|by eapply IH].
    + injection Hrun as _ <-. by eapply Hstep.
Qed.

(** The item collection a receive call leaves is the one its loop left. *)
Lemma receive_items_items delivery_id payload w :
  collection "deliveryitem" (receive_items delivery_id payload w).2
  = collection "deliveryitem"
      (match Oid.parse delivery_id with
       | Some o =>
           match collection "delivery" w !! o with
           | Some _ => (for_each (ReceivePayload.items payload) 0
                          (receive_entry delivery_id) w).2
           | None => w
           end
       | None => w
       end).
Proof.
  rewrite receive_items_run. cbv zeta.
  destruct (Oid.parse delivery_id) as [o|]; [|done].
  destruct (collection "delivery" w !! o) as [f|]; [|done].
  destruct (for_each _ _ _ _) as [[acc|e] w1]; [|done].
  destruct (decide _); [|done].
  simpl. by rewrite collection_set_ne.
Qed.

Lemma receive_items_ind (R : Collection → Collection → Prop) delivery_id :
  (∀ c, R c c) →
  (∀ c1 c2 c3, R c1 c2 → R c2 c3 → R c1 c3) →
  (∀ total_added it w r w',
     receive_entry delivery_id total_added it w = (r, w') →
     R (collection "deliveryitem" w) (collection "deliveryitem" w')) →
  ∀ payload w,
    R (collection "deliveryitem" w)
      (collection "deliveryitem" (receive_items delivery_id payload w).2).
Proof.
  intros Hrefl Htrans Hstep payload w. rewrite receive_items_items.
  destruct (Oid.parse delivery_id) as [o|]; [|apply Hrefl].
  destruct (collection "delivery" w !! o) as [f|]; [|apply Hrefl].
  destruct (for_each _ _ _ _) as [r w1] eqn:Hloop. simpl.
  by eapply (receive_loop_ind R).
Qed.

Lemma not_listed (k : string) (l : list string) :
  bool_decide (k ∈ l) = false → k ∉ l.
Proof. apply bool_decide_eq_false. Qed.

(** ** The receive loop and the totals *)

Lemma received_total_replace delivery_id o item item' (c : Collection) :
  c !! o = Some item →
  received_total delivery_id (<[o := item']> c)
  = received_total delivery_id c
    - item_received delivery_id item + item_received delivery_id item'.
Proof.
  intros Ho.
  rewrite <- (insert_delete_eq c o item').
  rewrite <- (insert_delete_id c o item Ho) at 2.
  rewrite !received_total_insert by apply lookup_delete_eq. lia.
Qed.

Lemma int_quantity_read w (item : Dict) received :
  (item !! "receivedQty" = None ∨ ∃ z, item !! "receivedQty" = Some (Sc (Int z))) →
  item_receivedQty w item = Ok received →
  numeric (item !! "receivedQty") = received.
Proof.
  unfold item_receivedQty. intros [Hn|[z Hz]].
  - rewrite Hn. simpl. congruence.
  - rewrite Hz. simpl. congruence.
Qed.

(** What a successful turn does to the delivery's item total and to
    each item's quantity, on a collection with int quantities. *)
Lemma receive_entry_totals delivery_id total_added it w a w' :
  int_quantities (collection "deliveryitem" w) →
  receive_entry delivery_id total_added it w = (Ok a, w') →
  a = total_added + ReceiveItemInput.qty it
  ∧ int_quantities (collection "deliveryitem" w')
  ∧ received_total delivery_id (collection "deliveryitem" w')
    = received_total delivery_id (collection "deliveryitem" w)
      + ReceiveItemInput.qty it.
Proof.
  intros Hint Hstep.
  apply receive_entry_step in Hstep
    as [[_ [e [=]]]|(o & item & received & item' & Ho & Href & Hr & Hq & [= ->]
                      & Hq' & Hk & ->)].
  assert (Href' : references delivery_id item').
  { unfold references. rewrite Hk; [done|]. unfold receive_written. set_solver. }
  split_and!; [done| |].
  - intros o0 item0. destruct (decide (o0 = o)) as [->|Hne].
    + rewrite lookup_insert_eq. intros [= <-]. right. eauto.
    + rewrite lookup_insert_ne by done. apply Hint.
  - rewrite (received_total_replace _ _ _ _ _ Ho). unfold item_received.
    rewrite !decide_True by done. rewrite Hq'. simpl numeric.
    rewrite (int_quantity_read w item received (Hint o item Ho) Hr). lia.
Qed.

Lemma receive_loop_totals delivery_id entries total_added w a w' :
  int_quantities (collection "deliveryitem" w) →
  for_each entries total_added (receive_entry delivery_id) w = (Ok a, w') →
  a = total_added + batch_qty entries
  ∧ int_quantities (collection "deliveryitem" w')
  ∧ received_total delivery_id (collection "deliveryitem" w')
    = received_total delivery_id (collection "deliveryitem" w) + batch_qty entries.
Proof.
  revert total_added w. induction entries as [|it entries IH]; intros acc w Hint Hrun.
  - injection Hrun as <- <-. simpl. split_and!; [lia|done|lia].
  - simpl in Hrun. unfold mbind, M_bind, bind in Hrun.
    destruct (receive_entry delivery_id acc it w) as [[acc1|e] w1] eqn:Hit; [|done].
    destruct (receive_entry_totals _ _ _ _ _ _ Hint Hit) as (-> & Hint1 & Ht1).
    destruct (IH _ _ Hint1 Hrun) as (-> & Hint' & Ht').
    simpl batch_qty. split_and!; [lia|done|lia].
Qed.

(** ** Receiving: what an entry does to its item *)

Lemma receive_entry_ok delivery_id total_added it o item received w :
  Oid.parse (ReceiveItemInput.itemId it) = Some o →
  collection "deliveryitem" w !! o = Some item →
  references delivery_id item →
  bson_document item →
  item_receivedQty w item = Ok received →
  0 ≤ ReceiveItemInput.qty it →
  int64 (received + ReceiveItemInput.qty it) →
  receive_entry delivery_id total_added it w =
    (Ok (total_added + ReceiveItemInput.qty it),
     set_collection "deliveryitem"
       (<[o := {[ "receivedQty" := Sc (Int (received + ReceiveItemInput.qty it));
                  "status" := (if 0 <? ReceiveItemInput.qty it
                               then Sc (Str "RECEIVED") else item_status item);
                  "updated_at" := Sc (Datetime (utc w (ticks w))) ]} ∪ item]>
          (collection "deliveryitem" w))
       (tick w)).
Proof.
  intros Ho Hitem Href Hbson Hrecv Hqty Hfit.
  rewrite receive_entry_run, Ho. unfold lookup_item. rewrite Hitem.
  rewrite decide_True by done. cbv zeta. simpl fields.
  rewrite (proj2 (Z.ltb_ge _ _) Hqty), Hrecv.
  rewrite decide_True; [done|]. split; [done|].
  destruct (0 <? _); [done|]. unfold item_status.
  destruct (item !! "status") as [st|] eqn:Hst; [|done].
  exact (Hbson _ _ Hst).
Qed.

Lemma received_item_fields (item : Dict) (q : Z) (st up : Value) :
  let item' : Dict :=
    {[ "receivedQty" := Sc (Int q); "status" := st; "updated_at" := up ]} ∪ item in
  item' !! "receivedQty" = Some (Sc (Int q))
  ∧ item' !! "status" = Some st
  ∧ (∀ k, k ≠ "receivedQty" → k ≠ "status" → k ≠ "updated_at" →
          item' !! k = item !! k).
Proof.
  cbv zeta. split_and!.
  - by rewrite (lookup_union_Some_l _ _ _ _ (lookup_insert_eq _ _ _)).
  - apply lookup_union_Some_l.
    by rewrite lookup_insert_ne, lookup_insert_eq.
  - intros k H1 H2 H3. apply lookup_union_r.
    by rewrite !lookup_insert_ne, lookup_singleton_ne.
Qed.

Lemma not_written k :
  k ∉ receive_written → k ≠ "receivedQty" ∧ k ≠ "status" ∧ k ≠ "updated_at".
Proof. unfold receive_written. set_solver. Qed.

(** One entry applied: the item it names is [received_as] with the
    entry's qty. *)
Lemma received_as_one w (item : Dict) received qty up :
  item_receivedQty w item = Ok received →
  0 ≤ qty →
  received_as w qty item
    ({[ "receivedQty" := Sc (Int (received + qty));
        "status" := (if 0 <? qty then Sc (Str "RECEIVED") else item_status item);
        "updated_at" := up ]} ∪ item).
Proof.
  intros Hr Hq.
  match goal with
  | |- received_as _ _ _ ({[ "receivedQty" := Sc (Int ?q); "status" := ?st;
                             "updated_at" := _ ]} ∪ _) =>
      destruct (received_item_fields item q st up) as (H1 & H2 & H3)
  end.
  cbv zeta in H1, H2, H3. split.
  - intros k (? & ? & ?)%not_written. by apply H3.
  - intros r Hr'. rewrite Hr in Hr'. injection Hr' as <-. split; [exact H1|].
    unfold item_status at 1. by rewrite H2.
Qed.

Lemma received_as_trans w w' (a b : Z) (item item1 item2 : Dict) received :
  int_str w' = int_str w →
  item_receivedQty w item = Ok received →
  0 ≤ a → 0 ≤ b →
  received_as w a item item1 →
  received_as w' b item1 item2 →
  received_as w (a + b) item item2.
Proof.
  intros Hsame Hr Ha Hb [Hk1 Hq1] [Hk2 Hq2].
  destruct (Hq1 _ Hr) as [Hrq1 Hst1].
  assert (Hr1 : item_receivedQty w' item1 = Ok (received + a)).
  { unfold item_receivedQty. by rewrite Hrq1. }
  destruct (Hq2 _ Hr1) as [Hrq2 Hst2].
  split.
  - intros k Hk. by rewrite Hk2, Hk1.
  - intros r Hr'. rewrite Hr in Hr'. injection Hr' as <-. split.
    + rewrite Hrq2. do 3 f_equal. lia.
    + rewrite Hst2, Hst1.
      destruct (0 <? a) eqn:E1, (0 <? b) eqn:E2, (0 <? a + b) eqn:E3; try done;
        rewrite ?Z.ltb_lt, ?Z.ltb_ge in *; lia.
Qed.

Lemma batch_adds_nonneg o entries :
  Forall (λ it, 0 ≤ ReceiveItemInput.qty it) entries → 0 ≤ batch_adds o entries.
Proof.
  induction 1 as [|it rest Hq _ IH]; simpl; [lia|].
  destruct (decide _); lia.
Qed.

Lemma batch_adds_unnamed o entries : ¬ named o entries → batch_adds o entries = 0.
Proof.
  unfold named. induction entries as [|it rest IH]; [done|].
  rewrite Exists_cons. intros Hn. simpl.
  rewrite decide_False by tauto. rewrite IH by tauto. lia.
Qed.

Lemma receivable_qty delivery_id entries w :
  receivable delivery_id entries w →
  Forall (λ it, 0 ≤ ReceiveItemInput.qty it) entries.
Proof. intros [Hall _]. eapply Forall_impl; [done|]. by intros it [? _]. Qed.

(** The item an entry names is still there, and still of the delivery,
    after an item was rewritten with its [delivery_id] kept. *)
Lemma entry_item_insert delivery_id it o (item item' : Dict) w w' :
  collection "deliveryitem" w !! o = Some item →
  item' !! "delivery_id" = item !! "delivery_id" →
  collection "deliveryitem" w' = <[o := item']> (collection "deliveryitem" w) →
  is_Some (entry_item delivery_id it w) ↔ is_Some (entry_item delivery_id it w').
Proof.
  intros Ho Hd Hw'. unfold entry_item.
  destruct (Oid.parse (ReceiveItemInput.itemId it)) as [oi|]; [|done].
  unfold lookup_item. rewrite Hw'.
  destruct (decide (oi = o)) as [->|Hne].
  - rewrite lookup_insert_eq, Ho, Hd.
    by destruct (decide _).
  - by rewrite lookup_insert_ne.
Qed.

(** The loop over a batch it can apply: it runs to its end, adds up the
    quantities, touches no other collection, adds and removes no item,
    leaves the items the batch does not name as they were, and leaves
    each item it names [received_as] with what the batch adds to it. *)
Lemma receive_loop_effect delivery_id entries :
  ∀ acc w,
    receivable delivery_id entries w →
    ∃ w1,
      for_each entries acc (receive_entry delivery_id) w
      = (Ok (acc + batch_qty entries), w1)
      ∧ (∀ name, name ≠ "deliveryitem" → collection name w1 = collection name w)
      ∧ int_str w1 = int_str w ∧ wide_sum w1 = wide_sum w
      ∧ (∀ o, collection "deliveryitem" w !! o = None →
              collection "deliveryitem" w1 !! o = None)
      ∧ ∀ o item, collection "deliveryitem" w !! o = Some item →
          ∃ item', collection "deliveryitem" w1 !! o = Some item'
            ∧ item' !! "delivery_id" = item !! "delivery_id"
            ∧ (¬ named o entries → item' = item)
            ∧ (named o entries → received_as w (batch_adds o entries) item item').
Proof.
  induction entries as [|it rest IH]; intros acc w Hrecv.
  { exists w. simpl. unfold ret. rewrite Z.add_0_r.
    split_and!; try done.
    intros o item Ho. exists item. split_and!; [done|done|done|].
    intros Hn. by apply Exists_nil in Hn. }
  pose proof (receivable_qty _ _ _ Hrecv) as Hqs.
  destruct Hrecv as [Hall Hitems].
  apply Forall_cons in Hall as [[Hq Hsome] Hall].
  apply Forall_cons in Hqs as [_ Hqs].
  unfold entry_item in Hsome.
  destruct (Oid.parse (ReceiveItemInput.itemId it)) as [oi|] eqn:Hoi;
    [|by destruct Hsome].
  destruct Hsome as [d Hd]. apply lookup_item_Some in Hd as (f & -> & Hf & Href).
  assert (Hnamed : named oi (it :: rest)) by (apply Exists_cons; by left).
  destruct (Hitems oi f Hf Hnamed) as (Hbson & received & Hr & Hlo & Hhi).
  simpl batch_adds in Hhi. rewrite decide_True in Hhi by done.
  pose proof (batch_adds_nonneg oi rest Hqs) as Hnn.
  assert (Hfit : int64 (received + ReceiveItemInput.qty it))
    by (unfold int64; lia).
  pose proof (receive_entry_ok delivery_id acc it oi f received w
                Hoi Hf Href Hbson Hr Hq Hfit) as Hstep.
  set (item1 := {[ "receivedQty" := Sc (Int (received + ReceiveItemInput.qty it));
                   "status" := (if 0 <? ReceiveItemInput.qty it
                                then Sc (Str "RECEIVED") else item_status f);
                   "updated_at" := Sc (Datetime (utc w (ticks w))) ]} ∪ f) in *.
  set (w_1 := set_collection "deliveryitem"
                (<[oi := item1]> (collection "deliveryitem" w)) (tick w)) in *.
  assert (Has : received_as w (ReceiveItemInput.qty it) f item1)
    by (by apply received_as_one).
  assert (Hc1 : collection "deliveryitem" w_1
                = <[oi := item1]> (collection "deliveryitem" w))
    by apply collection_set_eq.
  assert (Hd1 : item1 !! "delivery_id" = f !! "delivery_id").
  { apply (proj1 Has). apply not_listed. reflexivity. }
  assert (Hr1 : item_receivedQty w_1 item1 = Ok (received + ReceiveItemInput.qty it)).
  { destruct (proj2 Has _ Hr) as [Hrq _]. unfold item_receivedQty. by rewrite Hrq. }
  assert (Hb1 : bson_document item1).
  { apply map_Forall_union_2; [|done]. apply bson_receive_update.
    split_and!; [done| |done].
    destruct (0 <? _); [done|]. unfold item_status.
    destruct (f !! "status") as [st|] eqn:Hst; [|done]. exact (Hbson _ _ Hst). }
  assert (Hrecv1 : receivable delivery_id rest w_1).
  { split.
    - eapply Forall_impl; [exact Hall|]. intros it' [Hq' Hs']. split; [done|].
      by apply (entry_item_insert delivery_id it' oi f item1 w w_1).
    - intros o x Hx Hn. rewrite Hc1 in Hx.
      destruct (decide (o = oi)) as [->|Hne].
      + rewrite lookup_insert_eq in Hx. injection Hx as <-.
        split; [done|]. exists (received + ReceiveItemInput.qty it).
        split_and!; [done|lia|lia].
      + rewrite lookup_insert_ne in Hx by done.
        destruct (Hitems o x Hx) as (Hbx & rx & Hrx & Hlx & Hhx).
        { apply Exists_cons. by right. }
        split; [done|]. exists rx. split_and!; [exact Hrx|done|].
        simpl batch_adds in Hhx. rewrite decide_False in Hhx by congruence. lia. }
  destruct (IH (acc + ReceiveItemInput.qty it) w_1 Hrecv1)
    as (w1 & Hrun & Hother & Hint & Hwide & Hnone & Hsome).
  exists w1. split_and!.
  - simpl for_each. unfold mbind, M_bind, bind. rewrite Hstep, Hrun.
    simpl batch_qty. do 2 f_equal. lia.
  - intros name Hname. rewrite (Hother name Hname).
    subst w_1. by rewrite collection_set_ne.
  - by rewrite Hint.
  - by rewrite Hwide.
  - intros o Ho. apply Hnone. rewrite Hc1.
    rewrite lookup_insert_ne; [done|]. intros <-. by rewrite Hf in Ho.
  - intros o item Ho. destruct (decide (o = oi)) as [->|Hne].
    + rewrite Hf in Ho. injection Ho as <-.
      destruct (Hsome oi item1) as (item' & Hi' & Hd' & Hun & Hnm).
      { rewrite Hc1. apply lookup_insert_eq. }
      exists item'. split_and!; [done|by rewrite Hd'|by intros []|].
      intros _. simpl batch_adds. rewrite decide_True by done.
      destruct (decide (named oi rest)) as [Hn|Hn].
      * by apply (received_as_trans w w_1 _ _ f item1 item' received); auto.
      * rewrite (Hun Hn), (batch_adds_unnamed _ _ Hn), Z.add_0_r. exact Has.
    + destruct (Hsome o item) as (item' & Hi' & Hd' & Hun & Hnm).
      { rewrite Hc1. by rewrite lookup_insert_ne. }
      assert (Hiff : named o (it :: rest) ↔ named o rest).
      { unfold named. rewrite Exists_cons. split; [|tauto].
        intros [Hit|?]; [|done]. congruence. }
      exists item'. split_and!; [done|done| |].
      * intros Hn. apply Hun. by rewrite <- Hiff.
      * intros Hn. simpl batch_adds. rewrite decide_False by congruence.
        rewrite Z.add_0_l. exact (Hnm (proj1 Hiff Hn)).
Qed.

(** ** Receiving: the delivery's aggregate *)


Lemma int64_checked z : bool_decide (int64 z) = true → int64 z.
Proof. apply bool_decide_eq_true. Qed.



(** C8. A receive call that completes leaves the parent delivery's
    status as it was: of the delivery's fields only receivedQty and
    updated_at are written, and no other delivery is touched. *)
Theorem receive_items_keeps_delivery_status delivery_id payload w r w' :
  receive_items delivery_id payload w = (Ok r, w') →
  ∃ o f f',
    Oid.parse delivery_id = Some o
    ∧ collection "delivery" w !! o = Some f
    ∧ collection "delivery" w' !! o = Some f'
    ∧ f' !! "status" = f !! "status"
    ∧ (∀ k, k ≠ "receivedQty" → k ≠ "updated_at" → f' !! k = f !! k)
    ∧ (∀ o', o' ≠ o → collection "delivery" w' !! o' = collection "delivery" w !! o')
    ∧ r = serialize (Some (mkDocument o f')).
Proof.
  rewrite receive_items_run. cbv zeta.
  destruct (Oid.parse delivery_id) as [o|]; [|done].
  destruct (collection "delivery" w !! o) as [f|] eqn:Hf; [|done].
  destruct (for_each _ _ _ _) as [[acc|e] w1]; [|done].
  destruct (decide (int64 _)) as [_|_]; [|done].
  intros [= <- <-]. rewrite collection_set_eq.
  assert (Hframe : ∀ (q up : Value) k, k ≠ "receivedQty" → k ≠ "updated_at" →
            ({[ "receivedQty" := q; "updated_at" := up ]} ∪ f) !! k = f !! k).
  { intros q up k Hk1 Hk2. apply lookup_union_r.
    by rewrite lookup_insert_ne, lookup_singleton_ne. }
  eexists o, f, _. split_and!; [done|done|apply lookup_insert_eq| | | |done].
  - by apply Hframe.
  - apply Hframe.
  - intros o' Ho'. by rewrite lookup_insert_ne.
Qed.

Lemma receive_items_keeps_delivery_status_witness :
  let out := receive_items acme (ReceivePayload.mk [receive crate 4]) world2 in
  ∃ f',
    stored "delivery" acme_oid world2 !! "status" = Some (Sc (Str "PENDING"))
    ∧ collection "delivery" out.2 !! acme_oid = Some f'
    ∧ f' !! "status" = Some (Sc (Str "PENDING")).
Proof.
  intros out.
  assert (Hok : succeeded out.1 = true) by (vm_compute; reflexivity).
  destruct (receive_items_keeps_delivery_status acme
              (ReceivePayload.mk [receive crate 4]) world2 _ _ (run_ok None _ _ Hok))
    as (o & f & f' & Ho & Hf & Hf' & Hst & _).
  assert (o = acme_oid) as ->
    by (vm_compute in Ho; injection Ho as <-; vm_compute; reflexivity).
  rewrite (has_stored "delivery" acme_oid world2 ltac:(vm_compute; reflexivity)) in Hf.
  apply (inj Some) in Hf as <-.
  assert (Hs : stored "delivery" acme_oid world2 !! "status" = Some (Sc (Str "PENDING")))
    by (vm_compute; reflexivity).
  exists f'. split_and!; [exact Hs | exact Hf' | rewrite Hst; exact Hs].
Defined.

(** ** Receiving: failing entries *)

Lemma receive_entry_raise delivery_id total_added it w e w' :
  receive_entry delivery_id total_added it w = (Raise e, w') →
  ∀ name, collection name w' = collection name w.
Proof.
  intros Hrun. apply receive_entry_step in Hrun as [[Hsame _]|Hok]; [done|].
  by destruct Hok as (? & ? & ? & ? & _ & _ & _ & _ & [=] & _).
Qed.

(** C3. In a receive call, once the entries before it have been applied,
    an entry whose item does not exist or does not belong to the delivery
    fails with a 400 (validation) error, and an entry with a negative qty
    fails with the 400 "qty must be >= 0"; the call stops there, in the
    world the earlier entries left: their item updates stay persisted and
    the later entries are not looked at. *)
Theorem receive_items_entry_failure delivery_id o f pre it post acc w w1 :
  Oid.parse delivery_id = Some o →
  collection "delivery" w !! o = Some f →
  for_each pre 0 (receive_entry delivery_id) w = (Ok acc, w1) →
  entry_item delivery_id it w1 = None ∨ ReceiveItemInput.qty it < 0 →
  ∃ detail,
    receive_items delivery_id (ReceivePayload.mk (pre ++ it :: post)) w
    = (Raise (HTTPException 400 detail), w1)
    ∧ (entry_item delivery_id it w1 = None →
       detail = match Oid.parse (ReceiveItemInput.itemId it) with
                | Some _ => "Item " +:+ ReceiveItemInput.itemId it
                            +:+ " not found for this delivery"
                | None => "Invalid ID"
                end)
    ∧ (is_Some (entry_item delivery_id it w1) → detail = "qty must be >= 0").
Proof.
  intros Ho Hf Hpre Hfail.
  rewrite receive_items_run, Ho, Hf. simpl ReceivePayload.items.
  rewrite for_each_app, Hpre. simpl for_each. unfold mbind, M_bind, bind.
  rewrite receive_entry_run. cbv zeta. unfold entry_item in *.
  destruct (Oid.parse (ReceiveItemInput.itemId it)) as [oi|].
  - destruct (lookup_item delivery_id oi (collection "deliveryitem" w1)) as [item|].
    + destruct Hfail as [?|Hq]; [done|].
      rewrite (proj2 (Z.ltb_lt _ _) Hq).
      eexists. split_and!; [done|done|done].
    + eexists. split_and!; [done|done|]. by intros [? ?].
  - eexists. split_and!; [done|done|]. by intros [? ?].
Qed.

Lemma receive_items_entry_failure_witness :
  let w1 := (for_each [receive crate 6] 0 (receive_entry acme) world2).2 in
  receive_items acme
    (ReceivePayload.mk ([receive crate 6] ++ receive crate (-1) :: [receive crate 3]))
    world2
  = (Raise (HTTPException 400 "qty must be >= 0"), w1)
  ∧ stored "deliveryitem" crate_oid world2 !! "receivedQty" = Some (Sc (Int 0))
  ∧ stored "deliveryitem" crate_oid w1 !! "receivedQty" = Some (Sc (Int 6)).
Proof.
  intros w1.
  assert (Hpre : succeeded (for_each [receive crate 6] 0 (receive_entry acme) world2).1
                 = true) by (vm_compute; reflexivity).
  destruct (receive_items_entry_failure acme acme_oid
              (stored "delivery" acme_oid world2)
              [receive crate 6] (receive crate (-1)) [receive crate 3] _ world2 w1
              ltac:(vm_compute; reflexivity)
              (has_stored "delivery" acme_oid world2 ltac:(vm_compute; reflexivity))
              (run_ok 0 (for_each [receive crate 6] 0 (receive_entry acme)) world2 Hpre)
              ltac:(right; simpl; lia))
    as (detail & Hrun & _ & Hd).
  rewrite Hd in Hrun.
  - split_and!; [exact Hrun | vm_compute; reflexivity | vm_compute; reflexivity].
  - apply is_Some_true. vm_compute. reflexivity.
Defined.

(** A batch of one entry that names an item of the delivery. *)
Lemma receivable_one delivery_id it o item received w :
  Oid.parse (ReceiveItemInput.itemId it) = Some o →
  collection "deliveryitem" w !! o = Some item →
  references delivery_id item →
  bson_document item →
  item_receivedQty w item = Ok received →
  0 ≤ ReceiveItemInput.qty it →
  int64 received →
  int64 (received + ReceiveItemInput.qty it) →
  receivable delivery_id [it] w.
Proof.
  intros Ho Hitem Href Hbson Hr Hq [Hlo _] [_ Hhi]. split.
  - apply Forall_singleton. split; [done|]. unfold entry_item. rewrite Ho.
    exists (mkDocument o item). apply lookup_item_Some. eauto.
  - intros o' item' Ho' Hn. apply Exists_cons in Hn as [Hn|Hn%Exists_nil]; [|done].
    rewrite Ho in Hn. injection Hn as <-. rewrite Hitem in Ho'. injection Ho' as <-.
    split; [done|]. exists received. split_and!; [done|done|].
    simpl. rewrite decide_True by done. lia.
Qed.

Lemma bson_checked (d : Dict) : bool_decide (bson_document d) = true → bson_document d.
Proof. apply bool_decide_eq_true. Qed.

(** A failing entry fails the same after the loop applied a batch before
    it: the loop adds and removes no item and moves none to another
    delivery. *)
Lemma entry_fails_after delivery_id pre bad acc acc' w w1 :
  receivable delivery_id pre w →
  for_each pre acc (receive_entry delivery_id) w = (Ok acc', w1) →
  entry_item delivery_id bad w = None ∨ ReceiveItemInput.qty bad < 0 →
  ∃ detail, receive_entry delivery_id acc' bad w1
            = (Raise (HTTPException 400 detail), w1).
Proof.
  intros Hrecv Hrun Hfail.
  destruct (receive_loop_effect delivery_id pre acc w Hrecv)
    as (w1' & Hrun' & _ & _ & _ & Hnone & Hsome).
  rewrite Hrun in Hrun'. injection Hrun' as _ <-.
  rewrite receive_entry_run. cbv zeta.
  destruct (Oid.parse (ReceiveItemInput.itemId bad)) as [ob|] eqn:Hob; [|eauto].
  destruct (lookup_item delivery_id ob (collection "deliveryitem" w1))
    as [d|] eqn:Hd; [|eauto].
  destruct (ReceiveItemInput.qty bad <? 0) eqn:Hq; [eauto|].
  apply Z.ltb_ge in Hq. destruct Hfail as [Hfail|?]; [|lia].
  unfold entry_item in Hfail. rewrite Hob in Hfail.
  apply lookup_item_Some in Hd as (f' & -> & Hf' & Href').
  unfold lookup_item in Hfail.
  destruct (collection "deliveryitem" w !! ob) as [x|] eqn:Hx.
  - destruct (Hsome ob x Hx) as (x' & Hx' & Hdel & _).
    rewrite Hf' in Hx'. injection Hx' as <-.
    rewrite decide_True in Hfail; [done|]. by rewrite <- Hdel.
  - by rewrite (Hnone ob Hx) in Hf'.
Qed.

(** C9. A receive call that fails never reaches the re-aggregation: the
    delivery collection is exactly as before the call.  When the call
    fails on an entry (unknown item, item of another delivery, negative
    qty) that comes after entries the loop applied, every item those
    entries name keeps its increment, the quantity it had plus what they
    add to it, while the delivery keeps the receivedQty it had.  With
    items that hold int quantities the item total has then grown by the
    quantities applied, so a delivery whose receivedQty was the item
    total before the call no longer holds it once something positive was
    applied. *)
Theorem receive_items_abort_skips_aggregate :
  (∀ delivery_id payload w e w',
     receive_items delivery_id payload w = (Raise e, w') →
     collection "delivery" w' = collection "delivery" w)
  ∧ (∀ delivery_id o f pre bad post w,
       Oid.parse delivery_id = Some o →
       collection "delivery" w !! o = Some f →
       receivable delivery_id pre w →
       entry_item delivery_id bad w = None ∨ ReceiveItemInput.qty bad < 0 →
       ∃ detail w',
         receive_items delivery_id (ReceivePayload.mk (pre ++ bad :: post)) w
         = (Raise (HTTPException 400 detail), w')
         ∧ collection "delivery" w' !! o = Some f
         ∧ (∀ oi item received,
              collection "deliveryitem" w !! oi = Some item →
              named oi pre →
              item_receivedQty w item = Ok received →
              ∃ item', collection "deliveryitem" w' !! oi = Some item'
                ∧ item' !! "receivedQty"
                  = Some (Sc (Int (received + batch_adds oi pre))))
         ∧ (int_quantities (collection "deliveryitem" w) →
            received_total delivery_id (collection "deliveryitem" w')
            = received_total delivery_id (collection "deliveryitem" w) + batch_qty pre)
         ∧ (int_quantities (collection "deliveryitem" w) →
            f !! "receivedQty"
            = Some (Sc (Int (received_total delivery_id (collection "deliveryitem" w)))) →
            0 < batch_qty pre →
            f !! "receivedQty"
            ≠ Some (Sc (Int (received_total delivery_id
                               (collection "deliveryitem" w')))))).
Proof.
  split.
  - intros delivery_id payload w e w'. rewrite receive_items_run. cbv zeta.
    destruct (Oid.parse delivery_id) as [o|]; [|by intros [= <- <-]].
    destruct (collection "delivery" w !! o) as [f|]; [|by intros [= <- <-]].
    destruct (for_each _ _ _ _) as [[acc|e1] w1] eqn:Hloop.
    + destruct (decide _); [done|]. intros [= <- <-].
      rewrite collection_tick. by eapply receive_loop_frame.
    + intros [= <- <-]. by eapply receive_loop_frame.
  - intros delivery_id o f pre bad post w Ho Hf Hrecv Hfail.
    destruct (receive_loop_effect delivery_id pre 0 w Hrecv)
      as (w1 & Hrun & Hother & _ & _ & _ & Hsome).
    destruct (entry_fails_after _ _ _ _ _ _ _ Hrecv Hrun Hfail) as [detail Hbad].
    assert (Htotal : int_quantities (collection "deliveryitem" w) →
              received_total delivery_id (collection "deliveryitem" w1)
              = received_total delivery_id (collection "deliveryitem" w)
                + batch_qty pre).
    { intros Hint. by destruct (receive_loop_totals _ _ _ _ _ _ Hint Hrun) as (_ & _ & ?). }
    exists detail, w1. split_and!.
    + rewrite receive_items_run, Ho, Hf. simpl ReceivePayload.items.
      rewrite for_each_app, Hrun. simpl for_each. unfold mbind, M_bind, bind.
      by rewrite Hbad.
    + by rewrite Hother.
    + intros oi item received Hitem Hn Hr.
      destruct (Hsome oi item Hitem) as (item' & Hitem' & _ & _ & Has).
      exists item'. split; [done|]. by apply (Has Hn).
    + exact Htotal.
    + intros Hint Hq Hpos. rewrite Hq, (Htotal Hint).
      intros [= Heq]. lia.
Qed.

Lemma receive_items_abort_skips_aggregate_witness :
  ∃ detail w' item',
    receive_items acme
      (ReceivePayload.mk ([receive crate 4] ++ receive nowhere 1 :: [])) world2
    = (Raise (HTTPException 400 detail), w')
    ∧ stored "delivery" acme_oid world2 !! "receivedQty" = Some (Sc (Int 0))
    ∧ collection "delivery" w' !! acme_oid = Some (stored "delivery" acme_oid world2)
    ∧ stored "deliveryitem" crate_oid world2 !! "receivedQty" = Some (Sc (Int 0))
    ∧ collection "deliveryitem" w' !! crate_oid = Some item'
    ∧ item' !! "receivedQty" = Some (Sc (Int (0 + 4))).
Proof.
  assert (Hitem : collection "deliveryitem" world2 !! crate_oid
                  = Some (stored "deliveryitem" crate_oid world2))
    by (apply has_stored; vm_compute; reflexivity).
  assert (Hrecv : receivable acme [receive crate 4] world2).
  { apply (receivable_one acme (receive crate 4) crate_oid
             (stored "deliveryitem" crate_oid world2) 0 world2).
    - vm_compute. reflexivity.
    - exact Hitem.
    - vm_compute. reflexivity.
    - apply bson_checked. vm_compute. reflexivity.
    - vm_compute. reflexivity.
    - simpl. lia.
    - apply int64_checked. vm_compute. reflexivity.
    - apply int64_checked. vm_compute. reflexivity. }
  assert (Hbad : entry_item acme (receive nowhere 1) world2 = None)
    by (vm_compute; reflexivity).
  destruct (proj2 receive_items_abort_skips_aggregate acme acme_oid
              (stored "delivery" acme_oid world2)
              [receive crate 4] (receive nowhere 1) [] world2
              ltac:(vm_compute; reflexivity)
              (has_stored "delivery" acme_oid world2 ltac:(vm_compute; reflexivity))
              Hrecv (or_introl Hbad))
    as (detail & w' & Hrun & Hdel & Hkept & _).
  assert (Hn : named crate_oid [receive crate 4]).
  { apply Exists_cons. left. vm_compute. reflexivity. }
  assert (Hr : item_receivedQty world2 (stored "deliveryitem" crate_oid world2) = Ok 0)
    by (vm_compute; reflexivity).
  destruct (Hkept crate_oid _ 0 Hitem Hn Hr) as (item' & Hitem' & Hq).
  exists detail, w', item'.
  split_and!; [exact Hrun | vm_compute; reflexivity | exact Hdel
               | vm_compute; reflexivity | exact Hitem' | ].
  etrans; [exact Hq|]. vm_compute. reflexivity.
Defined.

(** ** Receiving: quantities and status *)




(** C7 (as amended). A batch of entries with qty >= 0, each naming an
    item filed under the id string of the call, is applied whatever the
    items' expectedQty: each item named ends with the quantity [int()]
    read from it plus what the batch adds to it, its expectedQty
    untouched, so the result may exceed it; expectedQty is no part of the
    conditions.  The conditions are those of the store: quantities that
    stay within 64 bits (see [receivable]); the call then succeeds
    whenever the delivery's new total fits in 64 bits as well. *)
Theorem receive_items_over_receipt delivery_id o f entries w :
  Oid.parse delivery_id = Some o →
  collection "delivery" w !! o = Some f →
  receivable delivery_id entries w →
  ∃ r w',
    receive_items delivery_id (ReceivePayload.mk entries) w = (r, w')
    ∧ (int64 (received_total delivery_id (collection "deliveryitem" w')) →
       ∃ resp, r = Ok (Some resp))
    ∧ ∀ oi item received,
        collection "deliveryitem" w !! oi = Some item →
        named oi entries →
        item_receivedQty w item = Ok received →
        ∃ item', collection "deliveryitem" w' !! oi = Some item'
          ∧ item' !! "receivedQty"
            = Some (Sc (Int (received + batch_adds oi entries)))
          ∧ item' !! "expectedQty" = item !! "expectedQty".
Proof.
  intros Ho Hf Hrecv.
  destruct (receive_loop_effect delivery_id entries 0 w Hrecv)
    as (w1 & Hrun & _ & _ & _ & _ & Hsome).
  assert (Hitems : ∀ oi item received,
            collection "deliveryitem" w !! oi = Some item →
            named oi entries →
            item_receivedQty w item = Ok received →
            ∃ item', collection "deliveryitem" w1 !! oi = Some item'
              ∧ item' !! "receivedQty"
                = Some (Sc (Int (received + batch_adds oi entries)))
              ∧ item' !! "expectedQty" = item !! "expectedQty").
  { intros oi item received Hitem Hn Hr.
    destruct (Hsome oi item Hitem) as (item' & Hitem' & _ & _ & Has).
    destruct (Has Hn) as [Hk Hq]. exists item'.
    split_and!; [done|by apply Hq|]. apply Hk, not_listed. reflexivity. }
  rewrite receive_items_run, Ho, Hf. simpl ReceivePayload.items. rewrite Hrun.
  cbv zeta. rewrite sum_field_find_total.
  destruct (decide (int64 _)) as [Hfit|Hno].
  - eexists _, _. split; [reflexivity|].
    rewrite collection_set_ne, collection_tick by done.
    split; [eauto|exact Hitems].
  - eexists _, _. split; [reflexivity|]. rewrite collection_tick.
    split; [|exact Hitems].
    intros Hfit. destruct Hno. unfold sum_result. by rewrite decide_True.
Qed.

Lemma receive_items_over_receipt_witness :
  stored "deliveryitem" crate_oid world2 !! "expectedQty" = Some (Sc (Int 10))
  ∧ ∃ resp w' item',
      receive_items acme (ReceivePayload.mk [receive crate 25]) world2
      = (Ok (Some resp), w')
      ∧ collection "deliveryitem" w' !! crate_oid = Some item'
      ∧ item' !! "receivedQty" = Some (Sc (Int (0 + 25)))
      ∧ item' !! "expectedQty" = Some (Sc (Int 10)).
Proof.
  assert (Hexp : stored "deliveryitem" crate_oid world2 !! "expectedQty"
                 = Some (Sc (Int 10))) by (vm_compute; reflexivity).
  split; [exact Hexp|].
  assert (Hitem : collection "deliveryitem" world2 !! crate_oid
                  = Some (stored "deliveryitem" crate_oid world2))
    by (apply has_stored; vm_compute; reflexivity).
  assert (Hrecv : receivable acme [receive crate 25] world2).
  { apply (receivable_one acme (receive crate 25) crate_oid
             (stored "deliveryitem" crate_oid world2) 0 world2).
    - vm_compute. reflexivity.
    - exact Hitem.
    - vm_compute. reflexivity.
    - apply bson_checked. vm_compute. reflexivity.
    - vm_compute. reflexivity.
    - simpl. lia.
    - apply int64_checked. vm_compute. reflexivity.
    - apply int64_checked. vm_compute. reflexivity. }
  destruct (receive_items_over_receipt acme acme_oid
              (stored "delivery" acme_oid world2) [receive crate 25] world2
              ltac:(vm_compute; reflexivity)
              (has_stored "delivery" acme_oid world2 ltac:(vm_compute; reflexivity))
              Hrecv)
    as (r & w' & Hrun & Hok & Hitems).
  assert (Hn : named crate_oid [receive crate 25]).
  { apply Exists_cons. left. vm_compute. reflexivity. }
  assert (Hr : item_receivedQty world2 (stored "deliveryitem" crate_oid world2) = Ok 0)
    by (vm_compute; reflexivity).
  destruct (Hitems crate_oid _ 0 Hitem Hn Hr) as (item' & Hitem' & Hq & He).
  assert (Hw' : w' = (receive_items acme (ReceivePayload.mk [receive crate 25])
                        world2).2) by (by rewrite Hrun).
  destruct Hok as [resp ->].
  { rewrite Hw'. apply int64_checked. vm_compute. reflexivity. }
  exists resp, w', item'. split_and!; [exact Hrun | exact Hitem' | |].
  - etrans; [exact Hq|]. vm_compute. reflexivity.
  - by rewrite He.
Defined.

(** The claim C7 as it is written fails: there is a cap, the store's.
    The scenario's item holds 4; receiving [2^63 - 4] more, a qty that is
    not negative, does not succeed and adds nothing: the call raises
    [OverflowError] and the item still holds 4.  Nor does receive succeed
    on every item: the second scenario's item is refused under the other
    spelling of its delivery's identifier and keeps its 4. *)
Lemma receive_items_over_receipt_counterexample :
  (stored "deliveryitem" crate_oid world3 !! "receivedQty" = Some (Sc (Int 4))
   ∧ (receive_items acme (ReceivePayload.mk [receive crate (2 ^ 63 - 4)]) world3).1
     = Raise OverflowError
   ∧ stored "deliveryitem" crate_oid world_brim !! "receivedQty" = Some (Sc (Int 4)))
  ∧ (Oid.parse DOCK = Some dock_oid
     ∧ refers_to dock_oid (stored "deliveryitem" box_oid world_dock) = true
     ∧ succeeded (receive_items DOCK (ReceivePayload.mk [receive box 1]) world_dock).1
       = false
     ∧ stored "deliveryitem" box_oid world_dock_one !! "receivedQty"
       = Some (Sc (Int 4))).
Proof. split; split_and!; vm_compute; reflexivity. Qed.

(** ** Status commands *)

(** The three update-then-fetch handlers share one shape; [run_command]
    walks it once the identifier has parsed. *)
Ltac run_command Ho :=
  unfold oid; rewrite Ho;
  unfold mbind, M_bind, bind, mret, M_ret, ret, datetime_now;
  rewrite update_one_by_id by bson_ok; rewrite collection_tick;
  match goal with
  | |- context [ collection ?name ?w !! ?o ] =>
      destruct (collection name w !! o) as [f|]; [|reflexivity]
  end;
  cbv beta iota; change (1 =? 0)%nat with false; cbv beta iota;
  rewrite find_one_by_id, collection_set_eq, lookup_insert_eq;
  reflexivity.

Lemma set_delivery_status_run status delivery_id o w :
  Oid.parse delivery_id = Some o →
  set_delivery_status status delivery_id w =
    match collection "delivery" w !! o with
    | None => (Raise (HTTPException 404 "Delivery not found"), tick w)
    | Some f =>
        let f' := {[ "status" := Sc (Str status);
                     "updated_at" := Sc (Datetime (utc w (ticks w))) ]} ∪ f in
        (Ok (serialize (Some (mkDocument o f'))),
         set_collection "delivery" (<[o := f']> (collection "delivery" w)) (tick w))
    end.
Proof. intros Ho. unfold set_delivery_status. run_command Ho. Qed.

Lemma approve_item_run item_id payload o w :
  Oid.parse item_id = Some o →
  approve_item item_id payload w =
    match collection "deliveryitem" w !! o with
    | None => (Raise (HTTPException 404 "Item not found"), tick w)
    | Some f =>
        let f' := {[ "status" := Sc (Str "APPROVED");
                     "notes" := opt_str (ApprovePayload.notes payload);
                     "updated_at" := Sc (Datetime (utc w (ticks w))) ]} ∪ f in
        (Ok (serialize (Some (mkDocument o f'))),
         set_collection "deliveryitem" (<[o := f']> (collection "deliveryitem" w))
           (tick w))
    end.
Proof. intros Ho. unfold approve_item. run_command Ho. Qed.

Lemma store_item_run item_id payload o w :
  Oid.parse item_id = Some o →
  store_item item_id payload w =
    match collection "deliveryitem" w !! o with
    | None => (Raise (HTTPException 404 "Item not found"), tick w)
    | Some f =>
        let f' := {[ "status" := Sc (Str "STORED");
                     "location" := Sub (location_of payload);
                     "updated_at" := Sc (Datetime (utc w (ticks w))) ]} ∪ f in
        (Ok (serialize (Some (mkDocument o f'))),
         set_collection "deliveryitem" (<[o := f']> (collection "deliveryitem" w))
           (tick w))
    end.
Proof. intros Ho. unfold store_item. cbv zeta. run_command Ho. Qed.

Lemma lookup_set_status (f : Dict) (s : string) (rest : Dict) :
  (<["status" := Sc (Str s)]> rest ∪ f) !! "status" = Some (Sc (Str s)).
Proof. apply lookup_union_Some_l, lookup_insert_eq. Qed.

Lemma lookup_serialized_status o (f : Dict) (s : string) :
  f !! "status" = Some (Sc (Str s)) →
  (isoformat_value <$> <["id" := Sc (Str (Oid.str o))]> f) !! "status"
  = Some (Sc (Str s)).
Proof. intros Hs. rewrite lookup_serialized by done. by rewrite Hs. Qed.

Lemma set_delivery_status_found status delivery_id o f w :
  Oid.parse delivery_id = Some o →
  collection "delivery" w !! o = Some f →
  ∃ resp w' f',
    set_delivery_status status delivery_id w = (Ok (Some resp), w')
    ∧ collection "delivery" w' !! o = Some f'
    ∧ f' !! "status" = Some (Sc (Str status))
    ∧ resp !! "status" = Some (Sc (Str status)).
Proof.
  intros Ho Hf. rewrite (set_delivery_status_run _ _ _ _ Ho), Hf. cbv zeta.
  eexists _, _, _. split; [reflexivity|]. rewrite collection_set_eq.
  split_and!; [apply lookup_insert_eq | apply lookup_set_status |].
  apply lookup_serialized_status; apply lookup_set_status.
Qed.

(** C4. For an id that resolves, send-to-quality sets the delivery's
    status to IN_QUALITY_CHECK and complete sets it to COMPLETED, approve
    sets the item's status to APPROVED and store sets it to STORED and
    attaches the location, in each case whatever the document held before;
    for a well-formed id that does not resolve, each of the four fails
    with 404 and writes nothing. *)
Theorem status_commands_unconditional id_str o w :
  Oid.parse id_str = Some o →
  (∀ f, collection "delivery" w !! o = Some f →
     (∃ resp w' f',
        send_to_quality id_str w = (Ok (Some resp), w')
        ∧ collection "delivery" w' !! o = Some f'
        ∧ f' !! "status" = Some (Sc (Str "IN_QUALITY_CHECK"))
        ∧ resp !! "status" = Some (Sc (Str "IN_QUALITY_CHECK")))
     ∧ (∃ resp w' f',
          complete_delivery id_str w = (Ok (Some resp), w')
          ∧ collection "delivery" w' !! o = Some f'
          ∧ f' !! "status" = Some (Sc (Str "COMPLETED"))
          ∧ resp !! "status" = Some (Sc (Str "COMPLETED"))))
  ∧ (collection "delivery" w !! o = None →
       send_to_quality id_str w
       = (Raise (HTTPException 404 "Delivery not found"), tick w)
       ∧ complete_delivery id_str w
         = (Raise (HTTPException 404 "Delivery not found"), tick w))
  ∧ (∀ item, collection "deliveryitem" w !! o = Some item →
       (∀ payload, ∃ resp w' item',
          approve_item id_str payload w = (Ok (Some resp), w')
          ∧ collection "deliveryitem" w' !! o = Some item'
          ∧ item' !! "status" = Some (Sc (Str "APPROVED"))
          ∧ resp !! "status" = Some (Sc (Str "APPROVED")))
       ∧ (∀ payload, ∃ resp w' item',
            store_item id_str payload w = (Ok (Some resp), w')
            ∧ collection "deliveryitem" w' !! o = Some item'
            ∧ item' !! "status" = Some (Sc (Str "STORED"))
            ∧ item' !! "location" = Some (Sub (location_of payload))
            ∧ resp !! "status" = Some (Sc (Str "STORED"))
            ∧ resp !! "location" = Some (Sub (location_of payload))))
  ∧ (collection "deliveryitem" w !! o = None →
       (∀ payload, approve_item id_str payload w
                   = (Raise (HTTPException 404 "Item not found"), tick w))
       ∧ (∀ payload, store_item id_str payload w
                     = (Raise (HTTPException 404 "Item not found"), tick w))).
Proof.
  intros Ho. split_and!.
  - intros f Hf. unfold send_to_quality, complete_delivery.
    split; by apply (set_delivery_status_found _ _ o f).
  - intros Hnone. unfold send_to_quality, complete_delivery.
    by rewrite !(set_delivery_status_run _ _ _ _ Ho), Hnone.
  - intros item Hitem. split; intros payload.
    + rewrite (approve_item_run _ _ _ _ Ho), Hitem. cbv zeta.
      eexists _, _, _. split; [reflexivity|]. rewrite collection_set_eq.
      split_and!; [apply lookup_insert_eq | apply lookup_set_status |].
      apply lookup_serialized_status; apply lookup_set_status.
    + rewrite (store_item_run _ _ _ _ Ho), Hitem. cbv zeta.
      eexists _, _, _. split; [reflexivity|]. rewrite collection_set_eq.
      assert (Hloc : ∀ up : Value,
                ({[ "status" := Sc (Str "STORED");
                    "location" := Sub (location_of payload);
                    "updated_at" := up ]} ∪ item) !! "location"
                = Some (Sub (location_of payload))).
      { intros up. apply lookup_union_Some_l.
        by rewrite lookup_insert_ne, lookup_insert_eq. }
      split_and!; [apply lookup_insert_eq | apply lookup_set_status | apply Hloc | |].
      * apply lookup_serialized_status; apply lookup_set_status.
      * apply (lookup_serialized_value o _ "location" (Sub (location_of payload)));
          [done | apply Hloc].
  - intros Hnone. split; intros payload.
    + by rewrite (approve_item_run _ _ _ _ Ho), Hnone.
    + by rewrite (store_item_run _ _ _ _ Ho), Hnone.
Qed.

Lemma status_commands_unconditional_witness :
  (∃ resp w',
     complete_delivery acme world2 = (Ok (Some resp), w')
     ∧ resp !! "status" = Some (Sc (Str "COMPLETED")))
  ∧ store_item acme (StorePayload.mk "A1" "3" None None) world2
    = (Raise (HTTPException 404 "Item not found"), tick world2).
Proof.
  pose proof (status_commands_unconditional acme acme_oid world2
                ltac:(vm_compute; reflexivity)) as (Hd & _ & _ & Hi).
  split.
  - destruct (Hd (stored "delivery" acme_oid world2)
                (has_stored "delivery" acme_oid world2 ltac:(vm_compute; reflexivity)))
      as (_ & resp & w' & f' & Hrun & _ & _ & Hresp).
    exists resp, w'. split; [exact Hrun | exact Hresp].
  - apply Hi. vm_compute. reflexivity.
Defined.

(** ** Approving *)

(** C10. Approving an item that resolves writes the payload's notes over
    the item's notes: the supplied text, or null when the payload has
    none, whatever notes the item carried. *)
Theorem approve_item_overwrites_notes item_id payload o item w :
  Oid.parse item_id = Some o →
  collection "deliveryitem" w !! o = Some item →
  ∃ resp w' item',
    approve_item item_id payload w = (Ok (Some resp), w')
    ∧ collection "deliveryitem" w' !! o = Some item'
    ∧ item' !! "notes" = Some (opt_str (ApprovePayload.notes payload))
    ∧ resp !! "notes" = Some (opt_str (ApprovePayload.notes payload))
    ∧ (ApprovePayload.notes payload = None →
       item' !! "notes" = Some (Sc Null) ∧ resp !! "notes" = Some (Sc Null)).
Proof.
  intros Ho Hitem. rewrite (approve_item_run _ _ _ _ Ho), Hitem. cbv zeta.
  eexists _, _, _. split; [reflexivity|]. rewrite collection_set_eq.
  assert (Hnotes : ∀ up : Value,
            ({[ "status" := Sc (Str "APPROVED");
                "notes" := opt_str (ApprovePayload.notes payload);
                "updated_at" := up ]} ∪ item) !! "notes"
            = Some (opt_str (ApprovePayload.notes payload))).
  { intros up. apply lookup_union_Some_l.
    by rewrite lookup_insert_ne, lookup_insert_eq. }
  assert (Hresp : ∀ up : Value,
            (isoformat_value <$> <["id" := Sc (Str (Oid.str o))]>
               ({[ "status" := Sc (Str "APPROVED");
                   "notes" := opt_str (ApprovePayload.notes payload);
                   "updated_at" := up ]} ∪ item)) !! "notes"
            = Some (opt_str (ApprovePayload.notes payload))).
  { intros up.
    rewrite (lookup_serialized_value o _ "notes"
               (opt_str (ApprovePayload.notes payload))); [|done|apply Hnotes].
    by destruct (ApprovePayload.notes payload). }
  split_and!; [apply lookup_insert_eq | apply Hnotes | apply Hresp |].
  intros Hn. specialize (Hnotes (Sc (Datetime (utc w (ticks w))))).
  specialize (Hresp (Sc (Datetime (utc w (ticks w))))).
  rewrite Hn in Hnotes, Hresp |- *. split; [exact Hnotes | exact Hresp].
Qed.

Lemma approve_item_overwrites_notes_witness :
  stored "deliveryitem" parcel_oid world5 !! "notes" = Some (Sc (Str "fragile"))
  ∧ ∃ resp w' item',
      approve_item parcel (ApprovePayload.mk None) world5 = (Ok (Some resp), w')
      ∧ collection "deliveryitem" w' !! parcel_oid = Some item'
      ∧ item' !! "notes" = Some (Sc Null)
      ∧ resp !! "notes" = Some (Sc Null).
Proof.
  split; [vm_compute; reflexivity|].
  destruct (approve_item_overwrites_notes parcel (ApprovePayload.mk None)
              parcel_oid (stored "deliveryitem" parcel_oid world5) world5
              ltac:(vm_compute; reflexivity)
              (has_stored "deliveryitem" parcel_oid world5 ltac:(vm_compute; reflexivity)))
    as (resp & w' & item' & Hrun & Hitem & _ & _ & Hnull).
  destruct (Hnull eq_refl) as [H1 H2].
  exists resp, w', item'.
  split_and!; [exact Hrun | exact Hitem | exact H1 | exact H2].
Defined.

(** ** Listing deliveries *)

Lemma nin_excludes fv (ops : gmap string OpArg) v :
  ops !! "$nin" = Some (Values [v]) →
  cond_holds fv (Operators ops) = true →
  fv ≠ Some v.
Proof.
  intros Hnin Hc. simpl in Hc. rewrite bool_decide_eq_true in Hc.
  pose proof (proj1 (map_Forall_lookup _ _) Hc _ _ Hnin) as Hop.
  simpl in Hop. apply negb_true_iff in Hop.
  unfold value_in in Hop. rewrite bool_decide_eq_false in Hop.
  intros ->. apply Hop. simpl. by apply list_elem_of_singleton.
Qed.

Lemma find_sorted_elem name (filt : Filter) limit key w :
  ∃ docs,
    find_sorted name filt limit key w = (Ok docs, w)
    ∧ ∀ d, d ∈ docs → d ∈ find filt (collection name w).
Proof.
  unfold find_sorted. eexists. split; [reflexivity|].
  intros d Hd.
  assert (Hs : d ∈ sort_desc key (find filt (collection name w))).
  { unfold apply_limit in Hd. destruct limit; [done|].
    by eapply subseteq_take. }
  unfold sort_desc in Hs. by rewrite merge_sort_Permutation in Hs.
Qed.

(** C5. Whatever the delivery collection holds and whatever the status
    filter and the limit, every delivery returned by the listing is a
    stored delivery whose status is not "RECEIVED"; so a delivery stored
    with the legacy status never appears, by its id or in any entry's
    status. *)
Theorem list_deliveries_excludes_legacy status_in limit w :
  ∃ docs,
    list_deliveries status_in limit w = (Ok ((λ d, serialize (Some d)) <$> docs), w)
    ∧ (∀ d, d ∈ docs →
         collection "delivery" w !! _id d = Some (fields d)
         ∧ fields d !! "status" ≠ Some (Sc (Str "RECEIVED")))
    ∧ (∀ o f, collection "delivery" w !! o = Some f →
         f !! "status" = Some (Sc (Str "RECEIVED")) →
         ∀ d, d ∈ docs → _id d ≠ o)
    ∧ (∀ r, r ∈ (λ d, serialize (Some d)) <$> docs →
         ∃ resp, r = Some resp ∧ resp !! "status" ≠ Some (Sc (Str "RECEIVED"))).
Proof.
  unfold list_deliveries. cbv zeta.
  match goal with
  | |- context [ find_sorted "delivery" ?filt limit "created_at" ] =>
      set (fl := filt);
      assert (Hfl : ∃ ops, fl !! "status" = Some (Operators ops)
                           ∧ ops !! "$nin" = Some (Values [Sc (Str "RECEIVED")]))
  end.
  { subst fl. destruct status_in as [[|s l]|].
    - rewrite lookup_empty. simpl default. rewrite lookup_insert_eq.
      eexists. split; [apply lookup_insert_eq|].
      rewrite lookup_singleton_ne by done. apply lookup_insert_eq.
    - rewrite lookup_insert_eq. simpl default. rewrite lookup_insert_eq.
      eexists. split; [apply lookup_insert_eq|].
      rewrite lookup_singleton_ne by done. apply lookup_insert_eq.
    - rewrite lookup_empty. simpl default. rewrite lookup_insert_eq.
      eexists. split; [apply lookup_insert_eq|].
      rewrite lookup_singleton_ne by done. apply lookup_insert_eq. }
  clearbody fl. destruct Hfl as (ops & Hst & Hnin).
  destruct (find_sorted_elem "delivery" fl limit "created_at" w)
    as (docs & Hrun & Hdocs).
  exists docs. unfold mbind, M_bind, bind. rewrite Hrun.
  assert (Hok : ∀ d, d ∈ docs →
            collection "delivery" w !! _id d = Some (fields d)
            ∧ fields d !! "status" ≠ Some (Sc (Str "RECEIVED"))).
  { intros d Hd. apply Hdocs, elem_of_find in Hd as [Hin Hm]. split; [done|].
    pose proof (matches_lookup _ _ _ _ Hm Hst) as Hc.
    exact (nin_excludes _ _ _ Hnin Hc). }
  split_and!; [done | exact Hok | |].
  - intros o f Hf Hlegacy d Hd Heq. subst o. destruct (Hok d Hd) as [Hin Hne].
    rewrite Hf in Hin. apply (inj Some) in Hin. subst f. done.
  - intros r (d & -> & Hd)%list_elem_of_fmap.
    exists (isoformat_value <$> <["id" := Sc (Str (Oid.str (_id d)))]> (fields d)).
    split; [reflexivity|].
    rewrite lookup_serialized by done. destruct (Hok d Hd) as [_ Hne].
    destruct (fields d !! "status") as [[[]|]|] eqn:Hs; simpl; congruence.
Qed.

Lemma list_deliveries_excludes_legacy_witness :
  stored "delivery" legacy_oid world_legacy !! "status" = Some (Sc (Str "RECEIVED"))
  ∧ ∃ docs,
      list_deliveries (Some ["RECEIVED"; "PENDING"]) 100 world_legacy
      = (Ok ((λ d, serialize (Some d)) <$> docs), world_legacy)
      ∧ ∀ d, d ∈ docs → _id d ≠ legacy_oid.
Proof.
  assert (Hs : stored "delivery" legacy_oid world_legacy !! "status"
               = Some (Sc (Str "RECEIVED"))) by (vm_compute; reflexivity).
  split; [exact Hs|].
  destruct (list_deliveries_excludes_legacy (Some ["RECEIVED"; "PENDING"]) 100
              world_legacy) as (docs & Hrun & _ & Hlegacy & _).
  exists docs. split; [exact Hrun|].
  exact (Hlegacy legacy_oid (stored "delivery" legacy_oid world_legacy)
           (has_stored "delivery" legacy_oid world_legacy ltac:(vm_compute; reflexivity))
           Hs).
Defined.

(** ** Creating *)

Lemma create_document_run {A} `{BaseModel A} name (data : A) w :
  create_document name data w =
    match collection name w !! next_oid w with
    | Some _ => (Raise DuplicateKeyError, stamped w)
    | None =>
        (Ok (Oid.str (next_oid w)),
         set_collection name
           (<[next_oid w := with_timestamps w (model_dump data)]> (collection name w))
           (stamped w))
    end.
Proof.
  unfold create_document, insert_one, insert_with_id, ObjectId_new, datetime_now.
  unfold mbind, M_bind, bind, mret, M_ret, ret. simpl.
  change (collection name (mkWorld (db w) (utc w) (S (S (ticks w)))
                             (oid_source w) (S (oids_drawn w))
                             (int_str w) (wide_sum w)))
    with (collection name w).
  fold (next_oid w). by destruct (collection name w !! next_oid w).
Qed.

Lemma fetch_created name w (doc : Dict) :
  (o ← ObjectId_of_str (Oid.str (next_oid w));
   found ← find_one name (by_id o);
   mret (serialize found))
    (set_collection name (<[next_oid w := doc]> (collection name w)) (stamped w))
  = (Ok (serialize (Some (mkDocument (next_oid w) doc))),
     set_collection name (<[next_oid w := doc]> (collection name w)) (stamped w)).
Proof.
  unfold ObjectId_of_str, next_oid. rewrite OidFacts.parse_str_generate.
  unfold mbind, M_bind, bind, mret, M_ret, ret. simpl from_option.
  cbv beta iota.
  by rewrite find_one_by_id, collection_set_eq, lookup_insert_eq.
Qed.

Lemma create_delivery_run payload w :
  create_delivery payload w =
    let delivery :=
      Delivery.mk (DeliveryCreateRequest.supplier payload)
                  (DeliveryCreateRequest.reference payload)
                  "PENDING"
                  (DeliveryCreateRequest.expectedDate payload)
                  0
                  (if decide (DeliveryCreateRequest.meta payload = ∅) then ∅
                   else DeliveryCreateRequest.meta payload) in
    let doc := with_timestamps w (model_dump delivery) in
    match collection "delivery" w !! next_oid w with
    | Some _ => (Raise DuplicateKeyError, stamped w)
    | None =>
        (Ok (serialize (Some (mkDocument (next_oid w) doc))),
         set_collection "delivery" (<[next_oid w := doc]> (collection "delivery" w))
           (stamped w))
    end.
Proof.
  unfold create_delivery. cbv zeta.
  unfold mbind at 1, M_bind at 1, bind at 1.
  unfold Delivery.new.
  match goal with
  | |- context [ Delivery.valid ?d ] => change (Delivery.valid d) with true
  end.
  cbv beta iota. unfold ret at 1. cbv beta iota.
  unfold mbind at 1, M_bind at 1, bind at 1.
  rewrite create_document_run.
  destruct (collection "delivery" w !! next_oid w); [done|].
  apply (fetch_created "delivery").
Qed.

Lemma add_delivery_item_run delivery_id payload o w :
  Oid.parse delivery_id = Some o →
  add_delivery_item delivery_id payload w =
    let item :=
      DeliveryItem.mk delivery_id
                      (DeliveryItemCreateRequest.product_id payload)
                      (DeliveryItemCreateRequest.variant_id payload)
                      (DeliveryItemCreateRequest.expectedQty payload)
                      0 "PENDING"
                      (DeliveryItemCreateRequest.notes payload)
                      None in
    let doc := with_timestamps w (model_dump item) in
    match collection "delivery" w !! o with
    | None => (Raise (HTTPException 404 "Delivery not found"), w)
    | Some _ =>
        if 0 <=? DeliveryItemCreateRequest.expectedQty payload then
          match collection "deliveryitem" w !! next_oid w with
          | Some _ => (Raise DuplicateKeyError, stamped w)
          | None =>
              (Ok (serialize (Some (mkDocument (next_oid w) doc))),
               set_collection "deliveryitem"
                 (<[next_oid w := doc]> (collection "deliveryitem" w)) (stamped w))
          end
        else (Raise ValidationError, w)
    end.
Proof.
  intros Ho. unfold add_delivery_item, oid. rewrite Ho. cbv zeta.
  unfold mbind at 1, M_bind at 1, bind at 1. unfold ret at 1. cbv beta iota.
  unfold mbind at 1, M_bind at 1, bind at 1. rewrite find_one_by_id.
  destruct (collection "delivery" w !! o) as [g|]; [|done].
  change (mkDocument o <$> Some g) with (Some (mkDocument o g)). cbv beta iota.
  unfold mbind at 1, M_bind at 1, bind at 1.
  unfold DeliveryItem.new.
  match goal with
  | |- context [ DeliveryItem.valid ?d ] =>
      change (DeliveryItem.valid d)
        with ((0 <=? DeliveryItemCreateRequest.expectedQty payload) && true && true)
  end.
  rewrite !andb_true_r.
  destruct (0 <=? DeliveryItemCreateRequest.expectedQty payload); [|done].
  unfold ret at 1. cbv beta iota.
  unfold mbind at 1, M_bind at 1, bind at 1.
  rewrite create_document_run.
  destruct (collection "deliveryitem" w !! next_oid w); [done|].
  apply (fetch_created "deliveryitem").
Qed.

Lemma with_timestamps_lookup w (data : Dict) k :
  k ≠ "updated_at" → k ≠ "created_at" → with_timestamps w data !! k = data !! k.
Proof. intros. unfold with_timestamps. by rewrite !lookup_insert_ne. Qed.

Lemma delivery_dump_defaults (d : Delivery.t) :
  model_dump d !! "status" = Some (Sc (Str (Delivery.status d)))
  ∧ model_dump d !! "receivedQty" = Some (Sc (Int (Delivery.receivedQty d))).
Proof.
  unfold model_dump, Delivery.dump. split.
  - rewrite !lookup_insert_ne by done. apply lookup_insert_eq.
  - rewrite !lookup_insert_ne by done. apply lookup_insert_eq.
Qed.

Lemma item_dump_defaults (d : DeliveryItem.t) :
  model_dump d !! "status" = Some (Sc (Str (DeliveryItem.status d)))
  ∧ model_dump d !! "receivedQty" = Some (Sc (Int (DeliveryItem.receivedQty d))).
Proof.
  unfold model_dump, DeliveryItem.dump. split.
  - rewrite !lookup_insert_ne by done. apply lookup_insert_eq.
  - rewrite !lookup_insert_ne by done. apply lookup_insert_eq.
Qed.

(** What the claim says of a created document, stored under [o] in the
    collection [name] and returned as [r]. *)
Lemma created_defaults o (data doc : Dict) w :
  data !! "status" = Some (Sc (Str "PENDING")) →
  data !! "receivedQty" = Some (Sc (Int 0)) →
  doc = with_timestamps w data →
  doc !! "status" = Some (Sc (Str "PENDING"))
  ∧ doc !! "receivedQty" = Some (Sc (Int 0))
  ∧ ∃ resp, serialize (Some (mkDocument o doc)) = Some resp
            ∧ resp !! "status" = Some (Sc (Str "PENDING"))
            ∧ resp !! "receivedQty" = Some (Sc (Int 0)).
Proof.
  intros Hs Hq ->.
  assert (H1 : with_timestamps w data !! "status" = Some (Sc (Str "PENDING")))
    by (by rewrite with_timestamps_lookup).
  assert (H2 : with_timestamps w data !! "receivedQty" = Some (Sc (Int 0)))
    by (by rewrite with_timestamps_lookup).
  split_and!; [done|done|].
  exists (isoformat_value <$>
            <["id" := Sc (Str (Oid.str o))]> (with_timestamps w data)).
  split_and!; [reflexivity| |].
  - exact (lookup_serialized_value o _ "status" _ ltac:(done) H1).
  - exact (lookup_serialized_value o _ "receivedQty" _ ltac:(done) H2).
Qed.

(** C6. A delivery that gets created is stored and returned with status
    PENDING and receivedQty 0, and so is a delivery item: the request
    payloads have no field that reaches either value.  Creating a
    delivery succeeds whenever the store accepts the new identifier;
    adding an item succeeds then too, given that the delivery exists and
    expectedQty is not negative. *)
Theorem creation_defaults :
  (∀ payload w r w',
     create_delivery payload w = (Ok r, w') →
     ∃ resp f,
       r = Some resp
       ∧ resp !! "status" = Some (Sc (Str "PENDING"))
       ∧ resp !! "receivedQty" = Some (Sc (Int 0))
       ∧ collection "delivery" w !! next_oid w = None
       ∧ collection "delivery" w' !! next_oid w = Some f
       ∧ f !! "status" = Some (Sc (Str "PENDING"))
       ∧ f !! "receivedQty" = Some (Sc (Int 0)))
  ∧ (∀ payload w,
       collection "delivery" w !! next_oid w = None →
       ∃ r w', create_delivery payload w = (Ok r, w'))
  ∧ (∀ delivery_id payload w r w',
       add_delivery_item delivery_id payload w = (Ok r, w') →
       ∃ resp f,
         r = Some resp
         ∧ resp !! "status" = Some (Sc (Str "PENDING"))
         ∧ resp !! "receivedQty" = Some (Sc (Int 0))
         ∧ collection "deliveryitem" w !! next_oid w = None
         ∧ collection "deliveryitem" w' !! next_oid w = Some f
         ∧ f !! "status" = Some (Sc (Str "PENDING"))
         ∧ f !! "receivedQty" = Some (Sc (Int 0))
         ∧ f !! "delivery_id" = Some (Sc (Str delivery_id)))
  ∧ (∀ delivery_id payload w o f,
       Oid.parse delivery_id = Some o →
       collection "delivery" w !! o = Some f →
       0 ≤ DeliveryItemCreateRequest.expectedQty payload →
       collection "deliveryitem" w !! next_oid w = None →
       ∃ r w', add_delivery_item delivery_id payload w = (Ok r, w')).
Proof.
  split_and!.
  - intros payload w r w'. rewrite create_delivery_run. cbv zeta.
    destruct (collection "delivery" w !! next_oid w) eqn:Hfresh; [done|].
    intros [= <- <-].
    match goal with
    | |- context [ with_timestamps w (model_dump ?d) ] =>
        destruct (delivery_dump_defaults d) as [Hs Hq];
        destruct (created_defaults (next_oid w) (model_dump d) _ w Hs Hq eq_refl)
          as (H1 & H2 & resp & Hser & H3 & H4)
    end.
    eexists resp, _. rewrite collection_set_eq, lookup_insert_eq.
    split_and!; done.
  - intros payload w Hfresh. rewrite create_delivery_run, Hfresh. cbv zeta. eauto.
  - intros delivery_id payload w r w'. unfold add_delivery_item at 1.
    destruct (Oid.parse delivery_id) as [o|] eqn:Ho.
    2:{ unfold oid. by rewrite Ho. }
    fold (add_delivery_item delivery_id payload).
    rewrite (add_delivery_item_run _ _ _ _ Ho). cbv zeta.
    destruct (collection "delivery" w !! o); [|done].
    destruct (0 <=? _); [|done].
    destruct (collection "deliveryitem" w !! next_oid w) eqn:Hfresh; [done|].
    intros [= <- <-].
    match goal with
    | |- context [ with_timestamps w (model_dump ?d) ] =>
        destruct (item_dump_defaults d) as [Hs Hq];
        destruct (created_defaults (next_oid w) (model_dump d) _ w Hs Hq eq_refl)
          as (H1 & H2 & resp & Hser & H3 & H4)
    end.
    eexists resp, _. rewrite collection_set_eq, lookup_insert_eq.
    split_and!; try done.
    all: rewrite with_timestamps_lookup by done.
    all: unfold model_dump, DeliveryItem.dump; apply lookup_insert_eq.
  - intros delivery_id payload w o f Ho Hf Hq Hfresh.
    rewrite (add_delivery_item_run _ _ _ _ Ho), Hf, Hfresh. cbv zeta.
    rewrite (proj2 (Z.leb_le _ _) Hq). eauto.
Qed.

Lemma creation_defaults_witness :
  let made := create_delivery (DeliveryCreateRequest.mk (Some "Acme") None None ∅)
                world0 in
  let added := add_delivery_item acme
                 (DeliveryItemCreateRequest.mk None None 10 None) world1 in
  (∃ resp, made.1 = Ok (Some resp)
           ∧ resp !! "status" = Some (Sc (Str "PENDING"))
           ∧ resp !! "receivedQty" = Some (Sc (Int 0)))
  ∧ (∃ resp, added.1 = Ok (Some resp)
             ∧ resp !! "status" = Some (Sc (Str "PENDING"))
             ∧ resp !! "receivedQty" = Some (Sc (Int 0))).
Proof.
  intros made added.
  assert (Hm : succeeded made.1 = true) by (vm_compute; reflexivity).
  assert (Ha : succeeded added.1 = true) by (vm_compute; reflexivity).
  destruct creation_defaults as (Hd & _ & Hi & _). split.
  - destruct (Hd _ world0 _ _ (run_ok None _ _ Hm))
      as (resp & f & Hr & Hs & Hq & _).
    exists resp. split_and!; [|exact Hs|exact Hq].
    exact (value_of_ok None _ _ Hm Hr).
  - destruct (Hi acme _ world1 _ _ (run_ok None _ _ Ha))
      as (resp & f & Hr & Hs & Hq & _).
    exists resp. split_and!; [|exact Hs|exact Hq].
    exact (value_of_ok None _ _ Ha Hr).
Defined.

(** * Further properties of the handlers *)

(** ** Receiving: what is left alone *)

(** X1. Whatever its outcome, a receive call neither adds nor removes
    items, writes no field of an item other than receivedQty, status and
    updated_at (so expectedQty and delivery_id never change), and leaves
    every item of another delivery exactly as it was. *)
Theorem receive_items_item_frame delivery_id payload w :
  let items := collection "deliveryitem" w in
  let items' := collection "deliveryitem" (receive_items delivery_id payload w).2 in
  dom items' = dom items
  ∧ ∀ o item, items !! o = Some item →
      ∃ item', items' !! o = Some item'
        ∧ (∀ k, k ∉ receive_written → item' !! k = item !! k)
        ∧ (¬ references delivery_id item → item' = item).
Proof.
  cbv zeta.
  apply (receive_items_ind
           (λ c c' : Collection,
              dom c' = dom c
              ∧ ∀ o item, c !! o = Some item →
                  ∃ item', c' !! o = Some item'
                    ∧ (∀ k, k ∉ receive_written → item' !! k = item !! k)
                    ∧ (¬ references delivery_id item → item' = item))).
  - intros c. split; [done|]. intros o item Ho. by exists item.
  - intros c1 c2 c3 [Hd1 H1] [Hd2 H2]. split; [congruence|].
    intros o item Ho.
    destruct (H1 o item Ho) as (item1 & Ho1 & Hk1 & Hn1).
    destruct (H2 o item1 Ho1) as (item2 & Ho2 & Hk2 & Hn2).
    exists item2. split_and!; [done| |].
    + intros k Hk. by rewrite Hk2, Hk1.
    + intros Hn. rewrite Hn2; rewrite (Hn1 Hn); done.
  - intros acc it w0 r w1 Hstep.
    apply receive_entry_step in Hstep
      as [[-> _]|(o & item & received & item' & Ho & Href & _ & _ & _ & _ & Hk & ->)].
    + split; [done|]. intros o item Ho. by exists item.
    + split.
      * rewrite dom_insert_L. apply elem_of_dom_2 in Ho. set_solver.
      * intros o0 item0 Ho0. destruct (decide (o0 = o)) as [->|Hne].
        -- rewrite Ho in Ho0. apply (inj Some) in Ho0. subst item0.
           exists item'. rewrite lookup_insert_eq. done.
        -- exists item0. by rewrite lookup_insert_ne.
Qed.

Lemma receive_items_item_frame_witness :
  let out := receive_items acme (ReceivePayload.mk [receive crate 4]) world5 in
  ∃ item', collection "deliveryitem" out.2 !! crate_oid = Some item'
           ∧ item' !! "expectedQty" = Some (Sc (Int 10))
           ∧ item' !! "delivery_id" = Some (Sc (Str acme)).
Proof.
  intros out.
  destruct (receive_items_item_frame acme (ReceivePayload.mk [receive crate 4]) world5)
    as [_ Hitems].
  destruct (Hitems crate_oid _
              (has_stored "deliveryitem" crate_oid world5 ltac:(vm_compute; reflexivity)))
    as (item' & Ho & Hk & _).
  exists item'. split_and!; [exact Ho | |].
  - etrans; [apply Hk, not_listed; vm_compute; reflexivity|].
    vm_compute. reflexivity.
  - etrans; [apply Hk, not_listed; vm_compute; reflexivity|].
    vm_compute. reflexivity.
Defined.

(** ** Receiving: the totals *)

(** X2. On items that hold their quantities as ints, a receive call that
    completes raises the item total of the delivery (the items filed
    under the id string of the call) by exactly the sum of the batch's
    quantities; the items still hold ints afterwards; and the delivery's
    stored receivedQty is that new total, the old item total plus the
    batch, whenever it fits in 64 bits, whatever the delivery held
    before. *)
Theorem receive_items_adds_batch delivery_id payload w r w' :
  int_quantities (collection "deliveryitem" w) →
  receive_items delivery_id payload w = (Ok r, w') →
  received_total delivery_id (collection "deliveryitem" w')
  = received_total delivery_id (collection "deliveryitem" w)
    + batch_qty (ReceivePayload.items payload)
  ∧ int_quantities (collection "deliveryitem" w')
  ∧ (int64 (received_total delivery_id (collection "deliveryitem" w)
            + batch_qty (ReceivePayload.items payload)) →
     ∃ o f, Oid.parse delivery_id = Some o
       ∧ collection "delivery" w' !! o = Some f
       ∧ f !! "receivedQty"
         = Some (Sc (Int (received_total delivery_id (collection "deliveryitem" w)
                          + batch_qty (ReceivePayload.items payload))))).
Proof.
  intros Hint. rewrite receive_items_run. cbv zeta.
  destruct (Oid.parse delivery_id) as [o|]; [|done].
  destruct (collection "delivery" w !! o) as [f|]; [|done].
  destruct (for_each _ _ _ _) as [[acc|e] w1] eqn:Hloop; [|done].
  destruct (decide (int64 _)) as [_|_]; [|done].
  intros [= <- <-].
  destruct (receive_loop_totals _ _ _ _ _ _ Hint Hloop) as (_ & Hint1 & Ht).
  rewrite collection_set_ne, collection_tick, collection_set_eq by done.
  split_and!; [done|done|].
  intros Hfit. exists o. eexists. split_and!; [done|apply lookup_insert_eq|].
  rewrite sum_field_find_total, Ht. unfold sum_result. rewrite decide_True by done.
  by rewrite (lookup_union_Some_l _ _ _ _ (lookup_insert_eq _ _ _)).
Qed.

Lemma int_quantities_checked (items : Collection) :
  int_quantities_check items = true → int_quantities items.
Proof.
  unfold int_quantities_check. rewrite forallb_forall.
  intros HF o item Ho.
  specialize (HF (o, item) (proj1 (list_elem_of_In _ _)
                              (proj2 (elem_of_map_to_list _ _ _) Ho))).
  simpl in HF. unfold int_quantity in HF.
  destruct (item !! "receivedQty") as [[[]|]|]; try done; eauto.
Qed.

Lemma receive_items_adds_batch_witness :
  stored "delivery" acme_oid world_failed !! "receivedQty" = Some (Sc (Int 0))
  ∧ received_total acme (collection "deliveryitem" world_failed) = 4
  ∧ ∃ w' f,
      (receive_items acme (ReceivePayload.mk [receive crate 6]) world_failed).2 = w'
      ∧ received_total acme (collection "deliveryitem" w') = 4 + (6 + 0)
      ∧ collection "delivery" w' !! acme_oid = Some f
      ∧ f !! "receivedQty" = Some (Sc (Int (4 + (6 + 0)))).
Proof.
  assert (Ht0 : received_total acme (collection "deliveryitem" world_failed) = 4)
    by (vm_compute; reflexivity).
  split_and!; [vm_compute; reflexivity | exact Ht0 |].
  set (payload := ReceivePayload.mk [receive crate 6]).
  assert (Hok : succeeded (receive_items acme payload world_failed).1 = true)
    by (vm_compute; reflexivity).
  destruct (receive_items_adds_batch acme payload world_failed
              (value_of None (receive_items acme payload world_failed).1)
              (receive_items acme payload world_failed).2
              (int_quantities_checked (collection "deliveryitem" world_failed)
                 ltac:(vm_compute; reflexivity))
              (run_ok None _ _ Hok)) as (Ht & _ & Hstored).
  destruct Hstored as (o & f & Ho & Hf & Hq).
  { apply int64_checked. vm_compute. reflexivity. }
  assert (o = acme_oid) as ->.
  { vm_compute in Ho. injection Ho as <-. vm_compute. reflexivity. }
  exists (receive_items acme payload world_failed).2, f.
  split_and!; [reflexivity | | exact Hf | ].
  - etrans; [exact Ht|]. by rewrite Ht0.
  - etrans; [exact Hq|]. by rewrite Ht0.
Defined.

(** X3. On items that hold their quantities as ints, a receive call,
    whatever its outcome, never lowers the receivedQty of any item. *)
Theorem receive_items_never_lowers delivery_id payload w :
  int_quantities (collection "deliveryitem" w) →
  let items' := collection "deliveryitem" (receive_items delivery_id payload w).2 in
  int_quantities items'
  ∧ ∀ o item, collection "deliveryitem" w !! o = Some item →
      ∃ item', items' !! o = Some item'
        ∧ numeric (item !! "receivedQty") ≤ numeric (item' !! "receivedQty").
Proof.
  cbv zeta.
  apply (receive_items_ind
           (λ c c' : Collection,
              int_quantities c →
              int_quantities c'
              ∧ ∀ o item, c !! o = Some item →
                  ∃ item', c' !! o = Some item'
                    ∧ numeric (item !! "receivedQty")
                      ≤ numeric (item' !! "receivedQty"))).
  - intros c Hc. split; [done|]. intros o item Ho. exists item. split; [done|lia].
  - intros c1 c2 c3 H12 H23 Hc1.
    destruct (H12 Hc1) as [Hc2 H1]. destruct (H23 Hc2) as [Hc3 H2].
    split; [done|]. intros o item Ho.
    destruct (H1 o item Ho) as (item1 & Ho1 & Hle1).
    destruct (H2 o item1 Ho1) as (item2 & Ho2 & Hle2).
    exists item2. split; [done|lia].
  - intros acc it w0 r w1 Hstep Hint.
    apply receive_entry_step in Hstep
      as [[-> _]|(o & item & received & item' & Ho & Href & Hr & Hq & _ & Hq' & Hk & ->)].
    + split; [done|]. intros o item Ho. exists item. split; [done|lia].
    + split.
      * intros o0 item0. destruct (decide (o0 = o)) as [->|Hne].
        -- rewrite lookup_insert_eq. intros [= <-]. right. eauto.
        -- rewrite lookup_insert_ne by done. apply Hint.
      * intros o0 item0 Ho0. destruct (decide (o0 = o)) as [->|Hne].
        -- rewrite Ho in Ho0. apply (inj Some) in Ho0. subst item0.
           exists item'. rewrite lookup_insert_eq. split; [done|].
           rewrite Hq'. simpl numeric.
           rewrite (int_quantity_read _ item received (Hint o item Ho) Hr). lia.
        -- exists item0. rewrite lookup_insert_ne by done. split; [done|lia].
Qed.

Lemma receive_items_never_lowers_witness :
  let out := receive_items acme
               (ReceivePayload.mk [receive crate 4; receive nowhere 1]) world2 in
  ∃ item', collection "deliveryitem" out.2 !! crate_oid = Some item'
           ∧ numeric (stored "deliveryitem" crate_oid world2 !! "receivedQty")
             ≤ numeric (item' !! "receivedQty").
Proof.
  intros out.
  destruct (receive_items_never_lowers acme
              (ReceivePayload.mk [receive crate 4; receive nowhere 1]) world2
              (int_quantities_checked (collection "deliveryitem" world2)
                 ltac:(vm_compute; reflexivity)))
    as [_ Hle].
  exact (Hle crate_oid _
           (has_stored "deliveryitem" crate_oid world2 ltac:(vm_compute; reflexivity))).
Defined.

(** ** Identifiers that do not parse, deliveries that do not exist *)

(** X4. Every handler that takes an identifier answers one that
    [ObjectId] rejects (a string that has not 24 characters, or that
    [bytes.fromhex] refuses) with 400 "Invalid ID" before it reads the
    clock or touches the database: the world is left exactly as it
    was. *)
Theorem malformed_id_rejected id_str w :
  Oid.parse id_str = None →
  let invalid := (Raise (HTTPException 400 "Invalid ID"), w) in
  get_delivery id_str w = (Raise (HTTPException 400 "Invalid ID"), w)
  ∧ (∀ payload, add_delivery_item id_str payload w = invalid)
  ∧ (∀ payload, receive_items id_str payload w = invalid)
  ∧ send_to_quality id_str w = invalid
  ∧ complete_delivery id_str w = invalid
  ∧ (∀ payload, approve_item id_str payload w = invalid)
  ∧ (∀ payload, store_item id_str payload w = invalid)
  ∧ (∀ attributes sku, create_variant (Variant.mk id_str attributes sku) w = invalid).
Proof.
  intros Hbad. cbv zeta. split_and!; try intros payload; try intros sku.
  - unfold get_delivery, oid. by rewrite Hbad.
  - unfold add_delivery_item, oid. by rewrite Hbad.
  - by rewrite receive_items_run, Hbad.
  - unfold send_to_quality, set_delivery_status, oid. by rewrite Hbad.
  - unfold complete_delivery, set_delivery_status, oid. by rewrite Hbad.
  - unfold approve_item, oid. by rewrite Hbad.
  - unfold store_item, oid. by rewrite Hbad.
  - unfold create_variant, oid. simpl. by rewrite Hbad.
Qed.

Lemma malformed_id_rejected_witness :
  receive_items "not-an-id" (ReceivePayload.mk [receive crate 4]) world2
  = (Raise (HTTPException 400 "Invalid ID"), world2)
  ∧ store_item "65000000000000000000000g" (StorePayload.mk "A1" "3" None None) world2
    = (Raise (HTTPException 400 "Invalid ID"), world2).
Proof.
  split.
  - apply (malformed_id_rejected "not-an-id" world2 ltac:(vm_compute; reflexivity)).
  - apply (malformed_id_rejected "65000000000000000000000g" world2
             ltac:(vm_compute; reflexivity)).
Defined.

Lemma get_delivery_run delivery_id o w :
  Oid.parse delivery_id = Some o →
  get_delivery delivery_id w =
    match collection "delivery" w !! o with
    | None => (Raise (HTTPException 404 "Delivery not found"), w)
    | Some f =>
        (Ok (DeliveryWithItems.mk
               (serialize (Some (mkDocument o f)))
               ((λ i, serialize (Some i))
                  <$> find (of_delivery delivery_id) (collection "deliveryitem" w))),
         w)
    end.
Proof.
  intros Ho. unfold get_delivery, oid. rewrite Ho.
  unfold mbind, M_bind, bind, mret, M_ret, ret. rewrite find_one_by_id.
  destruct (collection "delivery" w !! o) as [f|]; reflexivity.
Qed.

(** X5. The handlers that look the delivery up before acting (get, add
    item, receive) answer a well-formed id that no delivery has with 404
    and leave the world as it was; a receive batch is then not even
    looked at. *)
Theorem unknown_delivery_rejected delivery_id o w :
  Oid.parse delivery_id = Some o →
  collection "delivery" w !! o = None →
  let not_found := (Raise (HTTPException 404 "Delivery not found"), w) in
  get_delivery delivery_id w = (Raise (HTTPException 404 "Delivery not found"), w)
  ∧ (∀ payload, add_delivery_item delivery_id payload w = not_found)
  ∧ (∀ payload, receive_items delivery_id payload w = not_found).
Proof.
  intros Ho Hnone. cbv zeta. split_and!; try intros payload.
  - by rewrite (get_delivery_run _ _ _ Ho), Hnone.
  - by rewrite (add_delivery_item_run _ _ _ _ Ho), Hnone.
  - by rewrite receive_items_run, Ho, Hnone.
Qed.

Lemma unknown_delivery_rejected_witness :
  receive_items nowhere (ReceivePayload.mk [receive crate 4]) world2
  = (Raise (HTTPException 404 "Delivery not found"), world2).
Proof.
  apply (unknown_delivery_rejected nowhere
           (Oid.generate 0x65000000000000000000beef) world2
           ltac:(vm_compute; reflexivity) ltac:(vm_compute; reflexivity)).
Defined.

(** X6. A receive call with an empty batch on an existing delivery
    whose item total (over the items filed under the id string of the
    call) fits in 64 bits completes: it touches no item and stores that
    total as the delivery's receivedQty, whatever value was there. *)
Theorem receive_items_empty_batch delivery_id o f w :
  Oid.parse delivery_id = Some o →
  collection "delivery" w !! o = Some f →
  int64 (received_total delivery_id (collection "deliveryitem" w)) →
  ∃ resp w' f',
    receive_items delivery_id (ReceivePayload.mk []) w = (Ok (Some resp), w')
    ∧ collection "deliveryitem" w' = collection "deliveryitem" w
    ∧ collection "delivery" w' !! o = Some f'
    ∧ f' !! "receivedQty"
      = Some (Sc (Int (received_total delivery_id (collection "deliveryitem" w))))
    ∧ resp !! "receivedQty"
      = Some (Sc (Int (received_total delivery_id (collection "deliveryitem" w)))).
Proof.
  intros Ho Hf Hfit. rewrite receive_items_run, Ho, Hf. simpl for_each. cbv zeta.
  unfold ret. rewrite sum_field_find_total.
  rewrite sum_result_fits by done. rewrite decide_True by done.
  eexists _, _, _. split; [reflexivity|].
  rewrite collection_set_ne, collection_tick, collection_set_eq by done.
  assert (Hq : ∀ up : Value,
            ({[ "receivedQty" :=
                  Sc (Int (received_total delivery_id (collection "deliveryitem" w)));
                "updated_at" := up ]} ∪ f) !! "receivedQty"
            = Some (Sc (Int (received_total delivery_id
                               (collection "deliveryitem" w))))).
  { intros up. apply lookup_union_Some_l, lookup_insert_eq. }
  split_and!; [done | apply lookup_insert_eq | apply Hq |].
  exact (lookup_serialized_value o _ "receivedQty" _ ltac:(done) (Hq _)).
Qed.

Lemma receive_items_empty_batch_witness :
  stored "delivery" acme_oid world_failed !! "receivedQty" = Some (Sc (Int 0))
  ∧ ∃ resp w' f',
      receive_items acme (ReceivePayload.mk []) world_failed = (Ok (Some resp), w')
      ∧ collection "delivery" w' !! acme_oid = Some f'
      ∧ f' !! "receivedQty" = Some (Sc (Int 4)).
Proof.
  split; [vm_compute; reflexivity|].
  destruct (receive_items_empty_batch acme acme_oid
              (stored "delivery" acme_oid world_failed) world_failed
              ltac:(vm_compute; reflexivity)
              (has_stored "delivery" acme_oid world_failed
                 ltac:(vm_compute; reflexivity))
              (int64_checked
                 (received_total acme (collection "deliveryitem" world_failed))
                 ltac:(vm_compute; reflexivity)))
    as (resp & w' & f' & Hrun & _ & Hf' & Hq & _).
  exists resp, w', f'. split_and!; [exact Hrun | exact Hf' |].
  etrans; [exact Hq|]. vm_compute. reflexivity.
Defined.

(** ** Reading a delivery with its items *)

Lemma NoDup_documents (c : Collection) : NoDup (documents c).
Proof.
  unfold documents. apply NoDup_fmap_2; [|apply NoDup_map_to_list].
  intros [o1 f1] [o2 f2]. simpl. by intros [= -> ->].
Qed.

(** X7. For a delivery that exists, get returns its serialized document
    and, without duplicates and without a limit, exactly the stored items
    whose delivery_id is the id the call was made with; it changes
    nothing. *)
Theorem get_delivery_lists_items delivery_id o f w :
  Oid.parse delivery_id = Some o →
  collection "delivery" w !! o = Some f →
  ∃ docs,
    get_delivery delivery_id w
    = (Ok (DeliveryWithItems.mk (serialize (Some (mkDocument o f)))
             ((λ i, serialize (Some i)) <$> docs)), w)
    ∧ NoDup docs
    ∧ ∀ d, d ∈ docs ↔
           collection "deliveryitem" w !! _id d = Some (fields d)
           ∧ references delivery_id (fields d).
Proof.
  intros Ho Hf. rewrite (get_delivery_run _ _ _ Ho), Hf.
  eexists. split_and!; [reflexivity|apply NoDup_documents|].
  intros d. rewrite elem_of_find, matches_of_delivery. done.
Qed.

Lemma get_delivery_lists_items_witness :
  ∃ docs,
    get_delivery acme world5
    = (Ok (DeliveryWithItems.mk
             (serialize (Some (mkDocument acme_oid (stored "delivery" acme_oid world5))))
             ((λ i, serialize (Some i)) <$> docs)), world5)
    ∧ mkDocument crate_oid (stored "deliveryitem" crate_oid world5) ∈ docs
    ∧ mkDocument parcel_oid (stored "deliveryitem" parcel_oid world5) ∈ docs.
Proof.
  destruct (get_delivery_lists_items acme acme_oid
              (stored "delivery" acme_oid world5) world5
              ltac:(vm_compute; reflexivity)
              (has_stored "delivery" acme_oid world5 ltac:(vm_compute; reflexivity)))
    as (docs & Hrun & _ & Hdocs).
  exists docs. split_and!; [exact Hrun | |].
  - apply Hdocs. split.
    + exact (has_stored "deliveryitem" crate_oid world5 ltac:(vm_compute; reflexivity)).
    + vm_compute. reflexivity.
  - apply Hdocs. split.
    + exact (has_stored "deliveryitem" parcel_oid world5 ltac:(vm_compute; reflexivity)).
    + vm_compute. reflexivity.
Defined.

(** ** Adding items *)

(** X8. The request model lets a negative expectedQty through but the
    stored model does not: adding such an item to an existing delivery
    raises the model's ValidationError, which is no HTTPException, and
    stores nothing. *)
Theorem add_delivery_item_negative_expected delivery_id payload o f w :
  Oid.parse delivery_id = Some o →
  collection "delivery" w !! o = Some f →
  DeliveryItemCreateRequest.expectedQty payload < 0 →
  add_delivery_item delivery_id payload w = (Raise ValidationError, w).
Proof.
  intros Ho Hf Hneg. rewrite (add_delivery_item_run _ _ _ _ Ho), Hf. cbv zeta.
  by rewrite (proj2 (Z.leb_gt _ _) Hneg).
Qed.

Lemma add_delivery_item_negative_expected_witness :
  add_delivery_item acme (DeliveryItemCreateRequest.mk None None (-1) None) world2
  = (Raise ValidationError, world2).
Proof.
  apply (add_delivery_item_negative_expected acme
           (DeliveryItemCreateRequest.mk None None (-1) None) acme_oid
           (stored "delivery" acme_oid world2) world2
           ltac:(vm_compute; reflexivity)
           (has_stored "delivery" acme_oid world2 ltac:(vm_compute; reflexivity))
           ltac:(simpl; lia)).
Defined.

Lemma item_dump_fields (d : DeliveryItem.t) :
  model_dump d !! "delivery_id" = Some (Sc (Str (DeliveryItem.delivery_id d)))
  ∧ model_dump d !! "product_id" = Some (opt_str (DeliveryItem.product_id d))
  ∧ model_dump d !! "variant_id" = Some (opt_str (DeliveryItem.variant_id d))
  ∧ model_dump d !! "expectedQty" = Some (Sc (Int (DeliveryItem.expectedQty d)))
  ∧ model_dump d !! "notes" = Some (opt_str (DeliveryItem.notes d)).
Proof.
  unfold model_dump, DeliveryItem.dump. split_and!.
  - apply lookup_insert_eq.
  - rewrite !lookup_insert_ne by done. apply lookup_insert_eq.
  - rewrite !lookup_insert_ne by done. apply lookup_insert_eq.
  - rewrite !lookup_insert_ne by done. apply lookup_insert_eq.
  - rewrite !lookup_insert_ne by done. apply lookup_insert_eq.
Qed.

(** What a successful [add_delivery_item] went through: the id parsed,
    the delivery was there, the fresh identifier was free, and the
    stamped dump of the new item went into the item collection. *)
Lemma add_delivery_item_inserted delivery_id payload w r w' :
  add_delivery_item delivery_id payload w = (Ok r, w') →
  ∃ o item,
    Oid.parse delivery_id = Some o
    ∧ is_Some (collection "delivery" w !! o)
    ∧ collection "deliveryitem" w !! next_oid w = None
    ∧ collection "deliveryitem" w' = <[next_oid w := item]> (collection "deliveryitem" w)
    ∧ collection "delivery" w' = collection "delivery" w
    ∧ r = serialize (Some (mkDocument (next_oid w) item))
    ∧ item !! "receivedQty" = Some (Sc (Int 0))
    ∧ item !! "delivery_id" = Some (Sc (Str delivery_id))
    ∧ item !! "expectedQty"
      = Some (Sc (Int (DeliveryItemCreateRequest.expectedQty payload)))
    ∧ item !! "notes" = Some (opt_str (DeliveryItemCreateRequest.notes payload))
    ∧ item !! "product_id"
      = Some (opt_str (DeliveryItemCreateRequest.product_id payload))
    ∧ item !! "variant_id"
      = Some (opt_str (DeliveryItemCreateRequest.variant_id payload)).
Proof.
  unfold add_delivery_item at 1.
  destruct (Oid.parse delivery_id) as [o|] eqn:Ho.
  2:{ unfold oid. by rewrite Ho. }
  fold (add_delivery_item delivery_id payload).
  rewrite (add_delivery_item_run _ _ _ _ Ho). cbv zeta.
  destruct (collection "delivery" w !! o) as [f|] eqn:Hf; [|done].
  destruct (0 <=? _); [|done].
  destruct (collection "deliveryitem" w !! next_oid w) eqn:Hfresh; [done|].
  intros [= <- <-].
  match goal with
  | |- context [ with_timestamps w (model_dump ?d) ] =>
      destruct (item_dump_fields d) as (H1 & H2 & H3 & H4 & H5);
      destruct (item_dump_defaults d) as [_ Hq]; set (data := model_dump d) in *
  end.
  exists o, (with_timestamps w data).
  rewrite collection_set_eq, collection_set_ne by done.
  rewrite !with_timestamps_lookup by done.
  split_and!; done.
Qed.

(** X9. Adding an item that succeeds inserts one new item and nothing
    else: the item carries the path's delivery_id and the payload's
    expectedQty, notes, product_id and variant_id (both may be absent);
    the delivery collection is untouched, every existing item is as it
    was, and no delivery's item total moves, the new item counting 0. *)
Theorem add_delivery_item_effect delivery_id payload w r w' :
  add_delivery_item delivery_id payload w = (Ok r, w') →
  ∃ item,
    collection "deliveryitem" w !! next_oid w = None
    ∧ collection "deliveryitem" w' = <[next_oid w := item]> (collection "deliveryitem" w)
    ∧ collection "delivery" w' = collection "delivery" w
    ∧ item !! "delivery_id" = Some (Sc (Str delivery_id))
    ∧ item !! "expectedQty"
      = Some (Sc (Int (DeliveryItemCreateRequest.expectedQty payload)))
    ∧ item !! "notes" = Some (opt_str (DeliveryItemCreateRequest.notes payload))
    ∧ item !! "product_id"
      = Some (opt_str (DeliveryItemCreateRequest.product_id payload))
    ∧ item !! "variant_id"
      = Some (opt_str (DeliveryItemCreateRequest.variant_id payload))
    ∧ r = serialize (Some (mkDocument (next_oid w) item))
    ∧ ∀ other, received_total other (collection "deliveryitem" w')
               = received_total other (collection "deliveryitem" w).
Proof.
  intros Hrun.
  destruct (add_delivery_item_inserted _ _ _ _ _ Hrun)
    as (o & item & _ & _ & Hfresh & Hitems & Hdel & Hr & Hq & Hid & He & Hn & Hp & Hv).
  exists item. split_and!; try done.
  intros other. rewrite Hitems, received_total_insert by done.
  unfold item_received. rewrite Hq. case_decide; simpl; lia.
Qed.

Lemma add_delivery_item_effect_witness :
  let out := add_delivery_item acme
               (DeliveryItemCreateRequest.mk None None 3 (Some "fragile")) world2 in
  ∃ item,
    collection "deliveryitem" out.2
    = <[next_oid world2 := item]> (collection "deliveryitem" world2)
    ∧ item !! "notes" = Some (Sc (Str "fragile"))
    ∧ item !! "product_id" = Some (Sc Null).
Proof.
  intros out.
  assert (Hok : succeeded out.1 = true) by (vm_compute; reflexivity).
  destruct (add_delivery_item_effect acme
              (DeliveryItemCreateRequest.mk None None 3 (Some "fragile")) world2 _ _
              (run_ok None _ _ Hok))
    as (item & _ & Hitems & _ & _ & _ & Hnotes & Hp & _).
  exists item. split_and!; [exact Hitems | exact Hnotes | exact Hp].
Defined.

(** ** Reading back what was created *)

(** X10. A delivery just created is found by get under the id of the
    response, with the same body; after an item was added under an id
    string, get called with that same id string succeeds and lists the
    item as it was returned. *)
Theorem created_is_readable :
  (∀ payload w r w',
     create_delivery payload w = (Ok r, w') →
     ∃ items,
       get_delivery (Oid.str (next_oid w)) w'
       = (Ok (DeliveryWithItems.mk r items), w'))
  ∧ (∀ delivery_id payload w r w',
       add_delivery_item delivery_id payload w = (Ok r, w') →
       ∃ d items,
         get_delivery delivery_id w' = (Ok (DeliveryWithItems.mk d items), w')
         ∧ r ∈ items).
Proof.
  split.
  - intros payload w r w'. rewrite create_delivery_run. cbv zeta.
    destruct (collection "delivery" w !! next_oid w); [done|].
    intros [= <- <-].
    rewrite (get_delivery_run _ (next_oid w)).
    2:{ unfold next_oid. apply OidFacts.parse_str_generate. }
    rewrite collection_set_eq, lookup_insert_eq. eauto.
  - intros delivery_id payload w r w' Hrun.
    destruct (add_delivery_item_inserted _ _ _ _ _ Hrun)
      as (o & item & Ho & [f Hf] & _ & Hitems & Hdel & -> & _ & Hid & _).
    rewrite (get_delivery_run _ _ _ Ho), Hdel, Hf.
    eexists _, _. split; [reflexivity|].
    apply list_elem_of_fmap. exists (mkDocument (next_oid w) item).
    split; [done|]. apply elem_of_find. simpl.
    rewrite Hitems, lookup_insert_eq. split; [done|].
    by apply matches_of_delivery.
Qed.

Lemma created_is_readable_witness :
  ∃ items,
    get_delivery (Oid.str (next_oid world0)) world1
    = (Ok (DeliveryWithItems.mk
             (value_of None
                (create_delivery (DeliveryCreateRequest.mk (Some "Acme") None None ∅)
                   world0).1)
             items), world1).
Proof.
  exact (proj1 created_is_readable
           (DeliveryCreateRequest.mk (Some "Acme") None None ∅) world0 _ _
           (run_ok None (create_delivery
                           (DeliveryCreateRequest.mk (Some "Acme") None None ∅))
              world0 ltac:(vm_compute; reflexivity))).
Defined.

(** ** Listings: order, bound, content *)

Lemma bson_leb_total a b : bson_leb a b = true ∨ bson_leb b a = true.
Proof.
  destruct a as [[[| x | x | x | x | x] | x]|], b as [[[| y | y | y | y | y] | y]|];
    simpl; try (by left); try (by right);
    try (destruct (Z.le_ge_cases x y); [left|right]; by apply Z.leb_le);
    try apply OidFacts.leb_total.
  apply String.leb_total.
Qed.

Global Instance key_ge_total key : Total (key_ge key).
Proof. intros a b. unfold key_ge. destruct (bson_leb_total (doc_get b key) (doc_get a key)); eauto. Qed.

Lemma Sorted_take {A} (R : relation A) (l : list A) n :
  Sorted R l → Sorted R (take n l).
Proof.
  intros Hs. revert n. induction Hs as [|x l Hs IH Hhd]; intros [|n]; simpl;
    try constructor; auto.
  destruct Hhd as [|y l' Hxy]; destruct n; simpl; constructor; done.
Qed.

Lemma length_find (filt : Filter) (c : Collection) : (List.length (find filt c) ≤ size c)%nat.
Proof.
  unfold find, documents. rewrite length_fmap, length_map_to_list.
  apply map_subseteq_size, map_filter_subseteq.
Qed.

(** The cursor [find(filt).limit(limit).sort(key, -1)]: a read that
    returns, without duplicates and in descending order of the key,
    matching documents, at most [limit] of them, and all of them when
    they are no more than [limit]. *)
Lemma find_sorted_spec name (filt : Filter) limit key w :
  ∃ docs,
    find_sorted name filt limit key w = (Ok docs, w)
    ∧ NoDup docs
    ∧ Sorted (key_ge key) docs
    ∧ (limit ≠ 0%nat → (List.length docs ≤ limit)%nat)
    ∧ (∀ d, d ∈ docs → d ∈ find filt (collection name w))
    ∧ ((size (collection name w) ≤ limit)%nat →
       ∀ d, d ∈ find filt (collection name w) → d ∈ docs).
Proof.
  unfold find_sorted. eexists. split; [reflexivity|].
  set (found := find filt (collection name w)).
  assert (Hperm : sort_desc key found ≡ₚ found) by apply merge_sort_Permutation.
  assert (Hnd : NoDup (sort_desc key found)).
  { rewrite Hperm. apply NoDup_documents. }
  assert (Hsorted : Sorted (key_ge key) (sort_desc key found))
    by apply Sorted_merge_sort, _.
  split_and!.
  - destruct limit; [done|]. simpl apply_limit.
    eapply sublist_NoDup; [done|apply sublist_take].
  - destruct limit; [done|]. by apply Sorted_take.
  - intros Hl. destruct limit; [done|]. simpl apply_limit.
    rewrite length_take. lia.
  - intros d Hd. rewrite <- Hperm. destruct limit; [done|].
    by eapply subseteq_take.
  - intros Hsize d Hd. rewrite <- Hperm in Hd. destruct limit; [done|].
    simpl apply_limit. rewrite take_ge; [done|].
    rewrite Hperm. etrans; [apply length_find|done].
Qed.

(** In BSON's order only a date is at or above a date. *)
Lemma datetime_below fv t2 :
  bson_leb (Some (Sc (Datetime t2))) fv = true →
  ∃ t1, fv = Some (Sc (Datetime t1)) ∧ t2 ≤ t1.
Proof.
  destruct fv as [[[| x | x | x | x | x] | x]|]; simpl; try done.
  intros Hle%Z.leb_le. eauto.
Qed.

Lemma sorted_head_newest (docs : list Document) x d2 t2 :
  Sorted (key_ge "created_at") (x :: docs) →
  d2 ∈ docs →
  fields d2 !! "created_at" = Some (Sc (Datetime t2)) →
  ∃ t1, fields x !! "created_at" = Some (Sc (Datetime t1)) ∧ t2 ≤ t1.
Proof.
  revert x. induction docs as [|y docs IH]; intros x Hs Hin Ht2.
  - by apply elem_of_nil in Hin.
  - apply Sorted_inv in Hs as [Hs Hhd]. apply HdRel_inv in Hhd.
    unfold key_ge in Hhd.
    change (doc_get x "created_at") with (fields x !! "created_at") in Hhd.
    change (doc_get y "created_at") with (fields y !! "created_at") in Hhd.
    apply elem_of_cons in Hin as [->|Hin].
    + rewrite Ht2 in Hhd. by apply datetime_below.
    + destruct (IH y Hs Hin Ht2) as (ty & Hty & Hle).
      rewrite Hty in Hhd. apply datetime_below in Hhd as (t1 & Ht1 & Hle1).
      exists t1. split; [done|lia].
Qed.

Lemma value_in_strings fv (l : list string) :
  value_in fv ((λ s, Sc (Str s)) <$> l) = true
  ↔ ∃ s', s' ∈ l ∧ fv = Some (Sc (Str s')).
Proof.
  unfold value_in. rewrite bool_decide_eq_true, list_elem_of_fmap. split.
  - intros (s' & Hv & Hin). exists s'. split; [done|].
    destruct fv as [v|]; simpl in Hv; [by subst|done].
  - intros (s' & Hin & ->). by exists s'.
Qed.

Lemma not_value_in_one fv v :
  negb (value_in fv [v]) = true ↔ default (Sc Null) fv ≠ v.
Proof.
  unfold value_in. rewrite negb_true_iff, bool_decide_eq_false.
  by rewrite list_elem_of_singleton.
Qed.

Lemma find_sorted_lists name (filt : Filter) (selected : Dict → Prop) limit key w :
  (∀ d, matches filt d = true ↔ selected (fields d)) →
  ∃ docs,
    find_sorted name filt limit key w = (Ok docs, w)
    ∧ lists name selected limit w docs
    ∧ Sorted (key_ge key) docs.
Proof.
  intros Hsel.
  destruct (find_sorted_spec name filt limit key w)
    as (docs & Hrun & Hnd & Hsorted & Hlen & Hsound & Hcomplete).
  exists docs. split_and!; [done| |done].
  split_and!; [done|done| |].
  - intros d Hd. apply Hsound, elem_of_find in Hd as [Hin Hm].
    split; [done|]. by apply Hsel.
  - intros Hsize o f Hf Hs. apply (Hcomplete Hsize), elem_of_find. simpl.
    split; [done|]. by apply Hsel.
Qed.

Ltac reduce_default :=
  repeat match goal with
    | |- context [ from_option id ?x (Some ?y) ] =>
        change (from_option id x (Some y)) with y
    | |- context [ from_option id ?x None ] =>
        change (from_option id x None) with x
    end; cbv beta iota.

Ltac normalise_filter :=
  repeat first
    [ rewrite lookup_insert_eq
    | rewrite lookup_empty
    | rewrite insert_insert_eq
    | rewrite lookup_singleton_ne by done
    | progress reduce_default ];
  try change (remove_dups ([] ++ [Sc (Str "RECEIVED")])) with [Sc (Str "RECEIVED")].

Lemma matches_empty d : matches ∅ d = true.
Proof. unfold matches. apply bool_decide_eq_true. apply map_Forall_empty. Qed.

Lemma matches_insert (filt : Filter) k c d :
  filt !! k = None →
  matches (<[k := c]> filt) d = true
  ↔ cond_holds (doc_get d k) c = true ∧ matches filt d = true.
Proof.
  intros Hk. unfold matches. rewrite !bool_decide_eq_true.
  by rewrite map_Forall_insert.
Qed.

Lemma operators_holds fv (ops : gmap string OpArg) :
  cond_holds fv (Operators ops) = true
  ↔ ∀ op arg, ops !! op = Some arg → op_holds fv op arg = true.
Proof. simpl. rewrite bool_decide_eq_true. apply map_Forall_lookup. Qed.

Lemma exists_nin_holds fv v :
  cond_holds fv (Operators (<["$nin" := Values [v]]> {[ "$exists" := Flag true ]})) = true
  ↔ ∃ x, fv = Some x ∧ x ≠ v.
Proof.
  rewrite operators_holds. split.
  - intros Hall.
    pose proof (Hall "$nin" _ (lookup_insert_eq _ _ _)) as Hnin.
    assert (Hex : op_holds fv "$exists" (Flag true) = true).
    { apply Hall. by rewrite lookup_insert_ne, lookup_singleton_eq. }
    change (negb (value_in fv [v]) = true) in Hnin.
    apply not_value_in_one in Hnin.
    destruct fv as [x|]; [eauto|done].
  - intros (x & -> & Hne) op arg.
    intros [[<- <-]|[_ [<- <-]%lookup_singleton_Some]]%lookup_insert_Some.
    + change (negb (value_in (Some x) [v]) = true). by apply not_value_in_one.
    + done.
Qed.

Lemma in_nin_holds fv v (l : list string) :
  cond_holds fv (Operators (<["$nin" := Values [v]]>
                              {[ "$in" := Values ((λ s, Sc (Str s)) <$> l) ]})) = true
  ↔ ∃ x, fv = Some x ∧ x ≠ v ∧ ∃ s', s' ∈ l ∧ x = Sc (Str s').
Proof.
  rewrite operators_holds. split.
  - intros Hall.
    pose proof (Hall "$nin" _ (lookup_insert_eq _ _ _)) as Hnin.
    assert (Hin : op_holds fv "$in" (Values ((λ s, Sc (Str s)) <$> l)) = true).
    { apply Hall. by rewrite lookup_insert_ne, lookup_singleton_eq. }
    change (negb (value_in fv [v]) = true) in Hnin.
    apply not_value_in_one in Hnin.
    change (value_in fv ((λ s, Sc (Str s)) <$> l) = true) in Hin.
    apply value_in_strings in Hin as (s' & Hs' & ->). eauto 10.
  - intros (x & -> & Hne & s' & Hs' & ->) op arg.
    intros [[<- <-]|[_ [<- <-]%lookup_singleton_Some]]%lookup_insert_Some.
    + change (negb (value_in (Some (Sc (Str s'))) [v]) = true).
      by apply not_value_in_one.
    + change (value_in (Some (Sc (Str s'))) ((λ s, Sc (Str s)) <$> l) = true).
      apply value_in_strings. eauto.
Qed.

Lemma in_holds fv (l : list string) :
  cond_holds fv (Operators {[ "$in" := Values ((λ s, Sc (Str s)) <$> l) ]}) = true
  ↔ ∃ s', s' ∈ l ∧ fv = Some (Sc (Str s')).
Proof.
  rewrite operators_holds. split.
  - intros Hall.
    pose proof (Hall "$in" _ (lookup_singleton_eq _ _)) as Hin.
    change (value_in fv ((λ s, Sc (Str s)) <$> l) = true) in Hin.
    by apply value_in_strings.
  - intros Hin op arg [<- <-]%lookup_singleton_Some.
    change (value_in fv ((λ s, Sc (Str s)) <$> l) = true).
    by apply value_in_strings.
Qed.

Lemma list_deliveries_spec status_in limit w :
  ∃ docs,
    list_deliveries status_in limit w = (Ok ((λ d, serialize (Some d)) <$> docs), w)
    ∧ lists "delivery" (listed_delivery status_in) limit w docs
    ∧ Sorted (key_ge "created_at") docs.
Proof.
  unfold list_deliveries. cbv zeta.
  match goal with
  | |- context [ find_sorted "delivery" ?filt limit "created_at" ] =>
      destruct (find_sorted_lists "delivery" filt (listed_delivery status_in)
                  limit "created_at" w) as (docs & Hrun & Hlists & Hsorted)
  end.
  2:{ exists docs. unfold mbind, M_bind, bind. rewrite Hrun. done. }
  intros d. unfold listed_delivery.
  destruct status_in as [[|s l]|].
  - normalise_filter.
    rewrite matches_insert by done.
    change (doc_get d "status") with (fields d !! "status").
    rewrite exists_nin_holds. split.
    + intros [(x & Hx & Hne) _]. eauto.
    + intros (x & Hx & Hne & _). split; [eauto|apply matches_empty].
  - normalise_filter.
    rewrite matches_insert by done.
    change (doc_get d "status") with (fields d !! "status").
    change (Sc (Str s) :: ((λ s, Sc (Str s)) <$> l))
      with ((λ s, Sc (Str s)) <$> (s :: l)).
    rewrite in_nin_holds. split.
    + intros [(x & Hx & Hne & Hin) _]. eauto.
    + intros (x & Hx & Hne & Hin). split; [eauto|apply matches_empty].
  - normalise_filter.
    rewrite matches_insert by done.
    change (doc_get d "status") with (fields d !! "status").
    rewrite exists_nin_holds. split.
    + intros [(x & Hx & Hne) _]. eauto.
    + intros (x & Hx & Hne & _). split; [eauto|apply matches_empty].
Qed.

Lemma sorted_newest_first docs :
  Sorted (key_ge "created_at") docs → newest_first_order docs.
Proof.
  induction docs as [|x docs IH]; intros Hs i j d1 d2 t2 Hij H1 H2 Ht2; [done|].
  destruct j as [|j]; [lia|]. simpl in H2. destruct i as [|i].
  - simpl in H1. apply (inj Some) in H1. subst d1.
    eapply sorted_head_newest; [done| |done]. by eapply list_elem_of_lookup_2.
  - simpl in H1. apply Sorted_inv in Hs as [Hs _].
    apply (IH Hs i j d1 d2 t2); [lia|done|done|done].
Qed.

(** X11. Listing deliveries is a read that always succeeds.  It returns
    stored deliveries, each once and at most limit of them (for a limit
    that is not 0), newest created first, any without a creation time
    last; each has a status field, not "RECEIVED", and one of the
    requested statuses when any are given (a delivery without a status
    field is never listed); and when the collection holds no more than
    limit deliveries, every such delivery is returned. *)
Theorem list_deliveries_listing status_in limit w :
  ∃ docs,
    list_deliveries status_in limit w = (Ok ((λ d, serialize (Some d)) <$> docs), w)
    ∧ lists "delivery" (listed_delivery status_in) limit w docs
    ∧ newest_first_order docs.
Proof.
  destruct (list_deliveries_spec status_in limit w) as (docs & Hrun & Hl & Hs).
  exists docs. split_and!; [done|done|by apply sorted_newest_first].
Qed.

Lemma list_deliveries_listing_witness :
  ∃ docs,
    list_deliveries (Some ["DRAFT"; "PENDING"]) 100 world_legacy
    = (Ok ((λ d, serialize (Some d)) <$> docs), world_legacy)
    ∧ mkDocument acme_oid (stored "delivery" acme_oid world_legacy) ∈ docs
    ∧ (List.length docs ≤ 100)%nat.
Proof.
  destruct (list_deliveries_listing (Some ["DRAFT"; "PENDING"]) 100 world_legacy)
    as (docs & Hrun & (_ & Hlen & _ & Hall) & _).
  exists docs. split_and!; [exact Hrun | | apply Hlen; discriminate].
  apply Hall.
  - apply Nat.leb_le. vm_compute. reflexivity.
  - exact (has_stored "delivery" acme_oid world_legacy ltac:(vm_compute; reflexivity)).
  - exists (Sc (Str "PENDING")). split_and!; [vm_compute; reflexivity | discriminate |].
    exists "PENDING". split; [repeat constructor|reflexivity].
Defined.

Lemma list_delivery_items_spec delivery_id status_in limit w :
  ∃ docs,
    list_delivery_items delivery_id status_in limit w
    = (Ok ((λ d, serialize (Some d)) <$> docs), w)
    ∧ lists "deliveryitem" (listed_item delivery_id status_in) limit w docs
    ∧ Sorted (key_ge "created_at") docs.
Proof.
  unfold list_delivery_items. cbv zeta.
  match goal with
  | |- context [ find_sorted "deliveryitem" ?filt limit "created_at" ] =>
      destruct (find_sorted_lists "deliveryitem" filt
                  (listed_item delivery_id status_in)
                  limit "created_at" w) as (docs & Hrun & Hlists & Hsorted)
  end.
  2:{ exists docs. unfold mbind, M_bind, bind. rewrite Hrun. done. }
  intros d. unfold listed_item.
  assert (Hdel : ∀ a s,
            matches (<["delivery_id" := Equals (Sc (Str (String a s)))]> ∅) d = true
            ↔ references (String a s) (fields d)).
  { intros a s. rewrite matches_insert by done. rewrite cond_holds_Equals.
    change (doc_get d "delivery_id") with (fields d !! "delivery_id").
    unfold references. split.
    - intros [Hv _]. destruct (fields d !! "delivery_id"); simpl in Hv; congruence.
    - intros ->. split; [done|apply matches_empty]. }
  assert (Hst : ∀ (filt : Filter) s0 l,
            filt !! "status" = None →
            matches (<["status" := Operators
                         {[ "$in" := Values ((λ s, Sc (Str s)) <$> s0 :: l) ]}]> filt) d
            = true
            ↔ (∃ s', s' ∈ s0 :: l ∧ fields d !! "status" = Some (Sc (Str s')))
              ∧ matches filt d = true).
  { intros filt s0 l Hnone. rewrite matches_insert by done.
    change (doc_get d "status") with (fields d !! "status").
    by rewrite in_holds. }
  assert (Hall : matches ∅ d = true ↔ True ∧ True).
  { split; [done|]. intros _. apply matches_empty. }
  destruct delivery_id as [[|a s]|], status_in as [[|s0 l]|].
  - exact Hall.
  - rewrite Hst by done. rewrite matches_empty. tauto.
  - exact Hall.
  - rewrite Hdel. tauto.
  - rewrite Hst by done. rewrite Hdel. tauto.
  - rewrite Hdel. tauto.
  - exact Hall.
  - rewrite Hst by done. rewrite matches_empty. tauto.
  - exact Hall.
Qed.

(** X12. Listing delivery items is a read that always succeeds.  It
    returns stored items, each once and at most limit of them (for a
    limit that is not 0), newest created first, any without a creation
    time last; each belongs to the requested delivery when a
    non-empty delivery_id is given (an empty one selects all) and has one
    of the requested statuses when any are given; and when the
    collection holds no more than limit items, every such item is
    returned.  Items are not filtered by status otherwise. *)
Theorem list_delivery_items_listing delivery_id status_in limit w :
  ∃ docs,
    list_delivery_items delivery_id status_in limit w
    = (Ok ((λ d, serialize (Some d)) <$> docs), w)
    ∧ lists "deliveryitem" (listed_item delivery_id status_in) limit w docs
    ∧ newest_first_order docs.
Proof.
  destruct (list_delivery_items_spec delivery_id status_in limit w)
    as (docs & Hrun & Hl & Hs).
  exists docs. split_and!; [done|done|by apply sorted_newest_first].
Qed.

Lemma list_delivery_items_listing_witness :
  ∃ docs,
    list_delivery_items (Some acme) (Some ["PENDING"]) 200 world5
    = (Ok ((λ d, serialize (Some d)) <$> docs), world5)
    ∧ mkDocument parcel_oid (stored "deliveryitem" parcel_oid world5) ∈ docs.
Proof.
  destruct (list_delivery_items_listing (Some acme) (Some ["PENDING"]) 200 world5)
    as (docs & Hrun & (_ & _ & _ & Hall) & _).
  exists docs. split; [exact Hrun|].
  apply Hall.
  - apply Nat.leb_le. vm_compute. reflexivity.
  - exact (has_stored "deliveryitem" parcel_oid world5 ltac:(vm_compute; reflexivity)).
  - split; [vm_compute; reflexivity|].
    exists "PENDING". split; [repeat constructor|vm_compute; reflexivity].
Defined.

(** ** Products and variants *)

Lemma create_product_run product w :
  create_product product w =
    let doc := with_timestamps w (model_dump product) in
    match collection "product" w !! next_oid w with
    | Some _ => (Raise DuplicateKeyError, stamped w)
    | None =>
        (Ok (serialize (Some (mkDocument (next_oid w) doc))),
         set_collection "product" (<[next_oid w := doc]> (collection "product" w))
           (stamped w))
    end.
Proof.
  unfold create_product. cbv zeta.
  unfold mbind at 1, M_bind at 1, bind at 1.
  rewrite create_document_run.
  destruct (collection "product" w !! next_oid w); [done|].
  apply (fetch_created "product").
Qed.

Lemma create_variant_run variant o w :
  Oid.parse (Variant.product_id variant) = Some o →
  create_variant variant w =
    let doc := with_timestamps w (model_dump variant) in
    match collection "product" w !! o with
    | None => (Raise (HTTPException 400 "Referenced product does not exist"), w)
    | Some _ =>
        match collection "variant" w !! next_oid w with
        | Some _ => (Raise DuplicateKeyError, stamped w)
        | None =>
            (Ok (serialize (Some (mkDocument (next_oid w) doc))),
             set_collection "variant" (<[next_oid w := doc]> (collection "variant" w))
               (stamped w))
        end
    end.
Proof.
  intros Ho. unfold create_variant, oid. rewrite Ho. cbv zeta.
  unfold mbind at 1, M_bind at 1, bind at 1. unfold ret at 1. cbv beta iota.
  unfold mbind at 1, M_bind at 1, bind at 1. rewrite find_one_by_id.
  destruct (collection "product" w !! o) as [g|]; [|done].
  change (mkDocument o <$> Some g) with (Some (mkDocument o g)). cbv beta iota.
  unfold mbind at 1, M_bind at 1, bind at 1.
  rewrite create_document_run.
  destruct (collection "variant" w !! next_oid w); [done|].
  apply (fetch_created "variant").
Qed.

(** X13. A variant is stored only against an existing product: when the
    call succeeds, the variant's product_id parses to the id of a stored
    product, the variant is stored with that product_id, and the product
    collection is untouched; when a well-formed product_id names no
    product, the call fails with 400 "Referenced product does not exist"
    and stores nothing. *)
Theorem create_variant_reference_integrity :
  (∀ variant w r w',
     create_variant variant w = (Ok r, w') →
     ∃ o product v,
       Oid.parse (Variant.product_id variant) = Some o
       ∧ collection "product" w' !! o = Some product
       ∧ collection "product" w' = collection "product" w
       ∧ collection "variant" w' = <[next_oid w := v]> (collection "variant" w)
       ∧ v !! "product_id" = Some (Sc (Str (Variant.product_id variant))))
  ∧ (∀ variant o w,
       Oid.parse (Variant.product_id variant) = Some o →
       collection "product" w !! o = None →
       create_variant variant w
       = (Raise (HTTPException 400 "Referenced product does not exist"), w)).
Proof.
  split.
  - intros variant w r w'. unfold create_variant at 1.
    destruct (Oid.parse (Variant.product_id variant)) as [o|] eqn:Ho.
    2:{ unfold oid. by rewrite Ho. }
    fold (create_variant variant).
    rewrite (create_variant_run _ _ _ Ho). cbv zeta.
    destruct (collection "product" w !! o) as [product|] eqn:Hp; [|done].
    destruct (collection "variant" w !! next_oid w); [done|].
    intros [= <- <-]. exists o, product. eexists.
    rewrite collection_set_eq, collection_set_ne by done.
    split_and!; [done|done|done|done|].
    rewrite with_timestamps_lookup by done.
    unfold model_dump, Variant.dump. apply lookup_insert_eq.
  - intros variant o w Ho Hnone.
    by rewrite (create_variant_run _ _ _ Ho), Hnone.
Qed.

Lemma create_variant_reference_integrity_witness :
  create_variant (Variant.mk acme ∅ None) world2
  = (Raise (HTTPException 400 "Referenced product does not exist"), world2).
Proof.
  apply (proj2 create_variant_reference_integrity (Variant.mk acme ∅ None)
           acme_oid world2 ltac:(vm_compute; reflexivity)
           ltac:(vm_compute; reflexivity)).
Defined.

(** X14. A product just created can be referenced at once: creating a
    variant with the id of the product's response succeeds, as long as
    the store accepts the variant's own new identifier. *)
Theorem variant_of_created_product product attributes sku w r w' :
  create_product product w = (Ok r, w') →
  collection "variant" w' !! next_oid w' = None →
  ∃ resp w'',
    create_variant (Variant.mk (Oid.str (next_oid w)) attributes sku) w'
    = (Ok (Some resp), w'')
    ∧ resp !! "product_id" = Some (Sc (Str (Oid.str (next_oid w)))).
Proof.
  rewrite create_product_run. cbv zeta.
  destruct (collection "product" w !! next_oid w); [done|].
  intros [= <- <-] Hfresh.
  rewrite (create_variant_run _ (next_oid w)).
  2:{ simpl. unfold next_oid. apply OidFacts.parse_str_generate. }
  cbv zeta. rewrite collection_set_eq, lookup_insert_eq, Hfresh.
  eexists _, _. split; [reflexivity|].
  apply (lookup_serialized_value _ _ "product_id"
           (Sc (Str (Oid.str (next_oid w))))); [done|].
  simpl fields. rewrite with_timestamps_lookup by done.
  unfold model_dump, Variant.dump. apply lookup_insert_eq.
Qed.

Lemma variant_of_created_product_witness :
  let made := create_product (Product.mk "SKU-1" "Widget" None) world2 in
  ∃ resp w'',
    create_variant (Variant.mk (Oid.str (next_oid world2)) ∅ (Some "SKU-1-RED")) made.2
    = (Ok (Some resp), w'')
    ∧ resp !! "product_id" = Some (Sc (Str (Oid.str (next_oid world2)))).
Proof.
  intros made.
  exact (variant_of_created_product (Product.mk "SKU-1" "Widget" None) ∅
           (Some "SKU-1-RED") world2 _ _
           (run_ok None (create_product (Product.mk "SKU-1" "Widget" None)) world2
              ltac:(vm_compute; reflexivity))
           ltac:(vm_compute; reflexivity)).
Defined.

(** ** Status commands: what they leave alone *)

Lemma only_writes_same name target written w w' :
  (∀ other, collection other w' = collection other w) →
  only_writes name target written w w'.
Proof.
  intros Hsame. split_and!.
  - intros other _. apply Hsame.
  - by rewrite Hsame.
  - intros o f Hf. exists f. by rewrite Hsame.
Qed.

Lemma only_writes_update name written o f (upd : Dict) w :
  collection name w !! o = Some f →
  (∀ k, k ∉ written → upd !! k = None) →
  only_writes name (Some o) written w
    (set_collection name (<[o := upd ∪ f]> (collection name w)) (tick w)).
Proof.
  intros Hf Hupd. split_and!.
  - intros other Hne. by rewrite collection_set_ne.
  - rewrite collection_set_eq, dom_insert_L. apply elem_of_dom_2 in Hf. set_solver.
  - intros o' f' Hf'. rewrite collection_set_eq.
    destruct (decide (o' = o)) as [->|Hne].
    + rewrite Hf in Hf'. apply (inj Some) in Hf'. subst f'.
      exists (upd ∪ f). rewrite lookup_insert_eq. split_and!; [done| |done].
      intros k Hk. apply lookup_union_r. by apply Hupd.
    + exists f'. rewrite lookup_insert_ne by done. done.
Qed.

Lemma written_only (upd : Dict) (written : list string) :
  dom upd ⊆ list_to_set written → ∀ k, k ∉ written → upd !! k = None.
Proof.
  intros Hdom k Hk. apply not_elem_of_dom. intros Hin.
  apply Hk. apply Hdom in Hin. by apply elem_of_list_to_set in Hin.
Qed.

Lemma only_writes_total name target written w w' delivery_id :
  name = "deliveryitem" →
  "delivery_id" ∉ written → "receivedQty" ∉ written →
  only_writes name target written w w' →
  received_total delivery_id (collection "deliveryitem" w')
  = received_total delivery_id (collection "deliveryitem" w).
Proof.
  intros -> Hd Hq (_ & Hdom & Hdocs).
  assert (Hsame : ∀ o f f', collection "deliveryitem" w !! o = Some f →
            collection "deliveryitem" w' !! o = Some f' →
            item_received delivery_id f' = item_received delivery_id f).
  { intros o f f' Hf Hf'. destruct (Hdocs o f Hf) as (f'' & Hf'' & Hk & _).
    rewrite Hf' in Hf''. apply (inj Some) in Hf''. subst f''.
    pose proof (Hk "delivery_id" Hd) as H1. pose proof (Hk "receivedQty" Hq) as H2.
    unfold item_received.
    destruct (decide (references delivery_id f')) as [r1|n1],
             (decide (references delivery_id f)) as [r2|n2];
      unfold references in *; [by rewrite H2|congruence|congruence|done]. }
  clear Hdocs.
  revert Hdom Hsame. generalize (collection "deliveryitem" w').
  induction (collection "deliveryitem" w) as [|o f c Ho IH] using map_ind;
    intros c' Hdom Hsame.
  - assert (c' = ∅) as ->; [|done].
    apply dom_empty_inv_L. rewrite Hdom. apply dom_empty_L.
  - assert (is_Some (c' !! o)) as [f' Hf'].
    { apply elem_of_dom. rewrite Hdom, dom_insert_L. set_solver. }
    rewrite <- (insert_delete_id c' o f' Hf').
    rewrite !received_total_insert by (done || apply lookup_delete_eq).
    rewrite (Hsame o f f') by (done || apply lookup_insert_eq).
    f_equal. apply IH.
    + rewrite dom_delete_L, Hdom, dom_insert_L.
      apply not_elem_of_dom in Ho. set_solver.
    + intros o0 f0 f0' Hf0 Hf0'. apply lookup_delete_Some in Hf0' as [Hne Hf0'].
      apply (Hsame o0); [by rewrite lookup_insert_ne|done].
Qed.

(** X15. A status command writes next to nothing.  Send-to-quality and
    complete write only status and updated_at, of the delivery addressed,
    and no item; approve writes only status, notes and updated_at, and
    store only status, location and updated_at, of the item addressed,
    and no delivery.  None of the four adds or removes a document, and
    none moves a receivedQty: every delivery's item total is as before. *)
Theorem status_commands_frame id_str w :
  only_writes "delivery" (Oid.parse id_str) ["status"; "updated_at"]
    w (send_to_quality id_str w).2
  ∧ only_writes "delivery" (Oid.parse id_str) ["status"; "updated_at"]
      w (complete_delivery id_str w).2
  ∧ (∀ payload,
       only_writes "deliveryitem" (Oid.parse id_str) ["status"; "notes"; "updated_at"]
         w (approve_item id_str payload w).2
       ∧ ∀ delivery_id,
           received_total delivery_id
             (collection "deliveryitem" (approve_item id_str payload w).2)
           = received_total delivery_id (collection "deliveryitem" w))
  ∧ (∀ payload,
       only_writes "deliveryitem" (Oid.parse id_str) ["status"; "location"; "updated_at"]
         w (store_item id_str payload w).2
       ∧ ∀ delivery_id,
           received_total delivery_id
             (collection "deliveryitem" (store_item id_str payload w).2)
           = received_total delivery_id (collection "deliveryitem" w)).
Proof.
  assert (Hdel : ∀ status,
            only_writes "delivery" (Oid.parse id_str) ["status"; "updated_at"]
              w (set_delivery_status status id_str w).2).
  { intros status. destruct (Oid.parse id_str) as [o|] eqn:Ho.
    - rewrite (set_delivery_status_run _ _ _ _ Ho).
      destruct (collection "delivery" w !! o) as [f|] eqn:Hf.
      + cbv zeta. simpl snd. apply only_writes_update; [done|].
        apply written_only. rewrite !dom_insert_L, dom_singleton_L. set_solver.
      + by apply only_writes_same.
    - unfold set_delivery_status, oid. rewrite Ho. by apply only_writes_same. }
  assert (Happ : ∀ payload,
            only_writes "deliveryitem" (Oid.parse id_str)
              ["status"; "notes"; "updated_at"] w (approve_item id_str payload w).2).
  { intros payload. destruct (Oid.parse id_str) as [o|] eqn:Ho.
    - rewrite (approve_item_run _ _ _ _ Ho).
      destruct (collection "deliveryitem" w !! o) as [f|] eqn:Hf.
      + cbv zeta. simpl snd. apply only_writes_update; [done|].
        apply written_only. rewrite !dom_insert_L, dom_singleton_L. set_solver.
      + by apply only_writes_same.
    - unfold approve_item, oid. rewrite Ho. by apply only_writes_same. }
  assert (Hsto : ∀ payload,
            only_writes "deliveryitem" (Oid.parse id_str)
              ["status"; "location"; "updated_at"] w (store_item id_str payload w).2).
  { intros payload. destruct (Oid.parse id_str) as [o|] eqn:Ho.
    - rewrite (store_item_run _ _ _ _ Ho).
      destruct (collection "deliveryitem" w !! o) as [f|] eqn:Hf.
      + cbv zeta. simpl snd. apply only_writes_update; [done|].
        apply written_only. rewrite !dom_insert_L, dom_singleton_L. set_solver.
      + by apply only_writes_same.
    - unfold store_item, oid. rewrite Ho. by apply only_writes_same. }
  split_and!; [apply Hdel | apply Hdel | |].
  - intros payload. split; [apply Happ|]. intros delivery_id.
    eapply only_writes_total; [done| | |apply Happ]; set_solver.
  - intros payload. split; [apply Hsto|]. intros delivery_id.
    eapply only_writes_total; [done| | |apply Hsto]; set_solver.
Qed.

Lemma status_commands_frame_witness :
  let out := store_item crate (StorePayload.mk "A1" "3" None None) world3 in
  ∃ item', collection "deliveryitem" out.2 !! crate_oid = Some item'
           ∧ item' !! "receivedQty" = Some (Sc (Int 4))
           ∧ collection "delivery" out.2 = collection "delivery" world3.
Proof.
  intros out.
  destruct (status_commands_frame crate world3) as (_ & _ & _ & Hstore).
  destruct (Hstore (StorePayload.mk "A1" "3" None None)) as [(Hother & _ & Hdocs) _].
  destruct (Hdocs crate_oid _
              (has_stored "deliveryitem" crate_oid world3 ltac:(vm_compute; reflexivity)))
    as (item' & Ho & Hk & _).
  exists item'. split_and!; [exact Ho | | apply Hother; discriminate].
  etrans; [apply Hk, not_listed; vm_compute; reflexivity|].
  vm_compute. reflexivity.
Defined.

(** ** Serializing *)

(** X16. A serialized document is fit for JSON: it has the document's
    identifier as a string under id, no top-level value is a datetime
    any more (each became its ISO string), every other field is carried
    over as it is, and no field is invented.  Nothing at all stays
    nothing. *)
Theorem serialize_json_ready :
  serialize None = None
  ∧ ∀ d, ∃ resp,
      serialize (Some d) = Some resp
      ∧ resp !! "id" = Some (Sc (Str (Oid.str (_id d))))
      ∧ (∀ k t, resp !! k ≠ Some (Sc (Datetime t)))
      ∧ (∀ k t, k ≠ "id" → fields d !! k = Some (Sc (Datetime t)) →
                resp !! k = Some (Sc (Iso t)))
      ∧ (∀ k v, k ≠ "id" → fields d !! k = Some v →
                (∀ t, v ≠ Sc (Datetime t)) → resp !! k = Some v)
      ∧ (∀ k, k ≠ "id" → fields d !! k = None → resp !! k = None).
Proof.
  split; [done|]. intros d.
  exists (isoformat_value <$> <["id" := Sc (Str (Oid.str (_id d)))]> (fields d)).
  split_and!; [done| | | | |].
  - by rewrite lookup_fmap, lookup_insert_eq.
  - intros k t. rewrite lookup_fmap.
    destruct (_ !! k) as [[[]|]|]; simpl; congruence.
  - intros k t Hk Hf. rewrite lookup_serialized by done. by rewrite Hf.
  - intros k v Hk Hf Hv. rewrite lookup_serialized by done. rewrite Hf. simpl.
    f_equal. destruct v as [[]|]; try done. by destruct (Hv t).
  - intros k Hk Hf. rewrite lookup_serialized by done. by rewrite Hf.
Qed.

Lemma serialize_json_ready_witness :
  ∃ resp,
    serialize (Some (mkDocument crate_oid (stored "deliveryitem" crate_oid world2)))
    = Some resp
    ∧ resp !! "id" = Some (Sc (Str crate))
    ∧ resp !! "created_at" = Some (Sc (Iso 2))
    ∧ resp !! "expectedQty" = Some (Sc (Int 10)).
Proof.
  destruct (proj2 serialize_json_ready
              (mkDocument crate_oid (stored "deliveryitem" crate_oid world2)))
    as (resp & Hrun & Hid & _ & Hdate & Hother & _).
  exists resp. split_and!; [exact Hrun | | |].
  - etrans; [exact Hid|]. vm_compute. reflexivity.
  - apply Hdate; [discriminate|]. vm_compute. reflexivity.
  - apply Hother; [discriminate | vm_compute; reflexivity | discriminate].
Defined.

(** ** Creating a delivery *)

Lemma delivery_dump_fields (d : Delivery.t) :
  model_dump d !! "supplier" = Some (opt_str (Delivery.supplier d))
  ∧ model_dump d !! "reference" = Some (opt_str (Delivery.reference d))
  ∧ model_dump d !! "expectedDate" = Some (opt_datetime (Delivery.expectedDate d))
  ∧ model_dump d !! "meta" = Some (Sub (Delivery.meta d)).
Proof.
  unfold model_dump, Delivery.dump. split_and!.
  - apply lookup_insert_eq.
  - rewrite !lookup_insert_ne by done. apply lookup_insert_eq.
  - rewrite !lookup_insert_ne by done. apply lookup_insert_eq.
  - rewrite !lookup_insert_ne by done. apply lookup_singleton_eq.
Qed.

(** X17. Creating a delivery that succeeds inserts one new delivery and
    nothing else: it carries the payload's supplier, reference,
    expectedDate and meta (the empty meta included) as given, is stamped
    with created_at and updated_at, and is returned under the string of
    its new identifier; every other delivery and every item is as it
    was. *)
Theorem create_delivery_effect payload w r w' :
  create_delivery payload w = (Ok r, w') →
  ∃ f resp,
    collection "delivery" w !! next_oid w = None
    ∧ collection "delivery" w' = <[next_oid w := f]> (collection "delivery" w)
    ∧ collection "deliveryitem" w' = collection "deliveryitem" w
    ∧ f !! "supplier" = Some (opt_str (DeliveryCreateRequest.supplier payload))
    ∧ f !! "reference" = Some (opt_str (DeliveryCreateRequest.reference payload))
    ∧ f !! "expectedDate"
      = Some (opt_datetime (DeliveryCreateRequest.expectedDate payload))
    ∧ f !! "meta" = Some (Sub (DeliveryCreateRequest.meta payload))
    ∧ is_Some (f !! "created_at") ∧ is_Some (f !! "updated_at")
    ∧ r = Some resp
    ∧ resp !! "id" = Some (Sc (Str (Oid.str (next_oid w)))).
Proof.
  rewrite create_delivery_run. cbv zeta.
  destruct (collection "delivery" w !! next_oid w) eqn:Hfresh; [done|].
  intros [= <- <-].
  match goal with
  | |- context [ with_timestamps w (model_dump ?d) ] =>
      destruct (delivery_dump_fields d) as (H1 & H2 & H3 & H4);
      set (data := model_dump d) in *
  end.
  exists (with_timestamps w data).
  exists (isoformat_value <$>
            <["id" := Sc (Str (Oid.str (next_oid w)))]> (with_timestamps w data)).
  rewrite collection_set_eq, collection_set_ne by done.
  rewrite !with_timestamps_lookup by done.
  split_and!; try done.
  rewrite H4. simpl. by case_decide as Hm; [rewrite Hm|].
Qed.

Lemma create_delivery_effect_witness :
  let made := create_delivery (DeliveryCreateRequest.mk (Some "Acme") None None ∅)
                world0 in
  ∃ f resp,
    collection "delivery" made.2 = <[next_oid world0 := f]> (collection "delivery" world0)
    ∧ f !! "supplier" = Some (Sc (Str "Acme"))
    ∧ made.1 = Ok (Some resp)
    ∧ resp !! "id" = Some (Sc (Str (Oid.str (next_oid world0)))).
Proof.
  intros made.
  assert (Hok : succeeded made.1 = true) by (vm_compute; reflexivity).
  destruct (create_delivery_effect
              (DeliveryCreateRequest.mk (Some "Acme") None None ∅) world0 _ _
              (run_ok None _ _ Hok))
    as (f & resp & _ & Hd & _ & Hs & _ & _ & _ & _ & _ & Hr & Hid).
  exists f, resp. split_and!; [exact Hd | exact Hs | | exact Hid].
  exact (value_of_ok None _ _ Hok Hr).
Defined.

(** ** The store's integers *)

(** X18. In a receive call, an entry that would take its item's
    receivedQty to 2^63 or beyond makes the driver raise [OverflowError]:
    the clock has been read, nothing is written for the entry, and the
    call ends there, in the world the earlier entries left, with the
    delivery untouched. *)
Theorem receive_items_overflow delivery_id o f pre it post acc oi item received w w1 :
  Oid.parse delivery_id = Some o →
  collection "delivery" w !! o = Some f →
  for_each pre 0 (receive_entry delivery_id) w = (Ok acc, w1) →
  Oid.parse (ReceiveItemInput.itemId it) = Some oi →
  collection "deliveryitem" w1 !! oi = Some item →
  references delivery_id item →
  item_receivedQty w1 item = Ok received →
  0 ≤ ReceiveItemInput.qty it →
  2 ^ 63 ≤ received + ReceiveItemInput.qty it →
  receive_items delivery_id (ReceivePayload.mk (pre ++ it :: post)) w
  = (Raise OverflowError, tick w1)
  ∧ collection "deliveryitem" (tick w1) = collection "deliveryitem" w1
  ∧ collection "delivery" (tick w1) = collection "delivery" w.
Proof.
  intros Ho Hf Hpre Hoi Hitem Href Hr Hq Hbig.
  split_and!; [|done|].
  - rewrite receive_items_run, Ho, Hf. simpl ReceivePayload.items.
    rewrite for_each_app, Hpre. simpl for_each. unfold mbind, M_bind, bind.
    rewrite receive_entry_run, Hoi. unfold lookup_item. rewrite Hitem.
    rewrite decide_True by done. cbv zeta. simpl fields.
    rewrite (proj2 (Z.ltb_ge _ _) Hq), Hr.
    rewrite decide_False; [done|]. unfold int64. lia.
  - rewrite collection_tick. by eapply receive_loop_frame.
Qed.

Lemma receive_items_overflow_witness :
  receive_items acme (ReceivePayload.mk ([] ++ receive crate (2 ^ 63 - 4) :: [])) world3
  = (Raise OverflowError, tick world3)
  ∧ stored "deliveryitem" crate_oid (tick world3) !! "receivedQty" = Some (Sc (Int 4)).
Proof.
  split; [|vm_compute; reflexivity].
  apply (receive_items_overflow acme acme_oid (stored "delivery" acme_oid world3)
           [] (receive crate (2 ^ 63 - 4)) [] 0 crate_oid
           (stored "deliveryitem" crate_oid world3) 4 world3 world3).
  - vm_compute. reflexivity.
  - apply has_stored. vm_compute. reflexivity.
  - reflexivity.
  - vm_compute. reflexivity.
  - apply has_stored. vm_compute. reflexivity.
  - vm_compute. reflexivity.
  - vm_compute. reflexivity.
  - simpl. lia.
  - simpl. lia.
Defined.

(** ** Identifiers with whitespace *)

(** X19. An id string that [ObjectId] accepts but reads as other than 12
    bytes (24 characters with whitespace among the hexadecimal pairs) is
    not answered as invalid: no stored delivery has such an identifier,
    so get, add item and receive answer 404 with the world untouched, and
    send-to-quality and complete answer 404 after reading the clock. *)
Theorem short_id_unknown id_str o w :
  Oid.parse id_str = Some o →
  List.length o ≠ 12%nat →
  (∀ (o' : ObjectId) f,
     collection "delivery" w !! o' = Some f → List.length o' = 12%nat) →
  get_delivery id_str w = (Raise (HTTPException 404 "Delivery not found"), w)
  ∧ (∀ payload, add_delivery_item id_str payload w
                = (Raise (HTTPException 404 "Delivery not found"), w))
  ∧ (∀ payload, receive_items id_str payload w
                = (Raise (HTTPException 404 "Delivery not found"), w))
  ∧ send_to_quality id_str w
    = (Raise (HTTPException 404 "Delivery not found"), tick w)
  ∧ complete_delivery id_str w
    = (Raise (HTTPException 404 "Delivery not found"), tick w).
Proof.
  intros Ho Hlen Hstored.
  assert (Hnone : collection "delivery" w !! o = None).
  { destruct (collection "delivery" w !! o) as [f|] eqn:Hf; [|done].
    destruct Hlen. by eapply Hstored. }
  unfold send_to_quality, complete_delivery. split_and!; try intros payload.
  - by rewrite (get_delivery_run _ _ _ Ho), Hnone.
  - by rewrite (add_delivery_item_run _ _ _ _ Ho), Hnone.
  - by rewrite receive_items_run, Ho, Hnone.
  - by rewrite (set_delivery_status_run _ _ _ _ Ho), Hnone.
  - by rewrite (set_delivery_status_run _ _ _ _ Ho), Hnone.
Qed.

Lemma ids_checked (c : Collection) :
  bool_decide (map_Forall (λ (o' : ObjectId) _, List.length o' = 12%nat) c) = true →
  ∀ (o' : ObjectId) f, c !! o' = Some f → List.length o' = 12%nat.
Proof. intros Hc%bool_decide_eq_true o' f Hf. exact (Hc o' f Hf). Qed.

Lemma short_id_unknown_witness :
  send_to_quality "65 00 00 00 00 00 00 00 " world2
  = (Raise (HTTPException 404 "Delivery not found"), tick world2)
  ∧ get_delivery "65 00 00 00 00 00 00 00 " world2
    = (Raise (HTTPException 404 "Delivery not found"), world2).
Proof.
  destruct (short_id_unknown "65 00 00 00 00 00 00 00 "
              (Oid.be_bytes 8 0x6500000000000000) world2) as (Hg & _ & _ & Hs & _).
  - vm_compute. reflexivity.
  - vm_compute. discriminate.
  - apply ids_checked. vm_compute. reflexivity.
  - split; [exact Hs | exact Hg].
Defined.
